(** * Chit-fund server: storage, routes and credentials

    A shallow embedding of the server side of the chit-fund application:
    [shared/schema.ts] (entities and insert schemas), [server/storage.ts]
    (the in-process [MemStorage]), [server/auth.ts] (password hashing and the
    session-based routes) and [server/routes.ts] (the REST handlers).

    Conventions of the embedding.
    - The store is [MemStorage], the implementation the routes fall back to;
      [MongoStorage] offers the same operations over collections.
    - JavaScript integers are [Z]; [doublePrecision] columns (amounts, bids)
      are [Z] too: no handler computes with them, they are only stored and
      copied.
    - A [Map<number, T>] is an insertion-ordered association list ([JsMap]).
    - [new Date()] is the argument [now] (one reading per request);
      [randomBytes(16)] is the argument [rnd]; the platform functions the
      code calls ([scrypt], the [Date] parser) are the fields of a [Runtime]
      record, and every general statement holds for every [Runtime].
    - [req.params.id] is the number [parseInt] returned; a path segment that
      is not a number is not modelled.
    - A request body is either [Malformed] (zod rejects it: a value of the
      wrong type or out of range) or a record of optional, well-typed fields.
    - The session is the user id [passport] keeps for the caller, if any.
      [passport.session()] runs before every route and fails the request
      with 500 when the user of the session is not stored
      ([passportSession]); inside a route [req.user] is the stored user.
    - A handler is a state transformer over [Store] that either answers early
      ([respond]) or continues.
    - The store operations are synchronous and their promises are resolved
      at once, so a handler that awaits only the store runs without giving
      way to another request. The four routes that hash or compare a
      password await [scrypt], which runs on the thread pool: other requests
      run in between. Each of them is written as two handlers, the part up
      to the wait and the part after it; the server ([Server], [react])
      keeps the requests that wait and resumes them in any order. *)

From Stdlib Require Import ZArith List String Ascii Bool Lia.
From Stdlib.Strings Require Import Byte.
From Stdlib Require Import DecimalString.
Import ListNotations.

#[local] Open Scope string_scope.
#[local] Open Scope list_scope.
#[local] Open Scope Z_scope.

(** ** JavaScript [Map<number, V>]: insertion-ordered, one entry per key *)

Module JsMap.

Section Operations.
Context {V : Type}.

Definition t := list (Z * V).

Definition empty : t := [].

(** [m.get(k)] *)
Fixpoint get (k : Z) (m : t) : option V :=
  match m with
  | [] => None
  | (k', v) :: rest => if k' =? k then Some v else get k rest
  end.

(** [m.set(k, v)]: an existing key keeps its position, a new key is
    appended. *)
Fixpoint set (k : Z) (v : V) (m : t) : t :=
  match m with
  | [] => [(k, v)]
  | (k', v') :: rest =>
      if k' =? k then (k, v) :: rest else (k', v') :: set k v rest
  end.

(** [m.delete(k)] *)
Fixpoint delete (k : Z) (m : t) : t :=
  match m with
  | [] => []
  | (k', v') :: rest =>
      if k' =? k then rest else (k', v') :: delete k rest
  end.

(** [Array.from(m.values())], [Array.from(m.entries())], the keys. *)
Definition values (m : t) : list V := map snd m.
Definition entries (m : t) : list (Z * V) := m.
Definition keys (m : t) : list Z := map fst m.

(** Every key is below the bound: the shape a map filled through an id
    counter has. *)
Definition below (bound : Z) (m : t) : bool :=
  forallb (fun k => k <? bound) (keys m).

(** No key is under the bound. *)
Definition atLeast (bound : Z) (m : t) : bool :=
  forallb (fun k => bound <=? k) (keys m).

Fixpoint nodupb (l : list Z) : bool :=
  match l with
  | [] => true
  | k :: rest => negb (existsb (Z.eqb k) rest) && nodupb rest
  end.

Definition uniqueKeys (m : t) : bool := nodupb (keys m).
End Operations.

Arguments t : clear implicits.

End JsMap.

(** ** Entities ([shared/schema.ts], the [$inferSelect] types) *)

Module User.
Record t := mk {
  id : Z;
  username : string;
  password : string;
  phone : string;
  name : string;
  email : option string;
  role : string;
  isFirstLogin : bool;
  managerId : option Z;
  createdAt : Z
}.
End User.

Module ChitGroup.
Record t := mk {
  id : Z;
  name : string;
  value : Z;
  duration : Z;
  membersCount : Z;
  startDate : string;
  isActive : bool;
  createdBy : Z;
  createdAt : Z
}.
End ChitGroup.

Module ChitGroupMember.
Record t := mk {
  id : Z;
  chitGroupId : Z;
  userId : Z;
  joinDate : string;
  createdAt : Z
}.
End ChitGroupMember.

Module Auction.
Record t := mk {
  id : Z;
  chitGroupId : Z;
  auctionDate : string;
  winnerUserId : option Z;
  winningBid : option Z;
  status : string;
  monthNumber : Z;
  createdAt : Z
}.
End Auction.

Module Bid.
Record t := mk {
  id : Z;
  auctionId : Z;
  userId : Z;
  bidAmount : Z;
  bidTime : Z;
  createdAt : Z
}.
End Bid.

Module Payment.
Record t := mk {
  id : Z;
  chitGroupId : Z;
  userId : Z;
  amount : Z;
  paymentDate : string;
  monthNumber : Z;
  status : string;
  createdAt : Z
}.
End Payment.

Module Notification.
Record t := mk {
  id : Z;
  userId : Z;
  message : string;
  isRead : bool;
  type : string;
  createdAt : Z
}.
End Notification.

(** ** Insert types ([z.infer] of the insert schemas) and request bodies

    In an insert type a column that is [notNull] without default is a plain
    field, a column with a default is optional, a nullable column is optional
    and nullable ([option (option _)]: absent, [null], or a value). *)

Module InsertUser.
(** [email] and [managerId]: [None] stands for absent and for [null]; the
    store treats both alike ([userData.email || null]). *)
Record t := mk {
  username : string;
  password : string;
  phone : string;
  name : string;
  email : option string;
  role : string;
  isFirstLogin : option bool;
  managerId : option Z
}.
End InsertUser.

Module InsertChitGroup.
(** [createdBy] is not in the schema; the route adds it to the parsed
    data before the store sees it. *)
Record t := mk {
  name : string;
  value : Z;
  duration : Z;
  membersCount : Z;
  startDate : string;
  isActive : option bool;
  createdBy : option Z
}.
End InsertChitGroup.

Module InsertChitGroupMember.
Record t := mk {
  chitGroupId : Z;
  userId : Z;
  joinDate : string
}.
End InsertChitGroupMember.

Module InsertAuction.
Record t := mk {
  chitGroupId : Z;
  auctionDate : string;
  winnerUserId : option (option Z);
  winningBid : option (option Z);
  status : string;
  monthNumber : Z
}.
End InsertAuction.

Module InsertBid.
Record t := mk {
  auctionId : Z;
  userId : Z;
  bidAmount : Z
}.
End InsertBid.

Module InsertPayment.
Record t := mk {
  chitGroupId : Z;
  userId : Z;
  amount : Z;
  paymentDate : string;
  monthNumber : Z;
  status : string
}.
End InsertPayment.

Module InsertNotification.
Record t := mk {
  userId : Z;
  message : string;
  type : string
}.
End InsertNotification.

(** The fields a JSON body may carry for each schema; this is also the output
    type of the [.partial()] schemas, where every key is optional. Keys the
    schema does not know are stripped by zod and do not appear. *)

Module ChitGroupFields.
Record t := mk {
  name : option string;
  value : option Z;
  duration : option Z;
  membersCount : option Z;
  startDate : option string;
  isActive : option bool
}.
Definition none : t := mk None None None None None None.
End ChitGroupFields.

(** The body of [POST /api/register]. The route does not validate it: it
    is taken to have the shape of [InsertUser], but the password may be
    missing or not a string ([None]), which makes [scrypt] throw.
    [isFirstLogin] is not a field: the route overwrites it. *)
Module RegisterFields.
Record t := mk {
  username : string;
  password : option string;
  phone : string;
  name : string;
  email : option string;
  role : string;
  managerId : option Z
}.
End RegisterFields.

Module MemberFields.
Record t := mk {
  chitGroupId : option Z;
  userId : option Z;
  joinDate : option string
}.
End MemberFields.

Module AuctionFields.
Record t := mk {
  chitGroupId : option Z;
  auctionDate : option string;
  winnerUserId : option (option Z);
  winningBid : option (option Z);
  status : option string;
  monthNumber : option Z
}.
Definition none : t := mk None None None None None None.
End AuctionFields.

Module BidFields.
Record t := mk {
  auctionId : option Z;
  userId : option Z;
  bidAmount : option Z
}.
End BidFields.

Module PaymentFields.
Record t := mk {
  chitGroupId : option Z;
  userId : option Z;
  amount : option Z;
  paymentDate : option string;
  monthNumber : option Z;
  status : option string
}.
End PaymentFields.

(** [Partial<Payment>] as [PUT /api/payments/:id] hands it to the store: the
    body is not validated, so it may carry [id] and [createdAt] as well. *)
Module PartialPayment.
Record t := mk {
  id : option Z;
  chitGroupId : option Z;
  userId : option Z;
  amount : option Z;
  paymentDate : option string;
  monthNumber : option Z;
  status : option string;
  createdAt : option Z
}.
End PartialPayment.

(** [Partial<User>] as the two password-reset routes build it. *)
Module PartialUser.
Record t := mk {
  password : option string;
  isFirstLogin : option bool
}.
End PartialUser.

Inductive Body (F : Type) : Type :=
| Malformed
| Fields (fields : F).
Arguments Malformed {F}.
Arguments Fields {F} fields.

(** [{ ...old, ...patch }] for one key. *)
Definition spread {A : Type} (old : A) (patch : option A) : A :=
  match patch with
  | Some v => v
  | None => old
  end.

(** ** The platform *)

Definition bytes := list byte.

Record Runtime := {
  (** [crypto.scrypt(password, salt, keylen)] *)
  scrypt : string -> string -> Z -> bytes;
  (** [new Date(s).toISOString().split('T')[0]]; [None] when the date is
      invalid and [toISOString] throws. *)
  isoDay : string -> option string
}.

(** ** [MemStorage] *)

Record Store := mkStore {
  users : JsMap.t User.t;
  chitGroups : JsMap.t ChitGroup.t;
  chitGroupMembers : JsMap.t ChitGroupMember.t;
  auctions : JsMap.t Auction.t;
  bids : JsMap.t Bid.t;
  payments : JsMap.t Payment.t;
  notifications : JsMap.t Notification.t;
  userIdCounter : Z;
  chitGroupIdCounter : Z;
  chitGroupMemberIdCounter : Z;
  auctionIdCounter : Z;
  bidIdCounter : Z;
  paymentIdCounter : Z;
  notificationIdCounter : Z
}.

(** The constructor of [MemStorage]. *)
Definition newStore : Store :=
  mkStore JsMap.empty JsMap.empty JsMap.empty JsMap.empty JsMap.empty
          JsMap.empty JsMap.empty 1 1 1 1 1 1 1.

(** Assignments to one map together with its counter. *)
Definition withUsers (m : JsMap.t User.t) (c : Z) (s : Store) : Store :=
  mkStore m (chitGroups s) (chitGroupMembers s) (auctions s) (bids s)
          (payments s) (notifications s)
          c (chitGroupIdCounter s) (chitGroupMemberIdCounter s)
          (auctionIdCounter s) (bidIdCounter s) (paymentIdCounter s)
          (notificationIdCounter s).

Definition withChitGroups (m : JsMap.t ChitGroup.t) (c : Z) (s : Store) : Store :=
  mkStore (users s) m (chitGroupMembers s) (auctions s) (bids s)
          (payments s) (notifications s)
          (userIdCounter s) c (chitGroupMemberIdCounter s)
          (auctionIdCounter s) (bidIdCounter s) (paymentIdCounter s)
          (notificationIdCounter s).

Definition withChitGroupMembers (m : JsMap.t ChitGroupMember.t) (c : Z)
    (s : Store) : Store :=
  mkStore (users s) (chitGroups s) m (auctions s) (bids s)
          (payments s) (notifications s)
          (userIdCounter s) (chitGroupIdCounter s) c
          (auctionIdCounter s) (bidIdCounter s) (paymentIdCounter s)
          (notificationIdCounter s).

Definition withAuctions (m : JsMap.t Auction.t) (c : Z) (s : Store) : Store :=
  mkStore (users s) (chitGroups s) (chitGroupMembers s) m (bids s)
          (payments s) (notifications s)
          (userIdCounter s) (chitGroupIdCounter s) (chitGroupMemberIdCounter s)
          c (bidIdCounter s) (paymentIdCounter s)
          (notificationIdCounter s).

Definition withBids (m : JsMap.t Bid.t) (c : Z) (s : Store) : Store :=
  mkStore (users s) (chitGroups s) (chitGroupMembers s) (auctions s) m
          (payments s) (notifications s)
          (userIdCounter s) (chitGroupIdCounter s) (chitGroupMemberIdCounter s)
          (auctionIdCounter s) c (paymentIdCounter s)
          (notificationIdCounter s).

Definition withPayments (m : JsMap.t Payment.t) (c : Z) (s : Store) : Store :=
  mkStore (users s) (chitGroups s) (chitGroupMembers s) (auctions s) (bids s)
          m (notifications s)
          (userIdCounter s) (chitGroupIdCounter s) (chitGroupMemberIdCounter s)
          (auctionIdCounter s) (bidIdCounter s) c
          (notificationIdCounter s).

Definition withNotifications (m : JsMap.t Notification.t) (c : Z)
    (s : Store) : Store :=
  mkStore (users s) (chitGroups s) (chitGroupMembers s) (auctions s) (bids s)
          (payments s) m
          (userIdCounter s) (chitGroupIdCounter s) (chitGroupMemberIdCounter s)
          (auctionIdCounter s) (bidIdCounter s) (paymentIdCounter s)
          c.

(** [x || null] on a string and on a number: the empty string and [0] are
    falsy. *)
Definition truthyString (x : option string) : option string :=
  match x with
  | Some s => if String.eqb s "" then None else Some s
  | None => None
  end.

Definition truthyNumber (x : option Z) : option Z :=
  match x with
  | Some n => if n =? 0 then None else Some n
  | None => None
  end.

(** [x !== undefined ? x : null] on a nullable optional key. *)
Definition orNull {A : Type} (x : option (option A)) : option A :=
  match x with
  | Some v => v
  | None => None
  end.

Module MemStorage.

(** *** Users *)

Definition getUser (id : Z) (s : Store) : option User.t :=
  JsMap.get id (users s).

Definition getUserByUsername (username : string) (s : Store) : option User.t :=
  find (fun user => String.eqb (User.username user) username)
       (JsMap.values (users s)).

Definition createUser (now : Z) (userData : InsertUser.t) (s : Store)
  : User.t * Store :=
  let id := userIdCounter s in
  let createdAt := now in
  let email := truthyString (InsertUser.email userData) in
  let isFirstLogin := spread true (InsertUser.isFirstLogin userData) in
  let managerId :=
    if String.eqb (InsertUser.role userData) "customer"
    then truthyNumber (InsertUser.managerId userData)
    else None in
  let user :=
    User.mk id (InsertUser.username userData) (InsertUser.password userData)
            (InsertUser.phone userData) (InsertUser.name userData)
            email (InsertUser.role userData) isFirstLogin managerId
            createdAt in
  (user, withUsers (JsMap.set id user (users s)) (id + 1) s).

Definition updateUser (id : Z) (userData : PartialUser.t) (s : Store)
  : option User.t * Store :=
  match JsMap.get id (users s) with
  | None => (None, s)
  | Some user =>
      let updatedUser :=
        User.mk (User.id user) (User.username user)
                (spread (User.password user) (PartialUser.password userData))
                (User.phone user) (User.name user) (User.email user)
                (User.role user)
                (spread (User.isFirstLogin user)
                        (PartialUser.isFirstLogin userData))
                (User.managerId user) (User.createdAt user) in
      (Some updatedUser,
       withUsers (JsMap.set id updatedUser (users s)) (userIdCounter s) s)
  end.

Definition getAllUsers (s : Store) : list User.t := JsMap.values (users s).

Definition getCustomers (s : Store) : list User.t :=
  filter (fun user => String.eqb (User.role user) "customer")
         (JsMap.values (users s)).

Definition optZ_eqb (a : option Z) (b : Z) : bool :=
  match a with
  | Some x => x =? b
  | None => false
  end.

Definition getCustomersByManager (managerId : Z) (s : Store) : list User.t :=
  filter (fun user => String.eqb (User.role user) "customer"
                      && optZ_eqb (User.managerId user) managerId)
         (JsMap.values (users s)).

(** *** Chit groups *)

Definition createChitGroup (rt : Runtime) (now : Z)
    (chitGroupData : InsertChitGroup.t) (s : Store) : ChitGroup.t * Store :=
  let id := chitGroupIdCounter s in
  let createdAt := now in
  let isActive := spread true (InsertChitGroup.isActive chitGroupData) in
  (* a [startDate] that does not parse is kept as it was sent *)
  let startDate :=
    spread (InsertChitGroup.startDate chitGroupData)
           (isoDay rt (InsertChitGroup.startDate chitGroupData)) in
  let chitGroup :=
    ChitGroup.mk id (InsertChitGroup.name chitGroupData)
                 (InsertChitGroup.value chitGroupData)
                 (InsertChitGroup.duration chitGroupData)
                 (InsertChitGroup.membersCount chitGroupData)
                 startDate isActive
                 (spread 0 (truthyNumber (InsertChitGroup.createdBy chitGroupData)))
                 createdAt in
  (chitGroup, withChitGroups (JsMap.set id chitGroup (chitGroups s)) (id + 1) s).

Definition getChitGroup (id : Z) (s : Store) : option ChitGroup.t :=
  JsMap.get id (chitGroups s).

Definition getAllChitGroups (s : Store) : list ChitGroup.t :=
  JsMap.values (chitGroups s).

(** The [startDate] of an update after the conversion step: an empty
    string is falsy and passes unconverted, a date that does not parse is
    deleted from the update. *)
Definition processStartDate (rt : Runtime) (startDate : option string)
  : option string :=
  match truthyString startDate with
  | Some d => isoDay rt d
  | None => startDate
  end.

Definition updateChitGroup (rt : Runtime) (id : Z)
    (chitGroupData : ChitGroupFields.t) (s : Store)
  : option ChitGroup.t * Store :=
  match JsMap.get id (chitGroups s) with
  | None => (None, s)
  | Some chitGroup =>
      let startDate :=
        processStartDate rt (ChitGroupFields.startDate chitGroupData) in
      let updatedChitGroup :=
        ChitGroup.mk
          (ChitGroup.id chitGroup)
          (spread (ChitGroup.name chitGroup) (ChitGroupFields.name chitGroupData))
          (spread (ChitGroup.value chitGroup) (ChitGroupFields.value chitGroupData))
          (spread (ChitGroup.duration chitGroup)
                  (ChitGroupFields.duration chitGroupData))
          (spread (ChitGroup.membersCount chitGroup)
                  (ChitGroupFields.membersCount chitGroupData))
          (spread (ChitGroup.startDate chitGroup) startDate)
          (spread (ChitGroup.isActive chitGroup)
                  (ChitGroupFields.isActive chitGroupData))
          (ChitGroup.createdBy chitGroup)
          (ChitGroup.createdAt chitGroup) in
      (Some updatedChitGroup,
       withChitGroups (JsMap.set id updatedChitGroup (chitGroups s))
                      (chitGroupIdCounter s) s)
  end.

(** [memberEntries.map(m => chitGroups.get(m.chitGroupId)).filter(defined)] *)
Fixpoint definedOnly {A : Type} (l : list (option A)) : list A :=
  match l with
  | [] => []
  | Some x :: rest => x :: definedOnly rest
  | None :: rest => definedOnly rest
  end.

Definition getChitGroupsByUser (userId : Z) (s : Store) : list ChitGroup.t :=
  let memberEntries :=
    filter (fun member => ChitGroupMember.userId member =? userId)
           (JsMap.values (chitGroupMembers s)) in
  definedOnly
    (map (fun member =>
            JsMap.get (ChitGroupMember.chitGroupId member) (chitGroups s))
         memberEntries).

(** *** Memberships *)

Definition addMemberToChitGroup (now : Z)
    (memberData : InsertChitGroupMember.t) (s : Store)
  : ChitGroupMember.t * Store :=
  let id := chitGroupMemberIdCounter s in
  let createdAt := now in
  let member :=
    ChitGroupMember.mk id (InsertChitGroupMember.chitGroupId memberData)
                       (InsertChitGroupMember.userId memberData)
                       (InsertChitGroupMember.joinDate memberData)
                       createdAt in
  (member,
   withChitGroupMembers (JsMap.set id member (chitGroupMembers s)) (id + 1) s).

Definition getChitGroupMembers (chitGroupId : Z) (s : Store)
  : list ChitGroupMember.t :=
  filter (fun member => ChitGroupMember.chitGroupId member =? chitGroupId)
         (JsMap.values (chitGroupMembers s)).

Definition removeMemberFromChitGroup (chitGroupId userId : Z) (s : Store)
  : bool * Store :=
  let memberEntry :=
    find (fun entry =>
            (ChitGroupMember.chitGroupId (snd entry) =? chitGroupId)
            && (ChitGroupMember.userId (snd entry) =? userId))
         (JsMap.entries (chitGroupMembers s)) in
  match memberEntry with
  | None => (false, s)
  | Some entry =>
      (true,
       withChitGroupMembers (JsMap.delete (fst entry) (chitGroupMembers s))
                            (chitGroupMemberIdCounter s) s)
  end.

(** *** Auctions *)

Definition createAuction (now : Z) (auctionData : InsertAuction.t)
    (s : Store) : Auction.t * Store :=
  let id := auctionIdCounter s in
  let createdAt := now in
  let winnerUserId := orNull (InsertAuction.winnerUserId auctionData) in
  let winningBid := orNull (InsertAuction.winningBid auctionData) in
  let auction :=
    Auction.mk id (InsertAuction.chitGroupId auctionData)
               (InsertAuction.auctionDate auctionData)
               winnerUserId winningBid
               (InsertAuction.status auctionData)
               (InsertAuction.monthNumber auctionData)
               createdAt in
  (auction, withAuctions (JsMap.set id auction (auctions s)) (id + 1) s).

Definition getAuction (id : Z) (s : Store) : option Auction.t :=
  JsMap.get id (auctions s).

Definition getAuctionsByChitGroup (chitGroupId : Z) (s : Store)
  : list Auction.t :=
  filter (fun auction => Auction.chitGroupId auction =? chitGroupId)
         (JsMap.values (auctions s)).

(** [{ ...auction, ...auctionData }] *)
Definition mergeAuction (auction : Auction.t) (auctionData : AuctionFields.t)
  : Auction.t :=
  Auction.mk
    (Auction.id auction)
    (spread (Auction.chitGroupId auction) (AuctionFields.chitGroupId auctionData))
    (spread (Auction.auctionDate auction) (AuctionFields.auctionDate auctionData))
    (spread (Auction.winnerUserId auction)
            (AuctionFields.winnerUserId auctionData))
    (spread (Auction.winningBid auction) (AuctionFields.winningBid auctionData))
    (spread (Auction.status auction) (AuctionFields.status auctionData))
    (spread (Auction.monthNumber auction) (AuctionFields.monthNumber auctionData))
    (Auction.createdAt auction).

Definition updateAuction (id : Z) (auctionData : AuctionFields.t) (s : Store)
  : option Auction.t * Store :=
  match JsMap.get id (auctions s) with
  | None => (None, s)
  | Some auction =>
      let updatedAuction := mergeAuction auction auctionData in
      (Some updatedAuction,
       withAuctions (JsMap.set id updatedAuction (auctions s))
                    (auctionIdCounter s) s)
  end.

(** *** Bids *)

Definition createBid (now : Z) (bidData : InsertBid.t) (s : Store)
  : Bid.t * Store :=
  let id := bidIdCounter s in
  let createdAt := now in
  let bidTime := now in
  let bid :=
    Bid.mk id (InsertBid.auctionId bidData) (InsertBid.userId bidData)
           (InsertBid.bidAmount bidData) bidTime createdAt in
  (bid, withBids (JsMap.set id bid (bids s)) (id + 1) s).

Definition getBidsByAuction (auctionId : Z) (s : Store) : list Bid.t :=
  filter (fun bid => Bid.auctionId bid =? auctionId) (JsMap.values (bids s)).

(** *** Payments *)

Definition createPayment (now : Z) (paymentData : InsertPayment.t)
    (s : Store) : Payment.t * Store :=
  let id := paymentIdCounter s in
  let createdAt := now in
  let payment :=
    Payment.mk id (InsertPayment.chitGroupId paymentData)
               (InsertPayment.userId paymentData)
               (InsertPayment.amount paymentData)
               (InsertPayment.paymentDate paymentData)
               (InsertPayment.monthNumber paymentData)
               (InsertPayment.status paymentData)
               createdAt in
  (payment, withPayments (JsMap.set id payment (payments s)) (id + 1) s).

Definition getPaymentsByUser (userId : Z) (s : Store) : list Payment.t :=
  filter (fun payment => Payment.userId payment =? userId)
         (JsMap.values (payments s)).

Definition getPaymentsByChitGroup (chitGroupId : Z) (s : Store)
  : list Payment.t :=
  filter (fun payment => Payment.chitGroupId payment =? chitGroupId)
         (JsMap.values (payments s)).

Definition updatePayment (id : Z) (paymentData : PartialPayment.t)
    (s : Store) : option Payment.t * Store :=
  match JsMap.get id (payments s) with
  | None => (None, s)
  | Some payment =>
      let updatedPayment :=
        Payment.mk
          (spread (Payment.id payment) (PartialPayment.id paymentData))
          (spread (Payment.chitGroupId payment)
                  (PartialPayment.chitGroupId paymentData))
          (spread (Payment.userId payment) (PartialPayment.userId paymentData))
          (spread (Payment.amount payment) (PartialPayment.amount paymentData))
          (spread (Payment.paymentDate payment)
                  (PartialPayment.paymentDate paymentData))
          (spread (Payment.monthNumber payment)
                  (PartialPayment.monthNumber paymentData))
          (spread (Payment.status payment) (PartialPayment.status paymentData))
          (spread (Payment.createdAt payment)
                  (PartialPayment.createdAt paymentData)) in
      (Some updatedPayment,
       withPayments (JsMap.set id updatedPayment (payments s))
                    (paymentIdCounter s) s)
  end.

(** *** Notifications *)

Definition createNotification (now : Z)
    (notificationData : InsertNotification.t) (s : Store)
  : Notification.t * Store :=
  let id := notificationIdCounter s in
  let createdAt := now in
  let notification :=
    Notification.mk id (InsertNotification.userId notificationData)
                    (InsertNotification.message notificationData)
                    false
                    (InsertNotification.type notificationData)
                    createdAt in
  (notification,
   withNotifications (JsMap.set id notification (notifications s)) (id + 1) s).

Definition getNotificationsByUser (userId : Z) (s : Store)
  : list Notification.t :=
  filter (fun notification => Notification.userId notification =? userId)
         (JsMap.values (notifications s)).

Definition markNotificationAsRead (id : Z) (s : Store) : bool * Store :=
  match JsMap.get id (notifications s) with
  | None => (false, s)
  | Some notification =>
      let notification' :=
        Notification.mk (Notification.id notification)
                        (Notification.userId notification)
                        (Notification.message notification)
                        true
                        (Notification.type notification)
                        (Notification.createdAt notification) in
      (true,
       withNotifications (JsMap.set id notification' (notifications s))
                         (notificationIdCounter s) s)
  end.

End MemStorage.

(** The handlers are studied through the store operations, not through
    their bodies. *)
Arguments MemStorage.getUser : simpl never.
Arguments MemStorage.getUserByUsername : simpl never.
Arguments MemStorage.createUser : simpl never.
Arguments MemStorage.updateUser : simpl never.
Arguments MemStorage.createChitGroup : simpl never.
Arguments MemStorage.getChitGroup : simpl never.
Arguments MemStorage.getAllChitGroups : simpl never.
Arguments MemStorage.updateChitGroup : simpl never.
Arguments MemStorage.getChitGroupsByUser : simpl never.
Arguments MemStorage.addMemberToChitGroup : simpl never.
Arguments MemStorage.getChitGroupMembers : simpl never.
Arguments MemStorage.removeMemberFromChitGroup : simpl never.
Arguments MemStorage.createAuction : simpl never.
Arguments MemStorage.getAuction : simpl never.
Arguments MemStorage.updateAuction : simpl never.
Arguments MemStorage.createBid : simpl never.
Arguments MemStorage.getBidsByAuction : simpl never.
Arguments MemStorage.createPayment : simpl never.
Arguments MemStorage.updatePayment : simpl never.
Arguments MemStorage.createNotification : simpl never.
Arguments MemStorage.markNotificationAsRead : simpl never.

(** ** Credentials ([server/auth.ts], repeated inline in [server/routes.ts]) *)

Module Credentials.

(** [buf.toString("hex")]: two lower-case digits per byte. *)
Definition hexDigit (n : N) : ascii :=
  ascii_of_N (if (n <? 10)%N then 48 + n else 87 + n)%N.

Definition hexOfByte (b : byte) : string :=
  let n := Byte.to_N b in
  String (hexDigit (n / 16)) (String (hexDigit (n mod 16)) EmptyString).

Fixpoint toHex (buf : bytes) : string :=
  match buf with
  | [] => EmptyString
  | b :: rest => (hexOfByte b ++ toHex rest)%string
  end.

(** [Buffer.from(s, "hex")]: pairs of hex digits, either case, up to the
    first pair that is not one. The value of a digit, from its character
    code: ['0'..'9'] are 48..57, ['A'..'F'] 65..70, ['a'..'f'] 97..102. *)
Definition hexValue (c : ascii) : option N :=
  let code := N_of_ascii c in
  if (48 <=? code)%N && (code <=? 57)%N then Some (code - 48)%N
  else if (65 <=? code)%N && (code <=? 70)%N then Some (code - 55)%N
  else if (97 <=? code)%N && (code <=? 102)%N then Some (code - 87)%N
  else None.

Fixpoint fromHex (s : string) : bytes :=
  match s with
  | String hi (String lo rest) =>
      match hexValue hi, hexValue lo with
      | Some x, Some y =>
          match Byte.of_N (16 * x + y) with
          | Some b => b :: fromHex rest
          | None => []
          end
      | _, _ => []
      end
  | _ => []
  end.

(** [s.split(".")] *)
Fixpoint splitDot (s : string) : list string :=
  match s with
  | EmptyString => [EmptyString]
  | String c rest =>
      if Ascii.eqb c "."%char then EmptyString :: splitDot rest
      else match splitDot rest with
           | part :: parts => String c part :: parts
           | [] => [String c EmptyString]
           end
  end.

Fixpoint bytesEqb (a b : bytes) : bool :=
  match a, b with
  | [], [] => true
  | x :: a', y :: b' => Byte.eqb x y && bytesEqb a' b'
  | _, _ => false
  end.

(** [crypto.timingSafeEqual(a, b)]; [None] is the [RangeError] thrown for
    buffers of different length. *)
Definition timingSafeEqual (a b : bytes) : option bool :=
  if Nat.eqb (List.length a) (List.length b) then Some (bytesEqb a b)
  else None.

(** [hashPassword(password)]; [rnd] is what [randomBytes(16)] returned. *)
Definition hashPassword (rt : Runtime) (rnd : bytes) (password : string)
  : string :=
  let salt := toHex rnd in
  let buf := scrypt rt password salt 64 in
  (toHex buf ++ "." ++ salt)%string.

(** [comparePasswords(supplied, stored)]; [None] when it throws: a stored
    string without a dot leaves [salt] undefined and [scrypt] rejects it. *)
Definition comparePasswords (rt : Runtime) (supplied stored : string)
  : option bool :=
  match splitDot stored with
  | hashed :: salt :: _ =>
      let hashedBuf := fromHex hashed in
      let suppliedBuf := scrypt rt supplied salt 64 in
      timingSafeEqual hashedBuf suppliedBuf
  | _ => None
  end.

End Credentials.

(** ** HTTP responses and handlers *)

Module BidWithUser.
(** [{ ...bid, user: user ? { id, name } : null }] *)
Record t := mk {
  bid : Bid.t;
  user : option (Z * string)
}.
End BidWithUser.

Module UserWithoutPassword.
(** [const { password, ...userWithoutPassword } = user] *)
Record t := mk {
  id : Z;
  username : string;
  phone : string;
  name : string;
  email : option string;
  role : string;
  isFirstLogin : bool;
  managerId : option Z;
  createdAt : Z
}.
End UserWithoutPassword.

Inductive Json : Type :=
| JMessage (message : string)        (* [{ message }] *)
| JInvalid                           (* [{ message }] with zod's description *)
| JText (text : string)              (* [res.send(text)] *)
| JEnd                               (* [res.end()], no body *)
| JUndefined                         (* [res.json(undefined)] *)
| JUser (u : User.t)
| JUserWithoutPassword (u : UserWithoutPassword.t)
| JChitGroup (g : ChitGroup.t)
| JChitGroups (gs : list ChitGroup.t)
| JMember (m : ChitGroupMember.t)
| JAuction (a : Auction.t)
| JBid (b : Bid.t)
| JBids (bs : list BidWithUser.t)
| JPayment (p : Payment.t).

Record Response := mkResponse {
  status : Z;
  body : Json
}.

Definition jsonOpt {A : Type} (f : A -> Json) (x : option A) : Json :=
  match x with
  | Some v => f v
  | None => JUndefined
  end.

(** A handler runs over the store and either has answered ([inl]) or goes
    on with a value ([inr]). *)
Definition Handler (A : Type) : Type := Store -> (Response + A) * Store.

Definition ret {A : Type} (a : A) : Handler A := fun s => (inr a, s).

Definition bind {A B : Type} (h : Handler A) (k : A -> Handler B) : Handler B :=
  fun s =>
    match h s with
    | (inl r, s') => (inl r, s')
    | (inr a, s') => k a s'
    end.

(** [return res.status(code).json(...)] *)
Definition respond {A : Type} (code : Z) (j : Json) : Handler A :=
  fun s => (inl (mkResponse code j), s).

(** [await storage.read(...)] and [await storage.write(...)] *)
Definition query {A : Type} (f : Store -> A) : Handler A :=
  fun s => (inr (f s), s).

Definition command {A : Type} (f : Store -> A * Store) : Handler A :=
  fun s => (inr (fst (f s)), snd (f s)).

(** [if (cond) return res.status(code).json(...)] *)
Definition rejectIf (cond : bool) (code : Z) (j : Json) : Handler unit :=
  if cond then respond code j else ret tt.

(** [const x = ...; if (!x) return res.status(code).json(...)] *)
Definition orElse {A : Type} (x : option A) (code : Z) (j : Json) : Handler A :=
  match x with
  | Some v => ret v
  | None => respond code j
  end.

Declare Scope handler_scope.
Delimit Scope handler_scope with handler.
Notation "x <- h ;; k" := (bind h (fun x => k))
  (at level 61, h at next level, right associativity) : handler_scope.
Notation "h ;; k" := (bind h (fun _ => k))
  (at level 61, right associativity) : handler_scope.
#[local] Open Scope handler_scope.

(** The answer of a handler and the store it leaves. *)
Definition serve (h : Handler Response) (s : Store) : Response * Store :=
  match h s with
  | (inl r, s') => (r, s')
  | (inr r, s') => (r, s')
  end.

(** The session cookie: the user id [passport.serializeUser] stored, if the
    caller logged in. *)
Definition Session := option Z.

(** [req.user] as a route finds it: the stored user of the session id, set
    by [passport.session()] before the route runs; without a session there
    is none. A request whose session names a user that is not stored does
    not get as far as a route: [passportSession], further down, answers it
    with 500. *)
Definition reqUser (session : Session) : Handler (option User.t) :=
  match session with
  | Some id => query (MemStorage.getUser id)
  | None => ret None
  end.

Definition isSome {A : Type} (x : option A) : bool :=
  match x with
  | Some _ => true
  | None => false
  end.

(** [validateRequest(req, schema)]: the parsed data, or [None] for
    [{ data: null, error }]. *)
Definition validateRequest {F D : Type} (schema : F -> option D)
    (reqBody : Body F) : option D :=
  match reqBody with
  | Malformed => None
  | Fields fields => schema fields
  end.

(** The middleware [isAuthenticated] and [isManager]; [ret user] is
    [next()] with [req.user] set. *)
Definition isAuthenticated (session : Session) : Handler User.t :=
  user <- reqUser session ;;
  rejectIf (negb (isSome user)) 401 (JMessage "Unauthorized") ;;
  orElse user 401 (JMessage "User not found in session").

Definition isManager (session : Session) : Handler User.t :=
  user <- reqUser session ;;
  rejectIf (negb (isSome user)) 401 (JMessage "Unauthorized") ;;
  user <- orElse user 401 (JMessage "User not found in session") ;;
  rejectIf (negb (String.eqb (User.role user) "manager")) 403
           (JMessage "Forbidden - Manager access required") ;;
  ret user.

(** ** The insert schemas as parsers ([schema.parse]) *)

Module Schema.

Definition insertChitGroupSchema (f : ChitGroupFields.t)
  : option InsertChitGroup.t :=
  match ChitGroupFields.name f, ChitGroupFields.value f,
        ChitGroupFields.duration f, ChitGroupFields.membersCount f,
        ChitGroupFields.startDate f with
  | Some name, Some value, Some duration, Some membersCount, Some startDate =>
      Some (InsertChitGroup.mk name value duration membersCount startDate
                               (ChitGroupFields.isActive f) None)
  | _, _, _, _, _ => None
  end.

(** [insertChitGroupSchema.partial()] *)
Definition partialChitGroupSchema (f : ChitGroupFields.t)
  : option ChitGroupFields.t := Some f.

Definition insertChitGroupMemberSchema (f : MemberFields.t)
  : option InsertChitGroupMember.t :=
  match MemberFields.chitGroupId f, MemberFields.userId f,
        MemberFields.joinDate f with
  | Some chitGroupId, Some userId, Some joinDate =>
      Some (InsertChitGroupMember.mk chitGroupId userId joinDate)
  | _, _, _ => None
  end.

Definition insertAuctionSchema (f : AuctionFields.t) : option InsertAuction.t :=
  match AuctionFields.chitGroupId f, AuctionFields.auctionDate f,
        AuctionFields.status f, AuctionFields.monthNumber f with
  | Some chitGroupId, Some auctionDate, Some status, Some monthNumber =>
      Some (InsertAuction.mk chitGroupId auctionDate
                             (AuctionFields.winnerUserId f)
                             (AuctionFields.winningBid f)
                             status monthNumber)
  | _, _, _, _ => None
  end.

(** [insertAuctionSchema.partial()] *)
Definition partialAuctionSchema (f : AuctionFields.t)
  : option AuctionFields.t := Some f.

Definition insertBidSchema (f : BidFields.t) : option InsertBid.t :=
  match BidFields.auctionId f, BidFields.userId f, BidFields.bidAmount f with
  | Some auctionId, Some userId, Some bidAmount =>
      Some (InsertBid.mk auctionId userId bidAmount)
  | _, _, _ => None
  end.

Definition insertPaymentSchema (f : PaymentFields.t) : option InsertPayment.t :=
  match PaymentFields.chitGroupId f, PaymentFields.userId f,
        PaymentFields.amount f, PaymentFields.paymentDate f,
        PaymentFields.monthNumber f, PaymentFields.status f with
  | Some chitGroupId, Some userId, Some amount, Some paymentDate,
    Some monthNumber, Some status =>
      Some (InsertPayment.mk chitGroupId userId amount paymentDate
                             monthNumber status)
  | _, _, _, _, _, _ => None
  end.

End Schema.

(** ** [server/routes.ts] *)

Module Routes.

Import MemStorage.

(** [members.some(member => member.userId === userId)] *)
Definition someMember (userId : Z) (members : list ChitGroupMember.t) : bool :=
  existsb (fun member => ChitGroupMember.userId member =? userId) members.

(** [GET /api/chitgroups] *)
Definition getChitGroups (session : Session) : Handler Response :=
  user <- isAuthenticated session ;;
  if String.eqb (User.role user) "manager" then
    allChitGroups <- query getAllChitGroups ;;
    let managerChitGroups :=
      filter (fun group => ChitGroup.createdBy group =? User.id user)
             allChitGroups in
    ret (mkResponse 200 (JChitGroups managerChitGroups))
  else
    chitGroups <- query (getChitGroupsByUser (User.id user)) ;;
    ret (mkResponse 200 (JChitGroups chitGroups)).

(** [GET /api/chitgroups/:id] *)
Definition getChitGroupById (session : Session) (chitGroupId : Z)
  : Handler Response :=
  user <- isAuthenticated session ;;
  chitGroup <- query (getChitGroup chitGroupId) ;;
  chitGroup <- orElse chitGroup 404 (JMessage "Chit group not found") ;;
  (if String.eqb (User.role user) "manager" then
     rejectIf (negb (ChitGroup.createdBy chitGroup =? User.id user)) 403
              (JMessage "You can only access chit groups you've created")
   else
     members <- query (getChitGroupMembers chitGroupId) ;;
     let isMember := someMember (User.id user) members in
     rejectIf (negb isMember) 403
              (JMessage "You are not a member of this chit group")) ;;
  ret (mkResponse 200 (JChitGroup chitGroup)).

(** [POST /api/chitgroups] *)
Definition postChitGroup (rt : Runtime) (now : Z) (session : Session)
    (reqBody : Body ChitGroupFields.t) : Handler Response :=
  user <- isManager session ;;
  data <- orElse (validateRequest Schema.insertChitGroupSchema reqBody)
                 400 JInvalid ;;
  chitGroup <- command
    (createChitGroup rt now
       (InsertChitGroup.mk
          (InsertChitGroup.name data) (InsertChitGroup.value data)
          (InsertChitGroup.duration data) (InsertChitGroup.membersCount data)
          (InsertChitGroup.startDate data) (InsertChitGroup.isActive data)
          (Some (User.id user)))) ;;
  ret (mkResponse 201 (JChitGroup chitGroup)).

(** [PUT /api/chitgroups/:id] *)
Definition putChitGroup (rt : Runtime) (session : Session) (chitGroupId : Z)
    (reqBody : Body ChitGroupFields.t) : Handler Response :=
  user <- isManager session ;;
  chitGroup <- query (getChitGroup chitGroupId) ;;
  chitGroup <- orElse chitGroup 404 (JMessage "Chit group not found") ;;
  data <- orElse (validateRequest Schema.partialChitGroupSchema reqBody)
                 400 JInvalid ;;
  updatedChitGroup <- command (updateChitGroup rt chitGroupId data) ;;
  ret (mkResponse 200 (jsonOpt JChitGroup updatedChitGroup)).

(** [POST /api/chitgroups/:id/members] *)
Definition postChitGroupMember (now : Z) (session : Session)
    (chitGroupId : Z) (reqBody : Body MemberFields.t) : Handler Response :=
  reqUser <- isManager session ;;
  chitGroup <- query (getChitGroup chitGroupId) ;;
  chitGroup <- orElse chitGroup 404 (JMessage "Chit group not found") ;;
  let managerId := User.id reqUser in
  rejectIf (negb (ChitGroup.createdBy chitGroup =? managerId)) 403
           (JMessage "You can only add members to chit groups you've created") ;;
  data <- orElse (validateRequest Schema.insertChitGroupMemberSchema reqBody)
                 400 JInvalid ;;
  user <- query (getUser (InsertChitGroupMember.userId data)) ;;
  user <- orElse user 404 (JMessage "User not found") ;;
  rejectIf (String.eqb (User.role user) "customer"
            && negb (optZ_eqb (User.managerId user) managerId)) 403
           (JMessage "You can only add customers you manage to chit groups") ;;
  members <- query (getChitGroupMembers chitGroupId) ;;
  let isAlreadyMember :=
    someMember (InsertChitGroupMember.userId data) members in
  rejectIf isAlreadyMember 400
           (JMessage "User is already a member of this chit group") ;;
  member <- command
    (addMemberToChitGroup now
       (InsertChitGroupMember.mk chitGroupId
          (InsertChitGroupMember.userId data)
          (InsertChitGroupMember.joinDate data))) ;;
  ret (mkResponse 201 (JMember member)).

(** [DELETE /api/chitgroups/:groupId/members/:userId] *)
Definition deleteChitGroupMember (session : Session) (chitGroupId userId : Z)
  : Handler Response :=
  reqUser <- isManager session ;;
  chitGroup <- query (getChitGroup chitGroupId) ;;
  chitGroup <- orElse chitGroup 404 (JMessage "Chit group not found") ;;
  let managerId := User.id reqUser in
  rejectIf (negb (ChitGroup.createdBy chitGroup =? managerId)) 403
           (JMessage "You can only remove members from chit groups you've created") ;;
  user <- query (getUser userId) ;;
  rejectIf (match user with
            | Some user => String.eqb (User.role user) "customer"
                           && negb (optZ_eqb (User.managerId user) managerId)
            | None => false
            end) 403
           (JMessage "You can only manage customers assigned to you") ;;
  membersBefore <- query (getChitGroupMembers chitGroupId) ;;
  let memberExists := someMember userId membersBefore in
  rejectIf (negb memberExists) 404
           (JMessage "Member not found in this chit group") ;;
  success <- command (removeMemberFromChitGroup chitGroupId userId) ;;
  rejectIf (negb success) 404
           (JMessage "Member not found in this chit group") ;;
  ret (mkResponse 204 JEnd).

(** [POST /api/chitgroups/:id/auctions] *)
Definition postChitGroupAuction (now : Z) (session : Session)
    (chitGroupId : Z) (reqBody : Body AuctionFields.t) : Handler Response :=
  _ <- isManager session ;;
  chitGroup <- query (getChitGroup chitGroupId) ;;
  _ <- orElse chitGroup 404 (JMessage "Chit group not found") ;;
  data <- orElse (validateRequest Schema.insertAuctionSchema reqBody)
                 400 JInvalid ;;
  auction <- command
    (createAuction now
       (InsertAuction.mk chitGroupId
          (InsertAuction.auctionDate data) (InsertAuction.winnerUserId data)
          (InsertAuction.winningBid data) (InsertAuction.status data)
          (InsertAuction.monthNumber data))) ;;
  ret (mkResponse 201 (JAuction auction)).

(** [PUT /api/auctions/:id] *)
Definition putAuction (session : Session) (auctionId : Z)
    (reqBody : Body AuctionFields.t) : Handler Response :=
  _ <- isManager session ;;
  auction <- query (getAuction auctionId) ;;
  _ <- orElse auction 404 (JMessage "Auction not found") ;;
  data <- orElse (validateRequest Schema.partialAuctionSchema reqBody)
                 400 JInvalid ;;
  updatedAuction <- command (updateAuction auctionId data) ;;
  ret (mkResponse 200 (jsonOpt JAuction updatedAuction)).

(** [GET /api/auctions/:id/bids] *)
Definition bidWithUserDetails (s : Store) (bid : Bid.t) : BidWithUser.t :=
  BidWithUser.mk bid
    (match getUser (Bid.userId bid) s with
     | Some user => Some (User.id user, User.name user)
     | None => None
     end).

Definition getAuctionBids (session : Session) (auctionId : Z)
  : Handler Response :=
  _ <- isAuthenticated session ;;
  auction <- query (getAuction auctionId) ;;
  _ <- orElse auction 404 (JMessage "Auction not found") ;;
  bids <- query (getBidsByAuction auctionId) ;;
  bidsWithUserDetails <- query (fun s => map (bidWithUserDetails s) bids) ;;
  ret (mkResponse 200 (JBids bidsWithUserDetails)).

(** [POST /api/auctions/:id/bids] *)
Definition postAuctionBid (now : Z) (session : Session) (auctionId : Z)
    (reqBody : Body BidFields.t) : Handler Response :=
  user <- isAuthenticated session ;;
  auction <- query (getAuction auctionId) ;;
  auction <- orElse auction 404 (JMessage "Auction not found") ;;
  rejectIf (negb (String.eqb (Auction.status auction) "scheduled")) 400
           (JMessage "Cannot place bid on a completed or cancelled auction") ;;
  (if String.eqb (User.role user) "customer" then
     members <- query (getChitGroupMembers (Auction.chitGroupId auction)) ;;
     let isMember := someMember (User.id user) members in
     rejectIf (negb isMember) 403
              (JMessage "You are not a member of this chit group")
   else ret tt) ;;
  data <- orElse (validateRequest Schema.insertBidSchema reqBody)
                 400 JInvalid ;;
  bid <- command
    (createBid now
       (InsertBid.mk auctionId (User.id user) (InsertBid.bidAmount data))) ;;
  ret (mkResponse 201 (JBid bid)).

(** [${n}] in a template string, for an integer. *)
Definition showNumber (n : Z) : string :=
  NilZero.string_of_int (Z.to_int n).

(** The rupee sign, U+20B9, as its three UTF-8 bytes. *)
Definition rupee : string :=
  String (ascii_of_nat 226)
    (String (ascii_of_nat 130) (String (ascii_of_nat 185) EmptyString)).

Definition paymentMessage (data : InsertPayment.t) (chitGroup : ChitGroup.t)
  : string :=
  ("Your payment of " ++ rupee ++ showNumber (InsertPayment.amount data)
   ++ " for " ++ ChitGroup.name chitGroup
   ++ ", month " ++ showNumber (InsertPayment.monthNumber data)
   ++ " has been recorded as " ++ InsertPayment.status data ++ ".")%string.

(** [POST /api/payments] *)
Definition postPayment (now : Z) (session : Session)
    (reqBody : Body PaymentFields.t) : Handler Response :=
  _ <- isManager session ;;
  data <- orElse (validateRequest Schema.insertPaymentSchema reqBody)
                 400 JInvalid ;;
  chitGroup <- query (getChitGroup (InsertPayment.chitGroupId data)) ;;
  chitGroup <- orElse chitGroup 404 (JMessage "Chit group not found") ;;
  user <- query (getUser (InsertPayment.userId data)) ;;
  _ <- orElse user 404 (JMessage "User not found") ;;
  members <- query (getChitGroupMembers (InsertPayment.chitGroupId data)) ;;
  let isMember := someMember (InsertPayment.userId data) members in
  rejectIf (negb isMember) 400
           (JMessage "User is not a member of this chit group") ;;
  payment <- command (createPayment now data) ;;
  _ <- command
    (createNotification now
       (InsertNotification.mk (InsertPayment.userId data)
                              (paymentMessage data chitGroup)
                              "payment")) ;;
  ret (mkResponse 201 (JPayment payment)).

(** [PUT /api/payments/:id]; the body goes to the store as it came. *)
Definition putPayment (session : Session) (paymentId : Z)
    (reqBody : PartialPayment.t) : Handler Response :=
  _ <- isManager session ;;
  payment <- command (updatePayment paymentId reqBody) ;;
  payment <- orElse payment 404 (JMessage "Payment not found") ;;
  ret (mkResponse 200 (JPayment payment)).

(** [POST /api/notifications/:id/read] *)
Definition postNotificationRead (session : Session) (notificationId : Z)
  : Handler Response :=
  _ <- isAuthenticated session ;;
  success <- command (markNotificationAsRead notificationId) ;;
  rejectIf (negb success) 404 (JMessage "Notification not found") ;;
  ret (mkResponse 204 JEnd).

Definition withoutPassword (user : User.t) : UserWithoutPassword.t :=
  UserWithoutPassword.mk (User.id user) (User.username user)
    (User.phone user) (User.name user) (User.email user) (User.role user)
    (User.isFirstLogin user) (User.managerId user) (User.createdAt user).

(** [POST /api/customers]; [reqBody] is read through
    [insertUserSchema.extend({ isFirstLogin: z.boolean().default(true) })]:
    here a body that parsed, or [Malformed].

    The handler awaits [hashPassword] between the username test and
    [createUser]. [postCustomerChecks] is the handler up to that wait; it
    hands on [req.user] and the parsed body. [postCustomerCreate] is the
    handler from there on, run when scrypt has answered, on the store as it
    is then. [postCustomer] is the request when no other request runs in
    between. *)
Definition postCustomerChecks (session : Session)
    (reqBody : Body InsertUser.t) : Handler (User.t * InsertUser.t) :=
  reqUser <- isManager session ;;
  data <- orElse (validateRequest Some reqBody) 400 JInvalid ;;
  existingUser <- query (getUserByUsername (InsertUser.username data)) ;;
  rejectIf (isSome existingUser) 400 (JMessage "Username already exists") ;;
  ret (reqUser, data).

Definition postCustomerCreate (rt : Runtime) (now : Z) (rnd : bytes)
    (reqUser : User.t) (data : InsertUser.t) : Handler Response :=
  let managerId := User.id reqUser in
  user <- command
    (createUser now
       (InsertUser.mk
          (InsertUser.username data)
          (Credentials.hashPassword rt rnd (InsertUser.password data))
          (InsertUser.phone data) (InsertUser.name data)
          (InsertUser.email data) "customer"
          (Some (spread true (InsertUser.isFirstLogin data)))
          (Some managerId))) ;;
  ret (mkResponse 201 (JUserWithoutPassword (withoutPassword user))).

Definition postCustomer (rt : Runtime) (now : Z) (rnd : bytes)
    (session : Session) (reqBody : Body InsertUser.t) : Handler Response :=
  checked <- postCustomerChecks session reqBody ;;
  postCustomerCreate rt now rnd (fst checked) (snd checked).

(** The body of [POST /api/users/:userId/reset-password]. *)
Record ResetFields := mkResetFields {
  currentPassword : option string;
  newPassword : option string
}.

(** [POST /api/users/:userId/reset-password]. The route has no middleware:
    [session] is an argument only to say that the handler never reads
    it.

    The handler awaits scrypt twice, in [comparePasswords] and in
    [hashPassword]; it reads the store before the first wait and writes it
    after the second, and between the two it only looks at the outcome of
    the comparison. [postUserResetPasswordChecks] is the handler up to the
    second wait and hands on the new password;
    [postUserResetPasswordUpdate] is the handler from there on, run on the
    store as it is then. [postUserResetPassword] is the request when no
    other request runs in between. *)
Definition postUserResetPasswordChecks (rt : Runtime) (userId : Z)
    (reqBody : ResetFields) : Handler string :=
  rejectIf ((userId =? 0)
            || negb (isSome (truthyString (currentPassword reqBody)))
            || negb (isSome (truthyString (newPassword reqBody)))) 400
           (JMessage "Missing required fields") ;;
  user <- query (getUser userId) ;;
  user <- orElse user 404 (JMessage "User not found") ;;
  passwordCorrect <-
    orElse (Credentials.comparePasswords rt
              (spread EmptyString (currentPassword reqBody))
              (User.password user))
           500 (JMessage "Failed to update password") ;;
  rejectIf (negb passwordCorrect) 400
           (JMessage "Current password is incorrect") ;;
  ret (spread EmptyString (newPassword reqBody)).

Definition postUserResetPasswordUpdate (rt : Runtime) (rnd : bytes)
    (userId : Z) (newPassword : string) : Handler Response :=
  _ <- command
    (updateUser userId
       (PartialUser.mk
          (Some (Credentials.hashPassword rt rnd newPassword))
          (Some false))) ;;
  ret (mkResponse 200 (JMessage "Password updated successfully")).

Definition postUserResetPassword (rt : Runtime) (rnd : bytes)
    (session : Session) (userId : Z) (reqBody : ResetFields)
  : Handler Response :=
  newPassword <- postUserResetPasswordChecks rt userId reqBody ;;
  postUserResetPasswordUpdate rt rnd userId newPassword.

End Routes.

(** ** The routes of [setupAuth] ([server/auth.ts]) *)

Module Auth.

Import MemStorage.

(** [POST /api/register]. The body is not validated ([RegisterFields]).
    The handler awaits [hashPassword] between the username test and
    [createUser]. [registerChecks] is the handler up to that wait:
    [hashPassword(req.body.password)] throws at once for a password that is
    not a string, which [next(error)] turns into 500; otherwise the handler
    waits for scrypt with that password. [registerCreate] is the handler
    from there on, run on the store as it is when scrypt has answered.
    [register] is the request when no other request runs in between. The
    login of the new user that follows an anonymous registration changes
    the session only. *)
Definition registerChecks (session : Session) (reqBody : RegisterFields.t)
  : Handler string :=
  user <- reqUser session ;;
  let isManagerUser :=
    match user with
    | Some u => String.eqb (User.role u) "manager"
    | None => false
    end in
  rejectIf (isSome user && negb isManagerUser) 403
           (JText "Only managers can register new users") ;;
  rejectIf (String.eqb (RegisterFields.role reqBody) "customer"
            && (negb (isSome user) || negb isManagerUser)) 403
           (JText "Only managers can create customer accounts") ;;
  rejectIf (String.eqb (RegisterFields.role reqBody) "manager" && isSome user)
           403 (JText "Cannot create manager accounts while logged in") ;;
  existingUser <- query (getUserByUsername (RegisterFields.username reqBody)) ;;
  rejectIf (isSome existingUser) 400 (JText "Username already exists") ;;
  orElse (RegisterFields.password reqBody) 500 JEnd.

Definition registerCreate (rt : Runtime) (now : Z) (rnd : bytes)
    (reqBody : RegisterFields.t) (password : string) : Handler Response :=
  let hashedPassword := Credentials.hashPassword rt rnd password in
  user <- command
    (createUser now
       (InsertUser.mk
          (RegisterFields.username reqBody) hashedPassword
          (RegisterFields.phone reqBody) (RegisterFields.name reqBody)
          (RegisterFields.email reqBody) (RegisterFields.role reqBody)
          (Some true) (RegisterFields.managerId reqBody))) ;;
  ret (mkResponse 201 (JUser user)).

Definition register (rt : Runtime) (now : Z) (rnd : bytes)
    (session : Session) (reqBody : RegisterFields.t) : Handler Response :=
  password <- registerChecks session reqBody ;;
  registerCreate rt now rnd reqBody password.

(** [POST /api/reset-password]. A body without [newPassword] makes
    [scrypt] throw, which Express answers with 500. The handler awaits
    [hashPassword] between reading [req.user] and [updateUser]:
    [postResetPasswordChecks] is the handler up to that wait,
    [postResetPasswordUpdate] the handler from there on, which updates the
    user stored under [req.user.id] at that time. *)
Definition postResetPasswordChecks (session : Session)
    (newPassword : option string) : Handler (User.t * string) :=
  user <- reqUser session ;;
  rejectIf (negb (isSome user)) 401 (JText "Not authenticated") ;;
  user <- orElse user 401 (JText "User not found") ;;
  newPassword <- orElse newPassword 500 JEnd ;;
  ret (user, newPassword).

Definition postResetPasswordUpdate (rt : Runtime) (rnd : bytes)
    (user : User.t) (newPassword : string) : Handler Response :=
  let hashedPassword := Credentials.hashPassword rt rnd newPassword in
  updatedUser <- command
    (updateUser (User.id user)
       (PartialUser.mk (Some hashedPassword) (Some false))) ;;
  ret (mkResponse 200 (jsonOpt JUser updatedUser)).

Definition postResetPassword (rt : Runtime) (rnd : bytes)
    (session : Session) (newPassword : option string) : Handler Response :=
  checked <- postResetPasswordChecks session newPassword ;;
  postResetPasswordUpdate rt rnd (fst checked) (snd checked).

End Auth.

(** ** The server as a transition system *)

Inductive Request : Type :=
| Register (now : Z) (rnd : bytes) (session : Session)
    (reqBody : RegisterFields.t)
| PostResetPassword (rnd : bytes) (session : Session)
    (newPassword : option string)
| GetChitGroups (session : Session)
| GetChitGroupById (session : Session) (chitGroupId : Z)
| PostChitGroup (now : Z) (session : Session) (reqBody : Body ChitGroupFields.t)
| PutChitGroup (session : Session) (chitGroupId : Z)
    (reqBody : Body ChitGroupFields.t)
| PostChitGroupMember (now : Z) (session : Session) (chitGroupId : Z)
    (reqBody : Body MemberFields.t)
| DeleteChitGroupMember (session : Session) (chitGroupId userId : Z)
| PostChitGroupAuction (now : Z) (session : Session) (chitGroupId : Z)
    (reqBody : Body AuctionFields.t)
| PutAuction (session : Session) (auctionId : Z)
    (reqBody : Body AuctionFields.t)
| GetAuctionBids (session : Session) (auctionId : Z)
| PostAuctionBid (now : Z) (session : Session) (auctionId : Z)
    (reqBody : Body BidFields.t)
| PostPayment (now : Z) (session : Session) (reqBody : Body PaymentFields.t)
| PutPayment (session : Session) (paymentId : Z) (reqBody : PartialPayment.t)
| PostNotificationRead (session : Session) (notificationId : Z)
| PostCustomer (now : Z) (rnd : bytes) (session : Session)
    (reqBody : Body InsertUser.t)
| PostUserResetPassword (rnd : bytes) (session : Session) (userId : Z)
    (reqBody : Routes.ResetFields).

Definition handle (rt : Runtime) (req : Request) : Handler Response :=
  match req with
  | Register now rnd session reqBody =>
      Auth.register rt now rnd session reqBody
  | PostResetPassword rnd session newPassword =>
      Auth.postResetPassword rt rnd session newPassword
  | GetChitGroups session => Routes.getChitGroups session
  | GetChitGroupById session chitGroupId =>
      Routes.getChitGroupById session chitGroupId
  | PostChitGroup now session reqBody =>
      Routes.postChitGroup rt now session reqBody
  | PutChitGroup session chitGroupId reqBody =>
      Routes.putChitGroup rt session chitGroupId reqBody
  | PostChitGroupMember now session chitGroupId reqBody =>
      Routes.postChitGroupMember now session chitGroupId reqBody
  | DeleteChitGroupMember session chitGroupId userId =>
      Routes.deleteChitGroupMember session chitGroupId userId
  | PostChitGroupAuction now session chitGroupId reqBody =>
      Routes.postChitGroupAuction now session chitGroupId reqBody
  | PutAuction session auctionId reqBody =>
      Routes.putAuction session auctionId reqBody
  | GetAuctionBids session auctionId => Routes.getAuctionBids session auctionId
  | PostAuctionBid now session auctionId reqBody =>
      Routes.postAuctionBid now session auctionId reqBody
  | PostPayment now session reqBody => Routes.postPayment now session reqBody
  | PutPayment session paymentId reqBody =>
      Routes.putPayment session paymentId reqBody
  | PostNotificationRead session notificationId =>
      Routes.postNotificationRead session notificationId
  | PostCustomer now rnd session reqBody =>
      Routes.postCustomer rt now rnd session reqBody
  | PostUserResetPassword rnd session userId reqBody =>
      Routes.postUserResetPassword rt rnd session userId reqBody
  end.

(** The session a request comes with. *)
Definition sessionOf (req : Request) : Session :=
  match req with
  | Register _ _ session _ | PostResetPassword _ session _
  | GetChitGroups session | GetChitGroupById session _
  | PostChitGroup _ session _ | PutChitGroup session _ _
  | PostChitGroupMember _ session _ _ | DeleteChitGroupMember session _ _
  | PostChitGroupAuction _ session _ _ | PutAuction session _ _
  | GetAuctionBids session _ | PostAuctionBid _ session _ _
  | PostPayment _ session _ | PutPayment session _ _
  | PostNotificationRead session _ | PostCustomer _ _ session _
  | PostUserResetPassword _ session _ _ => session
  end.

(** [passport.session()], which [setupAuth] installs before every route.
    For a request with a session it calls [deserializeUser], which hands
    [storage.getUser(id)] to passport; when no user is stored under the id
    that is [undefined], passport fails the request ("Failed to deserialize
    user out of session") and Express answers with 500. No route runs. *)
Definition passportSession (session : Session) : Handler unit :=
  match session with
  | None => ret tt
  | Some id =>
      user <- query (MemStorage.getUser id) ;;
      rejectIf (negb (isSome user)) 500 JEnd
  end.

(** A request that waits for scrypt, with what its handler goes on with. *)
Inductive Waiting : Type :=
| RegisterWaits (now : Z) (rnd : bytes) (reqBody : RegisterFields.t)
    (password : string)
| PostResetPasswordWaits (rnd : bytes) (user : User.t) (newPassword : string)
| PostCustomerWaits (now : Z) (rnd : bytes) (reqUser : User.t)
    (data : InsertUser.t)
| PostUserResetPasswordWaits (rnd : bytes) (userId : Z) (newPassword : string).

(** The rest of the handler, run when scrypt has answered. *)
Definition resume (rt : Runtime) (waits : Waiting) : Handler Response :=
  match waits with
  | RegisterWaits now rnd reqBody password =>
      Auth.registerCreate rt now rnd reqBody password
  | PostResetPasswordWaits rnd user newPassword =>
      Auth.postResetPasswordUpdate rt rnd user newPassword
  | PostCustomerWaits now rnd reqUser data =>
      Routes.postCustomerCreate rt now rnd reqUser data
  | PostUserResetPasswordWaits rnd userId newPassword =>
      Routes.postUserResetPasswordUpdate rt rnd userId newPassword
  end.

(** A handler that does not wait: its answer ends the request. *)
Definition answered {A : Type} (h : Handler Response) : Handler A :=
  fun s => (inl (fst (serve h s)), snd (serve h s)).

(** A request from its arrival to its answer ([inl]) or to its wait for
    scrypt ([inr]). *)
Definition arrive (rt : Runtime) (req : Request) : Handler Waiting :=
  passportSession (sessionOf req) ;;
  match req with
  | Register now rnd session reqBody =>
      password <- Auth.registerChecks session reqBody ;;
      ret (RegisterWaits now rnd reqBody password)
  | PostResetPassword rnd session newPassword =>
      checked <- Auth.postResetPasswordChecks session newPassword ;;
      ret (PostResetPasswordWaits rnd (fst checked) (snd checked))
  | PostCustomer now rnd session reqBody =>
      checked <- Routes.postCustomerChecks session reqBody ;;
      ret (PostCustomerWaits now rnd (fst checked) (snd checked))
  | PostUserResetPassword rnd session userId reqBody =>
      newPassword <- Routes.postUserResetPasswordChecks rt userId reqBody ;;
      ret (PostUserResetPasswordWaits rnd userId newPassword)
  | _ => answered (handle rt req)
  end.

(** A request from its arrival to its answer when no other request runs
    while it waits. *)
Definition receive (rt : Runtime) (req : Request) : Handler Response :=
  waits <- arrive rt req ;;
  resume rt waits.

(** The store after such a request, and after a sequence of them. *)
Definition step (rt : Runtime) (s : Store) (req : Request) : Store :=
  snd (serve (receive rt req) s).

Definition run (rt : Runtime) (reqs : list Request) : Store :=
  fold_left (step rt) reqs newStore.

(** The server: the store and the requests that wait for scrypt. A request
    arrives and runs to its answer or to its wait; a waiting request, any of
    them, is resumed and runs to its answer. *)
Record Server := mkServer {
  store : Store;
  waiting : list Waiting
}.

Inductive Event : Type :=
| Arrives (req : Request)
| Resumes (i : nat).

Fixpoint removeNth {A : Type} (i : nat) (l : list A) : list A :=
  match l, i with
  | [], _ => []
  | _ :: rest, O => rest
  | x :: rest, S i' => x :: removeNth i' rest
  end.

Definition react (rt : Runtime) (server : Server) (event : Event) : Server :=
  match event with
  | Arrives req =>
      match arrive rt req (store server) with
      | (inl _, s) => mkServer s (waiting server)
      | (inr waits, s) => mkServer s (waiting server ++ [waits])
      end
  | Resumes i =>
      match nth_error (waiting server) i with
      | Some waits =>
          mkServer (snd (serve (resume rt waits) (store server)))
                   (removeNth i (waiting server))
      | None => server
      end
  end.

Definition serverRun (rt : Runtime) (server : Server) (events : list Event)
  : Server :=
  fold_left (react rt) events server.

(** The stores the server reaches from its start, requests overlapping or
    not. *)
Inductive serverReachable (rt : Runtime) : Server -> Prop :=
| reachable_start : serverReachable rt (mkServer newStore [])
| reachable_react (server : Server) (event : Event) :
    serverReachable rt server -> serverReachable rt (react rt server event).

Definition reachable (rt : Runtime) (s : Store) : Prop :=
  exists waits, serverReachable rt (mkServer s waits).

(** The shape every reachable store has: ids come from the counters, users
    and chit groups sit under their own ids, a chit group once, and user ids
    start at 1. *)
Definition keyIsId {V : Type} (idOf : V -> Z) (m : JsMap.t V) : bool :=
  forallb (fun entry => fst entry =? idOf (snd entry)) m.

Definition wellFormed (s : Store) : bool :=
  JsMap.below (userIdCounter s) (users s)
  && JsMap.below (chitGroupIdCounter s) (chitGroups s)
  && JsMap.below (chitGroupMemberIdCounter s) (chitGroupMembers s)
  && JsMap.below (auctionIdCounter s) (auctions s)
  && JsMap.below (bidIdCounter s) (bids s)
  && JsMap.below (paymentIdCounter s) (payments s)
  && JsMap.below (notificationIdCounter s) (notifications s)
  && JsMap.uniqueKeys (chitGroups s)
  && keyIsId ChitGroup.id (chitGroups s)
  && (1 <=? userIdCounter s)
  && JsMap.atLeast 1 (users s)
  && keyIsId User.id (users s).

(** ** A concrete platform and a concrete history

    The examples below run the handlers on a store built by requests. They
    need some [scrypt] and some date parser: [demoRuntime] pads the password
    and the salt to the key length and accepts the ten-character dates. No
    general statement depends on it. *)

Definition demoScrypt (password salt : string) (keylen : Z) : bytes :=
  firstn (Z.to_nat keylen)
         (list_byte_of_string (password ++ ":" ++ salt)%string
          ++ repeat x00 (Z.to_nat keylen)).

Definition demoIsoDay (s : string) : option string :=
  if Nat.eqb (String.length s) 10 then Some s else None.

Definition demoRuntime : Runtime :=
  {| scrypt := demoScrypt; isoDay := demoIsoDay |}.

Definition alice : InsertUser.t :=
  InsertUser.mk "alice" "alice-secret" "9000000001" "Alice" None "manager"
                None None.

Definition bob : InsertUser.t :=
  InsertUser.mk "bob" "bob-secret" "9000000002" "Bob" None "manager"
                None None.

Definition carol : InsertUser.t :=
  InsertUser.mk "carol" "temp123" "9000000003" "Carol" None "customer"
                None None.

Definition dave : InsertUser.t :=
  InsertUser.mk "dave" "temp456" "9000000004" "Dave" None "customer"
                None None.

(** A registration body with all its fields. *)
Definition registration (d : InsertUser.t) : RegisterFields.t :=
  RegisterFields.mk (InsertUser.username d) (Some (InsertUser.password d))
                    (InsertUser.phone d) (InsertUser.name d)
                    (InsertUser.email d) (InsertUser.role d)
                    (InsertUser.managerId d).

Definition goldGroup : ChitGroupFields.t :=
  ChitGroupFields.mk (Some "Gold") (Some 100000) (Some 10) (Some 5)
                     (Some "2024-01-01") None.

Definition auctionFor (month : Z) (date status : string) : AuctionFields.t :=
  AuctionFields.mk (Some 1) (Some date) None None (Some status) (Some month).

(** Managers alice (1) and bob (2); alice's customers carol (3) and dave
    (4); alice's group 1 with carol as its only member; auction 1 scheduled
    with one bid of carol, auction 2 completed with carol as winner, auction
    3 cancelled. *)
Definition history : list Request :=
  [ Register 1000 [x01; x02] None (registration alice);
    Register 1001 [x03; x04] None (registration bob);
    PostCustomer 1002 [x05; x06] (Some 1) (Fields carol);
    PostCustomer 1003 [x07; x08] (Some 1) (Fields dave);
    PostChitGroup 1004 (Some 1) (Fields goldGroup);
    PostChitGroupMember 1005 (Some 1) 1
      (Fields (MemberFields.mk (Some 1) (Some 3) (Some "2024-01-01")));
    PostChitGroupAuction 1006 (Some 1) 1
      (Fields (auctionFor 1 "2024-02-01" "scheduled"));
    PostChitGroupAuction 1007 (Some 1) 1
      (Fields (auctionFor 2 "2024-03-01" "scheduled"));
    PutAuction (Some 1) 2
      (Fields (AuctionFields.mk None None (Some (Some 3)) (Some (Some 95000))
                                (Some "completed") None));
    PostChitGroupAuction 1008 (Some 1) 1
      (Fields (auctionFor 3 "2024-04-01" "scheduled"));
    PutAuction (Some 1) 3
      (Fields (AuctionFields.mk None None None None (Some "cancelled") None));
    PostAuctionBid 1009 (Some 3) 1
      (Fields (BidFields.mk (Some 1) (Some 3) (Some 90000))) ].

Definition demoStore : Store := Eval vm_compute in run demoRuntime history.

(** ** The read routes and the login strategy

    The routes below only read the store. Such a handler is a [Handler A]:
    [inl] is an early answer as before, [inr body] is [res.json(body)] with
    status 200. *)

Module UserContact.
(** [{ id, name, phone, email }] *)
Record t := mk {
  id : Z;
  name : string;
  phone : string;
  email : option string
}.
End UserContact.

Module MemberWithUser.
(** [{ ...member, user: user ? { id, name, phone, email } : null }] *)
Record t := mk {
  member : ChitGroupMember.t;
  user : option UserContact.t
}.
End MemberWithUser.

Module PaymentWithDetails.
(** [{ ...payment, chitGroup: { id, name } | null, user: { id, name } | null }] *)
Record t := mk {
  payment : Payment.t;
  chitGroup : option (Z * string);
  user : option (Z * string)
}.
End PaymentWithDetails.

Module GroupWithMembers.
(** [{ group, members, memberCount: members.length }] *)
Record t := mk {
  group : ChitGroup.t;
  members : list ChitGroupMember.t;
  memberCount : Z
}.
End GroupWithMembers.

Module ReadRoutes.

(** [GET /api/debug/chitgroup-members] *)
Definition getDebugChitGroupMembers (session : Session)
  : Handler (list GroupWithMembers.t) :=
  user <- isAuthenticated session ;;
  rejectIf (negb (String.eqb (User.role user) "manager")) 403
           (JMessage "Only managers can access this endpoint") ;;
  chitGroups <- query MemStorage.getAllChitGroups ;;
  query (fun s =>
           map (fun group =>
                  let members :=
                    MemStorage.getChitGroupMembers (ChitGroup.id group) s in
                  GroupWithMembers.mk group members
                                      (Z.of_nat (List.length members)))
               chitGroups).

(** [GET /api/chitgroups/:id/members] *)
Definition memberDetails (s : Store) (member : ChitGroupMember.t)
  : MemberWithUser.t :=
  MemberWithUser.mk member
    (match MemStorage.getUser (ChitGroupMember.userId member) s with
     | Some user =>
         Some (UserContact.mk (User.id user) (User.name user)
                              (User.phone user) (User.email user))
     | None => None
     end).

Definition getChitGroupMembersById (session : Session) (chitGroupId : Z)
  : Handler (list MemberWithUser.t) :=
  user <- isAuthenticated session ;;
  chitGroup <- query (MemStorage.getChitGroup chitGroupId) ;;
  chitGroup <- orElse chitGroup 404 (JMessage "Chit group not found") ;;
  (if String.eqb (User.role user) "manager" then
     rejectIf (negb (ChitGroup.createdBy chitGroup =? User.id user)) 403
              (JMessage "You can only view members of chit groups you've created")
   else
     members <- query (MemStorage.getChitGroupMembers chitGroupId) ;;
     let isMember := Routes.someMember (User.id user) members in
     rejectIf (negb isMember) 403
              (JMessage "You are not a member of this chit group")) ;;
  members <- query (MemStorage.getChitGroupMembers chitGroupId) ;;
  query (fun s => map (memberDetails s) members).

(** [GET /api/chitgroups/:id/auctions] *)
Definition getChitGroupAuctions (session : Session) (chitGroupId : Z)
  : Handler (list Auction.t) :=
  user <- isAuthenticated session ;;
  chitGroup <- query (MemStorage.getChitGroup chitGroupId) ;;
  chitGroup <- orElse chitGroup 404 (JMessage "Chit group not found") ;;
  (if String.eqb (User.role user) "manager" then
     rejectIf (negb (ChitGroup.createdBy chitGroup =? User.id user)) 403
              (JMessage "You can only view auctions of chit groups you've created")
   else
     members <- query (MemStorage.getChitGroupMembers chitGroupId) ;;
     let isMember := Routes.someMember (User.id user) members in
     rejectIf (negb isMember) 403
              (JMessage "You are not a member of this chit group")) ;;
  query (MemStorage.getAuctionsByChitGroup chitGroupId).

(** [GET /api/payments]. [chitGroupIdQuery] is
    [req.query.chitGroupId ? parseInt(req.query.chitGroupId) : null]; the
    test [if (chitGroupId)] that follows also takes 0 for absent. *)
Definition paymentDetails (s : Store) (payment : Payment.t)
  : PaymentWithDetails.t :=
  PaymentWithDetails.mk payment
    (match MemStorage.getChitGroup (Payment.chitGroupId payment) s with
     | Some chitGroup => Some (ChitGroup.id chitGroup, ChitGroup.name chitGroup)
     | None => None
     end)
    (match MemStorage.getUser (Payment.userId payment) s with
     | Some paymentUser => Some (User.id paymentUser, User.name paymentUser)
     | None => None
     end).

Definition getPayments (session : Session) (chitGroupIdQuery : option Z)
  : Handler (list PaymentWithDetails.t) :=
  user <- isAuthenticated session ;;
  payments <-
    (if String.eqb (User.role user) "manager" then
       match truthyNumber chitGroupIdQuery with
       | Some chitGroupId =>
           chitGroup <- query (MemStorage.getChitGroup chitGroupId) ;;
           chitGroup <- orElse chitGroup 404 (JMessage "Chit group not found") ;;
           rejectIf (negb (ChitGroup.createdBy chitGroup =? User.id user)) 403
                    (JMessage
                       "You can only access payments for chit groups you've created") ;;
           query (MemStorage.getPaymentsByChitGroup chitGroupId)
       | None =>
           allChitGroups <- query MemStorage.getAllChitGroups ;;
           let managerChitGroups :=
             filter (fun group => ChitGroup.createdBy group =? User.id user)
                    allChitGroups in
           query (fun s =>
                    flat_map (fun group =>
                                MemStorage.getPaymentsByChitGroup
                                  (ChitGroup.id group) s)
                             managerChitGroups)
       end
     else query (MemStorage.getPaymentsByUser (User.id user))) ;;
  query (fun s => map (paymentDetails s) payments).

(** [GET /api/notifications] *)
Definition getNotifications (session : Session)
  : Handler (list Notification.t) :=
  user <- isAuthenticated session ;;
  query (MemStorage.getNotificationsByUser (User.id user)).

(** [GET /api/customers] *)
Definition getCustomers (session : Session)
  : Handler (list UserWithoutPassword.t) :=
  reqUser <- isManager session ;;
  let managerId := User.id reqUser in
  managedCustomers <- query (MemStorage.getCustomersByManager managerId) ;;
  ret (map Routes.withoutPassword managedCustomers).

End ReadRoutes.

Module Login.

(** The verify callback of the [LocalStrategy]: [done(null, user)],
    [done(null, false)] or [done(error)]. *)
Inductive Done : Type :=
| DoneUser (user : User.t)
| DoneFalse
| DoneError.

Definition verify (rt : Runtime) (username password : string) (s : Store)
  : Done :=
  match MemStorage.getUserByUsername username s with
  | None => DoneFalse
  | Some user =>
      match Credentials.comparePasswords rt password (User.password user) with
      | Some true => DoneUser user
      | Some false => DoneFalse
      | None => DoneError
      end
  end.

(** [passport.serializeUser((user, done) => done(null, user.id))]; the
    inverse, [passport.deserializeUser], is [reqUser]. *)
Definition serializeUser (user : User.t) : Session := Some (User.id user).

End Login.

(** The store after a sequence of requests, from any store. *)
Definition runFrom (rt : Runtime) (s : Store) (reqs : list Request) : Store :=
  fold_left (step rt) reqs s.

(** No two users share a username: kept while registrations do not
    overlap. A user is a member of a group at most once. *)
Definition uniqueUsernames (s : Store) : Prop :=
  NoDup (map User.username (JsMap.values (users s))).

Definition memberPair (member : ChitGroupMember.t) : Z * Z :=
  (ChitGroupMember.chitGroupId member, ChitGroupMember.userId member).

Definition uniqueMemberships (s : Store) : Prop :=
  NoDup (map memberPair (JsMap.values (chitGroupMembers s))).

(** What one run of a handler, from an arrival or from a wait, can do to
    the store: nothing, or one write of the store (two for a payment), made
    after the checks listed. A user is created, and a password set, after
    a wait: what the handler tested before the wait need not hold any
    more. *)
Inductive Effect (rt : Runtime) (s : Store) : Store -> Prop :=
| NoWrite : Effect rt s s
| UserCreated now d :
    Effect rt s (snd (MemStorage.createUser now d s))
| PasswordSet id password :
    Effect rt s
      (snd (MemStorage.updateUser id
              (PartialUser.mk (Some password) (Some false)) s))
| ChitGroupCreated now d sid manager :
    MemStorage.getUser sid s = Some manager ->
    User.role manager = "manager" ->
    InsertChitGroup.createdBy d = Some (User.id manager) ->
    Effect rt s (snd (MemStorage.createChitGroup rt now d s))
| ChitGroupUpdated id d :
    Effect rt s (snd (MemStorage.updateChitGroup rt id d s))
| MemberAdded now d chitGroup user :
    MemStorage.getChitGroup (InsertChitGroupMember.chitGroupId d) s
    = Some chitGroup ->
    MemStorage.getUser (InsertChitGroupMember.userId d) s = Some user ->
    Routes.someMember (InsertChitGroupMember.userId d)
      (MemStorage.getChitGroupMembers (InsertChitGroupMember.chitGroupId d) s)
    = false ->
    Effect rt s (snd (MemStorage.addMemberToChitGroup now d s))
| MemberRemoved chitGroupId userId :
    Effect rt s (snd (MemStorage.removeMemberFromChitGroup chitGroupId userId s))
| AuctionCreated now d chitGroup :
    MemStorage.getChitGroup (InsertAuction.chitGroupId d) s = Some chitGroup ->
    Effect rt s (snd (MemStorage.createAuction now d s))
| AuctionUpdated id d :
    Effect rt s (snd (MemStorage.updateAuction id d s))
| BidCreated now d sid user auction :
    MemStorage.getUser sid s = Some user ->
    InsertBid.userId d = User.id user ->
    MemStorage.getAuction (InsertBid.auctionId d) s = Some auction ->
    Auction.status auction = "scheduled" ->
    Effect rt s (snd (MemStorage.createBid now d s))
| PaymentRecorded now d message chitGroup user :
    MemStorage.getChitGroup (InsertPayment.chitGroupId d) s = Some chitGroup ->
    MemStorage.getUser (InsertPayment.userId d) s = Some user ->
    Routes.someMember (InsertPayment.userId d)
      (MemStorage.getChitGroupMembers (InsertPayment.chitGroupId d) s)
    = true ->
    Effect rt s
      (snd (MemStorage.createNotification now
              (InsertNotification.mk (InsertPayment.userId d) message "payment")
              (snd (MemStorage.createPayment now d s))))
| PaymentUpdated id d :
    Effect rt s (snd (MemStorage.updatePayment id d s))
| NotificationRead id :
    Effect rt s (snd (MemStorage.markNotificationAsRead id s)).

(** Shapes of the stored references: a user who is not a customer has no
    manager; the creator of a chit group is a stored manager; memberships,
    bids and notifications point to stored records. *)
Definition onlyCustomersHaveManagers (s : Store) : Prop :=
  forall u, In u (JsMap.values (users s)) ->
            User.role u <> "customer" -> User.managerId u = None.

Definition creatorsAreManagers (s : Store) : Prop :=
  forall g, In g (JsMap.values (chitGroups s)) ->
            exists m, MemStorage.getUser (ChitGroup.createdBy g) s = Some m
                      /\ User.role m = "manager".

Definition membershipsResolve (s : Store) : Prop :=
  forall r, In r (JsMap.values (chitGroupMembers s)) ->
            (exists g, MemStorage.getChitGroup (ChitGroupMember.chitGroupId r) s
                       = Some g)
            /\ (exists u, MemStorage.getUser (ChitGroupMember.userId r) s
                          = Some u).

Definition bidsResolve (s : Store) : Prop :=
  forall b, In b (JsMap.values (bids s)) ->
            (exists a, MemStorage.getAuction (Bid.auctionId b) s = Some a)
            /\ (exists u, MemStorage.getUser (Bid.userId b) s = Some u).

Definition notificationsResolve (s : Store) : Prop :=
  forall n, In n (JsMap.values (notifications s)) ->
            exists u, MemStorage.getUser (Notification.userId n) s = Some u.

(** The routes registered with the middleware [isManager], and the two
    routes that can be used without logging in. *)
Definition behindIsManager (req : Request) : bool :=
  match req with
  | PostChitGroup _ _ _ | PutChitGroup _ _ _ | PostChitGroupMember _ _ _ _
  | DeleteChitGroupMember _ _ _ | PostChitGroupAuction _ _ _ _
  | PutAuction _ _ _ | PostPayment _ _ _ | PutPayment _ _ _
  | PostCustomer _ _ _ _ => true
  | _ => false
  end.

Definition openRoute (req : Request) : bool :=
  match req with
  | Register _ _ _ _ | PostUserResetPassword _ _ _ _ => true
  | _ => false
  end.

(** The store of the examples before its first auction: the first five
    requests of [history], up to the creation of group 1. *)
Definition groupStore : Store :=
  Eval vm_compute in run demoRuntime (firstn 5 history).

(** The store of the examples after alice has recorded a payment of carol
    for month 1 of group 1: payment 1 and notification 1. *)
Definition carolPayment : PaymentFields.t :=
  PaymentFields.mk (Some 1) (Some 3) (Some 20000) (Some "2024-02-05")
                   (Some 1) (Some "paid").

Definition paidStore : Store :=
  Eval vm_compute in
    runFrom demoRuntime demoStore [PostPayment 1010 (Some 1) (Fields carolPayment)].

(** The user that [POST /api/register] stores. *)
Definition registered (rt : Runtime) (rnd : bytes) (reqBody : RegisterFields.t)
    (password : string) : InsertUser.t :=
  InsertUser.mk
    (RegisterFields.username reqBody)
    (Credentials.hashPassword rt rnd password)
    (RegisterFields.phone reqBody) (RegisterFields.name reqBody)
    (RegisterFields.email reqBody) (RegisterFields.role reqBody)
    (Some true) (RegisterFields.managerId reqBody).

(** The record [POST /api/customers] stores for a body [data] sent by the
    manager [managerId]. *)
Definition customerOf (rt : Runtime) (rnd : bytes) (managerId : Z)
    (data : InsertUser.t) : InsertUser.t :=
  InsertUser.mk
    (InsertUser.username data)
    (Credentials.hashPassword rt rnd (InsertUser.password data))
    (InsertUser.phone data) (InsertUser.name data)
    (InsertUser.email data) "customer"
    (Some (spread true (InsertUser.isFirstLogin data)))
    (Some managerId).

(** The entry that [removeMemberFromChitGroup] looks for. *)
Definition isEntryOf (chitGroupId userId : Z)
    (entry : Z * ChitGroupMember.t) : bool :=
  (ChitGroupMember.chitGroupId (snd entry) =? chitGroupId)
  && (ChitGroupMember.userId (snd entry) =? userId).

(** * Properties *)

(** ** [JsMap] *)

Module JsMapFacts.
Section Facts.
Context {V : Type}.
Implicit Types (m : JsMap.t V) (k : Z) (v : V).

Lemma get_set_same m k v : JsMap.get k (JsMap.set k v m) = Some v.
Proof.
  induction m as [|[k' v'] m IH]; simpl.
  - now rewrite Z.eqb_refl.
  - destruct (k' =? k) eqn:E; simpl.
    + now rewrite Z.eqb_refl.
    + now rewrite E.
Qed.

Lemma get_set_other m k k' v :
  k <> k' -> JsMap.get k' (JsMap.set k v m) = JsMap.get k' m.
Proof.
  intros Hne. induction m as [|[k0 v0] m IH]; simpl.
  - destruct (k =? k') eqn:E; [apply Z.eqb_eq in E; contradiction | reflexivity].
  - destruct (k0 =? k) eqn:E; simpl.
    + apply Z.eqb_eq in E. subst k0.
      destruct (k =? k') eqn:E'; [apply Z.eqb_eq in E'; contradiction | reflexivity].
    + now rewrite IH.
Qed.

Lemma get_In m k v : JsMap.get k m = Some v -> In (k, v) m.
Proof.
  induction m as [|[k' v'] m IH]; simpl; [discriminate|].
  destruct (k' =? k) eqn:E.
  - intros [= <-]. apply Z.eqb_eq in E. subst. now left.
  - intros H. right. now apply IH.
Qed.

Lemma get_In_values m k v : JsMap.get k m = Some v -> In v (JsMap.values m).
Proof.
  intros H. apply get_In in H. unfold JsMap.values.
  change v with (snd (k, v)). now apply in_map.
Qed.

Lemma get_none_not_key m k :
  JsMap.get k m = None -> existsb (Z.eqb k) (JsMap.keys m) = false.
Proof.
  induction m as [|[k' v'] m IH]; simpl; [reflexivity|].
  rewrite (Z.eqb_sym k k').
  destruct (k' =? k); [discriminate|]. exact IH.
Qed.

Lemma below_get_none m k bound :
  JsMap.below bound m = true -> bound <= k -> JsMap.get k m = None.
Proof.
  unfold JsMap.below, JsMap.keys.
  induction m as [|[k' v'] m IH]; simpl; [reflexivity|].
  intros H Hle. apply andb_true_iff in H as [Hk Hm].
  apply Z.ltb_lt in Hk.
  destruct (k' =? k) eqn:E; [apply Z.eqb_eq in E; lia|].
  now apply IH.
Qed.

(** A fresh key goes to the end. *)
Lemma set_fresh m k v :
  JsMap.get k m = None -> JsMap.set k v m = m ++ [(k, v)].
Proof.
  induction m as [|[k' v'] m IH]; simpl; [reflexivity|].
  destruct (k' =? k); [discriminate|].
  intros H. now rewrite IH.
Qed.

Lemma keys_set_present m k v v0 :
  JsMap.get k m = Some v0 -> JsMap.keys (JsMap.set k v m) = JsMap.keys m.
Proof.
  unfold JsMap.keys.
  induction m as [|[k' v'] m IH]; simpl; [discriminate|].
  destruct (k' =? k) eqn:E; simpl.
  - apply Z.eqb_eq in E. now subst.
  - intros H. now rewrite IH.
Qed.

Lemma below_app m1 m2 bound :
  JsMap.below bound (m1 ++ m2)
  = JsMap.below bound m1 && JsMap.below bound m2.
Proof.
  unfold JsMap.below, JsMap.keys. now rewrite map_app, forallb_app.
Qed.

Lemma below_mono m b b' :
  JsMap.below b m = true -> b <= b' -> JsMap.below b' m = true.
Proof.
  unfold JsMap.below. rewrite !forallb_forall.
  intros H Hle k Hk. specialize (H k Hk).
  apply Z.ltb_lt in H. apply Z.ltb_lt. lia.
Qed.

(** What [createX] does to its map: the counter is the new key. *)
Lemma below_set_next m k v :
  JsMap.below k m = true -> JsMap.below (k + 1) (JsMap.set k v m) = true.
Proof.
  intros H. rewrite set_fresh by (apply (below_get_none m k k H); lia).
  rewrite below_app, (below_mono m k (k + 1) H) by lia.
  unfold JsMap.below. simpl. rewrite andb_true_r. apply Z.ltb_lt. lia.
Qed.

(** What [updateX] does to its map: the key is there already. *)
Lemma below_set_present m k v v0 bound :
  JsMap.get k m = Some v0 ->
  JsMap.below bound m = true -> JsMap.below bound (JsMap.set k v m) = true.
Proof.
  intros Hget H. unfold JsMap.below.
  now rewrite (keys_set_present m k v v0 Hget).
Qed.

Lemma below_delete m k bound :
  JsMap.below bound m = true -> JsMap.below bound (JsMap.delete k m) = true.
Proof.
  unfold JsMap.below, JsMap.keys.
  induction m as [|[k' v'] m IH]; simpl; [reflexivity|].
  intros H. apply andb_true_iff in H as [Hk Hm].
  destruct (k' =? k); [exact Hm|].
  simpl. rewrite Hk. now apply IH.
Qed.

Lemma atLeast_set m k v bound :
  bound <= k ->
  JsMap.atLeast bound m = true -> JsMap.atLeast bound (JsMap.set k v m) = true.
Proof.
  intros Hk. unfold JsMap.atLeast, JsMap.keys.
  induction m as [|[k' v'] m IH]; simpl.
  - intros _. rewrite andb_true_r. now apply Z.leb_le.
  - intros H. apply andb_true_iff in H as [Hk' Hm].
    destruct (k' =? k); simpl.
    + rewrite Hm, andb_true_r. now apply Z.leb_le.
    + rewrite Hk'. now apply IH.
Qed.

Lemma atLeast_get m k v bound :
  JsMap.atLeast bound m = true -> JsMap.get k m = Some v -> bound <= k.
Proof.
  intros Hm Hget. apply get_In in Hget.
  unfold JsMap.atLeast in Hm. rewrite forallb_forall in Hm.
  apply Z.leb_le, Hm. unfold JsMap.keys.
  change k with (fst (k, v)). now apply in_map.
Qed.

Lemma nodupb_app_fresh (l : list Z) k :
  existsb (Z.eqb k) l = false ->
  JsMap.nodupb l = true -> JsMap.nodupb (l ++ [k]) = true.
Proof.
  induction l as [|x l IH]; simpl; [reflexivity|].
  intros Hk H. apply orb_false_iff in Hk as [Hx Hl].
  apply andb_true_iff in H as [Hnx Hnd].
  rewrite IH by assumption. rewrite andb_true_r.
  rewrite existsb_app. simpl. rewrite orb_false_r.
  apply negb_true_iff in Hnx. rewrite Hnx. simpl.
  rewrite Z.eqb_sym. now rewrite Hx.
Qed.

Lemma uniqueKeys_set m k v :
  JsMap.uniqueKeys m = true -> JsMap.uniqueKeys (JsMap.set k v m) = true.
Proof.
  unfold JsMap.uniqueKeys. intros H.
  destruct (JsMap.get k m) as [v0|] eqn:Hget.
  - now rewrite (keys_set_present m k v v0 Hget).
  - rewrite (set_fresh m k v Hget). unfold JsMap.keys. rewrite map_app. simpl.
    apply nodupb_app_fresh; [|exact H].
    now apply get_none_not_key.
Qed.

Lemma unique_In_get m k v :
  JsMap.uniqueKeys m = true -> In (k, v) m -> JsMap.get k m = Some v.
Proof.
  unfold JsMap.uniqueKeys, JsMap.keys.
  induction m as [|[k' v'] m IH]; simpl; [contradiction|].
  intros H Hin. apply andb_true_iff in H as [Hfresh Hnd].
  destruct Hin as [[= -> ->]|Hin].
  - now rewrite Z.eqb_refl.
  - destruct (k' =? k) eqn:E.
    + apply Z.eqb_eq in E. subst k'.
      apply negb_true_iff in Hfresh.
      assert (existsb (Z.eqb k) (map fst m) = true) as Hex.
      { apply existsb_exists. exists k. split; [|apply Z.eqb_refl].
        change k with (fst (k, v)). now apply in_map. }
      congruence.
    + now apply IH.
Qed.
End Facts.
End JsMapFacts.

(** ** Reachable stores are well formed *)

Lemma keyIsId_get {V : Type} (idOf : V -> Z) (m : JsMap.t V) (k : Z) (g : V) :
  keyIsId idOf m = true -> JsMap.get k m = Some g -> idOf g = k.
Proof.
  intros Hm Hget. apply JsMapFacts.get_In in Hget.
  unfold keyIsId in Hm. rewrite forallb_forall in Hm.
  specialize (Hm _ Hget). simpl in Hm. apply Z.eqb_eq in Hm. now symmetry.
Qed.

Lemma keyIsId_set {V : Type} (idOf : V -> Z) (m : JsMap.t V) (k : Z) (g : V) :
  idOf g = k -> keyIsId idOf m = true -> keyIsId idOf (JsMap.set k g m) = true.
Proof.
  intros Hid. unfold keyIsId.
  induction m as [|[k' g'] m IH]; simpl.
  - intros _. rewrite andb_true_r. apply Z.eqb_eq. now symmetry.
  - intros H. apply andb_true_iff in H as [Hk Hm].
    destruct (k' =? k); simpl.
    + rewrite Hm, andb_true_r. apply Z.eqb_eq. now symmetry.
    + rewrite Hk. now apply IH.
Qed.

Section WellFormed.
Import MemStorage.

Ltac wf_open H :=
  unfold wellFormed in H;
  repeat (let H' := fresh "Hwf" in apply andb_true_iff in H as [H H']).

Ltac wf_close :=
  unfold wellFormed; simpl;
  repeat (apply andb_true_iff; split);
  eauto using JsMapFacts.below_set_next, JsMapFacts.below_set_present,
    JsMapFacts.below_delete, JsMapFacts.uniqueKeys_set.

Lemma wf_newStore : wellFormed newStore = true.
Proof. reflexivity. Qed.

Lemma wf_createUser now d s :
  wellFormed s = true -> wellFormed (snd (createUser now d s)) = true.
Proof.
  intros H. wf_open H. unfold createUser. wf_close.
  - match goal with
    | Hc : (1 <=? userIdCounter s) = true |- _ =>
        apply Z.leb_le; apply Z.leb_le in Hc; lia
    end.
  - apply JsMapFacts.atLeast_set; [now apply Z.leb_le | assumption].
  - now apply keyIsId_set.
Qed.

Lemma wf_updateUser id d s :
  wellFormed s = true -> wellFormed (snd (updateUser id d s)) = true.
Proof.
  intros H. unfold updateUser.
  destruct (JsMap.get id (users s)) eqn:E; [|exact H].
  wf_open H. wf_close.
  - apply JsMapFacts.atLeast_set; [|assumption].
    eapply JsMapFacts.atLeast_get; eassumption.
  - apply keyIsId_set; [|assumption]. simpl.
    eapply (keyIsId_get User.id); eassumption.
Qed.

Lemma wf_createChitGroup rt now d s :
  wellFormed s = true -> wellFormed (snd (createChitGroup rt now d s)) = true.
Proof.
  intros H. wf_open H. unfold createChitGroup. wf_close.
  now apply keyIsId_set.
Qed.

Lemma wf_updateChitGroup rt id d s :
  wellFormed s = true -> wellFormed (snd (updateChitGroup rt id d s)) = true.
Proof.
  intros H. unfold updateChitGroup.
  destruct (JsMap.get id (chitGroups s)) eqn:E; [|exact H].
  wf_open H. wf_close.
  apply keyIsId_set; [|assumption]. simpl.
  eapply (keyIsId_get ChitGroup.id); eassumption.
Qed.

Lemma wf_addMemberToChitGroup now d s :
  wellFormed s = true ->
  wellFormed (snd (addMemberToChitGroup now d s)) = true.
Proof. intros H. wf_open H. unfold addMemberToChitGroup. wf_close. Qed.

Lemma wf_removeMemberFromChitGroup g u s :
  wellFormed s = true ->
  wellFormed (snd (removeMemberFromChitGroup g u s)) = true.
Proof.
  intros H. unfold removeMemberFromChitGroup.
  destruct (find _ _); [|exact H].
  wf_open H. wf_close.
Qed.

Lemma wf_createAuction now d s :
  wellFormed s = true -> wellFormed (snd (createAuction now d s)) = true.
Proof. intros H. wf_open H. unfold createAuction. wf_close. Qed.

Lemma wf_updateAuction id d s :
  wellFormed s = true -> wellFormed (snd (updateAuction id d s)) = true.
Proof.
  intros H. unfold updateAuction.
  destruct (JsMap.get id (auctions s)) eqn:E; [|exact H].
  wf_open H. wf_close.
Qed.

Lemma wf_createBid now d s :
  wellFormed s = true -> wellFormed (snd (createBid now d s)) = true.
Proof. intros H. wf_open H. unfold createBid. wf_close. Qed.

Lemma wf_createPayment now d s :
  wellFormed s = true -> wellFormed (snd (createPayment now d s)) = true.
Proof. intros H. wf_open H. unfold createPayment. wf_close. Qed.

Lemma wf_updatePayment id d s :
  wellFormed s = true -> wellFormed (snd (updatePayment id d s)) = true.
Proof.
  intros H. unfold updatePayment.
  destruct (JsMap.get id (payments s)) eqn:E; [|exact H].
  wf_open H. wf_close.
Qed.

Lemma wf_createNotification now d s :
  wellFormed s = true -> wellFormed (snd (createNotification now d s)) = true.
Proof. intros H. wf_open H. unfold createNotification. wf_close. Qed.

Lemma wf_markNotificationAsRead id s :
  wellFormed s = true -> wellFormed (snd (markNotificationAsRead id s)) = true.
Proof.
  intros H. unfold markNotificationAsRead.
  destruct (JsMap.get id (notifications s)) eqn:E; [|exact H].
  wf_open H. wf_close.
Qed.
End WellFormed.

Create HintDb wf discriminated.
#[export] Hint Resolve wf_createUser wf_updateUser wf_createChitGroup
  wf_updateChitGroup wf_addMemberToChitGroup wf_removeMemberFromChitGroup
  wf_createAuction wf_updateAuction wf_createBid wf_createPayment
  wf_updatePayment wf_createNotification wf_markNotificationAsRead : wf.

Ltac unfold_handler :=
  unfold serve, handle,
    Auth.register, Auth.registerChecks, Auth.registerCreate,
    Auth.postResetPassword, Auth.postResetPasswordChecks,
    Auth.postResetPasswordUpdate,
    Routes.getChitGroups, Routes.getChitGroupById, Routes.postChitGroup,
    Routes.putChitGroup, Routes.postChitGroupMember,
    Routes.deleteChitGroupMember, Routes.postChitGroupAuction,
    Routes.putAuction, Routes.getAuctionBids, Routes.postAuctionBid,
    Routes.postPayment, Routes.putPayment, Routes.postNotificationRead,
    Routes.postCustomer, Routes.postCustomerChecks, Routes.postCustomerCreate,
    Routes.postUserResetPassword, Routes.postUserResetPasswordChecks,
    Routes.postUserResetPasswordUpdate,
    isManager, isAuthenticated, reqUser,
    bind, query, command, orElse, rejectIf, ret, respond.

(** The value of a closed lookup, as a term. *)
Ltac stored x :=
  let v := eval vm_compute in x in
  lazymatch v with
  | Some ?found => exact found
  end.

(** Case analysis on an innermost scrutinee of the goal. *)
Ltac break_match :=
  match goal with
  | |- context [match ?x with _ => _ end] =>
      lazymatch x with
      | context [match _ with _ => _ end] => fail
      | _ => destruct x eqn:?
      end
  end.

Lemma handle_wellFormed rt s req :
  wellFormed s = true -> wellFormed (snd (serve (handle rt req) s)) = true.
Proof.
  intros H. destruct req; unfold_handler.
  all: repeat (break_match; cbn); cbn; auto with wf.
Qed.

(** ** Arrivals and waits *)

Lemma passportSession_cases session s :
  passportSession session s = (inr tt, s)
  \/ (passportSession session s = (inl (mkResponse 500 JEnd), s)
      /\ exists sid, session = Some sid /\ MemStorage.getUser sid s = None).
Proof.
  unfold passportSession, bind, query, rejectIf, ret, respond.
  destruct session as [sid|]; [|now left].
  destruct (MemStorage.getUser sid s) eqn:E; cbn; [now left|].
  right. split; [reflexivity|]. now exists sid.
Qed.

Lemma passportSession_stored sid u s :
  MemStorage.getUser sid s = Some u ->
  passportSession (Some sid) s = (inr tt, s).
Proof.
  intros H. unfold passportSession, bind, query, rejectIf, ret.
  now rewrite H.
Qed.

(** An arrival ends in one of three ways: an answer that leaves the store
    alone, given by [passport] or by the checks of a route that would have
    waited; a wait, with the store as it was; or the answer of a route that
    does not wait. In the last two cases the request, run without
    interruption, is what [handle] says. *)
Lemma arrive_cases rt req s :
  (exists r, arrive rt req s = (inl r, s)
             /\ (passportSession (sessionOf req) s = (inr tt, s) ->
                 serve (handle rt req) s = (r, s)))
  \/ (exists waits,
         arrive rt req s = (inr waits, s)
         /\ passportSession (sessionOf req) s = (inr tt, s)
         /\ serve (handle rt req) s = serve (resume rt waits) s)
  \/ (arrive rt req s
      = (inl (fst (serve (handle rt req) s)), snd (serve (handle rt req) s))
      /\ passportSession (sessionOf req) s = (inr tt, s)).
Proof.
  unfold arrive, bind.
  destruct (passportSession_cases (sessionOf req) s) as [->|[-> _]].
  2:{ left. eexists. split; [reflexivity|]. discriminate. }
  destruct req; try (right; right; split; reflexivity); cbn [handle resume].
  - unfold Auth.register, bind.
    destruct (Auth.registerChecks session reqBody s) as [[r|password] s1] eqn:E.
    + assert (s1 = s) as ->.
      { revert E. unfold_handler. repeat (break_match; cbn); congruence. }
      left. eexists. split; [reflexivity|]. intros _.
      unfold serve. now rewrite E.
    + assert (s1 = s) as ->.
      { revert E. unfold_handler. repeat (break_match; cbn); congruence. }
      right. left. eexists. split; [reflexivity|]. split; [reflexivity|].
      unfold serve at 1. now rewrite E.
  - unfold Auth.postResetPassword, bind.
    destruct (Auth.postResetPasswordChecks session newPassword s)
      as [[r|checked] s1] eqn:E.
    + assert (s1 = s) as ->.
      { revert E. unfold_handler. repeat (break_match; cbn); congruence. }
      left. eexists. split; [reflexivity|]. intros _.
      unfold serve. now rewrite E.
    + assert (s1 = s) as ->.
      { revert E. unfold_handler. repeat (break_match; cbn); congruence. }
      right. left. eexists. split; [reflexivity|]. split; [reflexivity|].
      unfold serve at 1. now rewrite E.
  - unfold Routes.postCustomer, bind.
    destruct (Routes.postCustomerChecks session reqBody s)
      as [[r|checked] s1] eqn:E.
    + assert (s1 = s) as ->.
      { revert E. unfold_handler. unfold validateRequest.
        repeat (break_match; cbn); congruence. }
      left. eexists. split; [reflexivity|]. intros _.
      unfold serve. now rewrite E.
    + assert (s1 = s) as ->.
      { revert E. unfold_handler. unfold validateRequest.
        repeat (break_match; cbn); congruence. }
      right. left. eexists. split; [reflexivity|]. split; [reflexivity|].
      unfold serve at 1. now rewrite E.
  - unfold Routes.postUserResetPassword, bind.
    destruct (Routes.postUserResetPasswordChecks rt userId reqBody s)
      as [[r|newPassword] s1] eqn:E.
    + assert (s1 = s) as ->.
      { revert E. unfold_handler. repeat (break_match; cbn); congruence. }
      left. eexists. split; [reflexivity|]. intros _.
      unfold serve. now rewrite E.
    + assert (s1 = s) as ->.
      { revert E. unfold_handler. repeat (break_match; cbn); congruence. }
      right. left. eexists. split; [reflexivity|]. split; [reflexivity|].
      unfold serve at 1. now rewrite E.
Qed.

(** A request whose session passes [passport] and that is not interrupted
    is answered as its handler says; one whose session does not pass is
    answered 500 and changes nothing. *)
Lemma receive_eval rt req s :
  serve (receive rt req) s
  = match arrive rt req s with
    | (inl r, s1) => (r, s1)
    | (inr waits, s1) => serve (resume rt waits) s1
    end.
Proof.
  unfold receive, serve, bind.
  destruct (arrive rt req s) as [[r|waits] s1]; reflexivity.
Qed.

Lemma receive_handle rt req s :
  passportSession (sessionOf req) s = (inr tt, s) ->
  serve (receive rt req) s = serve (handle rt req) s.
Proof.
  intros Hp. rewrite receive_eval.
  destruct (arrive_cases rt req s)
    as [(r & -> & Hh)|[(waits & -> & _ & Hh)|(-> & _)]].
  - now rewrite (Hh Hp).
  - now rewrite Hh.
  - now destruct (serve (handle rt req) s).
Qed.

Lemma receive_stale rt req s sid :
  sessionOf req = Some sid -> MemStorage.getUser sid s = None ->
  arrive rt req s = (inl (mkResponse 500 JEnd), s)
  /\ serve (receive rt req) s = (mkResponse 500 JEnd, s).
Proof.
  intros Hs Hu.
  assert (arrive rt req s = (inl (mkResponse 500 JEnd), s)) as Ha.
  { unfold arrive, bind, passportSession, query, rejectIf, respond.
    rewrite Hs. unfold bind. now rewrite Hu. }
  split; [exact Ha|]. rewrite receive_eval. now rewrite Ha.
Qed.

Lemma step_cases rt s req :
  step rt s req = s \/ step rt s req = snd (serve (handle rt req) s).
Proof.
  unfold step. rewrite receive_eval.
  destruct (arrive_cases rt req s)
    as [(r & -> & _)|[(waits & -> & _ & Hh)|(-> & _)]].
  - now left.
  - right. now rewrite Hh.
  - now right.
Qed.

Lemma step_handle rt s req :
  passportSession (sessionOf req) s = (inr tt, s) ->
  step rt s req = snd (serve (handle rt req) s).
Proof.
  intros Hp. unfold step. now rewrite (receive_handle rt req s Hp).
Qed.

Lemma step_wellFormed rt s req :
  wellFormed s = true -> wellFormed (step rt s req) = true.
Proof.
  intros H. destruct (step_cases rt s req) as [->| ->]; [exact H|].
  now apply handle_wellFormed.
Qed.

Lemma resume_wellFormed rt waits s :
  wellFormed s = true ->
  wellFormed (snd (serve (resume rt waits) s)) = true.
Proof.
  intros H. destruct waits; cbn [resume]; unfold_handler; cbn; auto with wf.
Qed.

Lemma react_wellFormed rt server event :
  wellFormed (store server) = true ->
  wellFormed (store (react rt server event)) = true.
Proof.
  intros H. destruct event as [req|i]; cbn [react].
  - destruct (arrive_cases rt req (store server))
      as [(r & -> & _)|[(waits & -> & _)|(-> & _)]]; cbn [store]; auto.
    now apply handle_wellFormed.
  - destruct (nth_error (waiting server) i); [|exact H]. cbn [store].
    now apply resume_wellFormed.
Qed.

Lemma serverReachable_wellFormed rt server :
  serverReachable rt server -> wellFormed (store server) = true.
Proof.
  induction 1 as [|server event _ IH].
  - reflexivity.
  - now apply react_wellFormed.
Qed.

Lemma reachable_wellFormed rt s : reachable rt s -> wellFormed s = true.
Proof.
  intros [waits H]. exact (serverReachable_wellFormed rt _ H).
Qed.

(** Requests that run one after the other are one way the server runs. *)
Lemma reachable_new rt : reachable rt newStore.
Proof. exists []. constructor. Qed.

Lemma nth_error_last {A : Type} (l : list A) (x : A) :
  nth_error (l ++ [x]) (List.length l) = Some x.
Proof. induction l; simpl; auto. Qed.

Lemma reachable_step rt s req :
  reachable rt s -> reachable rt (step rt s req).
Proof.
  intros [waits H]. unfold step. rewrite receive_eval.
  pose proof (reachable_react rt _ (Arrives req) H) as H1.
  cbn [react store waiting] in H1.
  destruct (arrive rt req s) as [[r|w] s1] eqn:E.
  - exists waits. exact H1.
  - pose proof (reachable_react rt _ (Resumes (List.length waits)) H1) as H2.
    cbn [react store waiting] in H2. rewrite nth_error_last in H2.
    eexists. exact H2.
Qed.

Lemma run_reachable rt reqs : reachable rt (run rt reqs).
Proof.
  unfold run.
  assert (forall s, reachable rt s -> reachable rt (fold_left (step rt) reqs s))
    as Hgen.
  { induction reqs as [|req reqs IH]; intros s Hs; simpl.
    - exact Hs.
    - apply IH. now apply reachable_step. }
  apply Hgen. apply reachable_new.
Qed.

(** The store of the examples is the one [history] leads to. *)
Lemma demoStore_reachable : reachable demoRuntime demoStore.
Proof.
  assert (demoStore = run demoRuntime history) as ->
    by (vm_compute; reflexivity).
  apply run_reachable.
Qed.

(** ** The middleware *)

Lemma isAuthenticated_session sid u s :
  MemStorage.getUser sid s = Some u ->
  isAuthenticated (Some sid) s = (inr u, s).
Proof.
  intros H. unfold isAuthenticated, reqUser, bind, query, rejectIf, orElse, ret.
  now rewrite H.
Qed.

Lemma isManager_session sid m s :
  MemStorage.getUser sid s = Some m ->
  User.role m = "manager" ->
  isManager (Some sid) s = (inr m, s).
Proof.
  intros H Hrole.
  unfold isManager, reqUser, bind, query, rejectIf, orElse, ret.
  rewrite H. cbn. now rewrite Hrole.
Qed.

(** A request stopped by the middleware leaves the store alone; the answer
    is 401, or 403 for an authenticated caller who is not a manager. *)
Lemma isAuthenticated_cases session s :
  (exists u, isAuthenticated session s = (inr u, s)
             /\ exists sid, session = Some sid
                            /\ MemStorage.getUser sid s = Some u)
  \/ (exists j, isAuthenticated session s = (inl (mkResponse 401 j), s)).
Proof.
  unfold isAuthenticated, reqUser, bind, query, rejectIf, orElse, ret, respond.
  destruct session as [sid|]; cbn.
  - destruct (MemStorage.getUser sid s) as [u|] eqn:E; cbn.
    + left. exists u. split; [reflexivity|]. now exists sid.
    + right. eauto.
  - right. eauto.
Qed.

Lemma isManager_cases session s :
  (exists m, isManager session s = (inr m, s)
             /\ User.role m = "manager"
             /\ exists sid, session = Some sid
                            /\ MemStorage.getUser sid s = Some m)
  \/ (exists code j, isManager session s = (inl (mkResponse code j), s)
                     /\ (code = 401 \/ code = 403)).
Proof.
  unfold isManager, reqUser, bind, query, rejectIf, orElse, ret, respond.
  destruct session as [sid|]; cbn.
  - destruct (MemStorage.getUser sid s) as [u|] eqn:E; cbn.
    + destruct (String.eqb (User.role u) "manager") eqn:R; cbn.
      * left. exists u. apply String.eqb_eq in R. repeat split; eauto.
      * right. do 2 eexists. split; [reflexivity|]. now right.
    + right. do 2 eexists. split; [reflexivity|]. now left.
  - right. do 2 eexists. split; [reflexivity|]. now left.
Qed.

(** ** Listing the bids of an auction *)

Section Bids.
Import MemStorage Routes.

Lemma getBidsByAuction_spec aid s b :
  In b (getBidsByAuction aid s)
  <-> In b (JsMap.values (bids s)) /\ Bid.auctionId b = aid.
Proof.
  unfold getBidsByAuction. rewrite filter_In.
  split; intros [H1 H2]; split; auto; now apply Z.eqb_eq.
Qed.

Lemma getAuctionBids_authenticated s sid u aid a :
  getUser sid s = Some u ->
  getAuction aid s = Some a ->
  serve (getAuctionBids (Some sid) aid) s
  = (mkResponse 200
       (JBids (map (bidWithUserDetails s) (getBidsByAuction aid s))), s).
Proof.
  intros Hu Ha. unfold serve, getAuctionBids, bind.
  rewrite (isAuthenticated_session sid u s Hu).
  unfold query, orElse, ret. now rewrite Ha.
Qed.

End Bids.

(** ** Listing the chit groups of a customer *)

Section GroupListing.
Import MemStorage Routes.

Lemma definedOnly_In {A : Type} (x : A) (l : list (option A)) :
  In x (definedOnly l) <-> In (Some x) l.
Proof.
  induction l as [|[y|] l IH]; simpl.
  - tauto.
  - rewrite IH. split; intros [H|H]; auto; left; congruence.
  - rewrite IH. split; [auto|]. intros [H|H]; [discriminate|exact H].
Qed.

Lemma getChitGroupsByUser_spec uid s G :
  In G (getChitGroupsByUser uid s)
  <-> exists m, In m (JsMap.values (chitGroupMembers s))
                /\ ChitGroupMember.userId m = uid
                /\ getChitGroup (ChitGroupMember.chitGroupId m) s = Some G.
Proof.
  unfold getChitGroupsByUser, getChitGroup.
  rewrite definedOnly_In, in_map_iff. split.
  - intros (m & Hget & Hm). apply filter_In in Hm as [Hin Hu].
    apply Z.eqb_eq in Hu. now exists m.
  - intros (m & Hin & Hu & Hget). exists m. split; [exact Hget|].
    apply filter_In. split; [exact Hin|]. now apply Z.eqb_eq.
Qed.

(** In a well-formed store a group is stored exactly when [getChitGroup]
    finds it under its own id. *)
Lemma stored_group_iff s G k :
  wellFormed s = true ->
  getChitGroup k s = Some G
  <-> In G (getAllChitGroups s) /\ ChitGroup.id G = k.
Proof.
  intros Hwf. unfold wellFormed in Hwf.
  repeat (let H := fresh "Hwf" in apply andb_true_iff in Hwf as [Hwf H]).
  unfold getChitGroup, getAllChitGroups. split.
  - intros Hget. split.
    + eapply JsMapFacts.get_In_values; eassumption.
    + eapply (keyIsId_get ChitGroup.id); eassumption.
  - intros [Hin Hid]. unfold JsMap.values in Hin.
    apply in_map_iff in Hin as ([k' G'] & HG & Hin). simpl in HG. subst G'.
    assert (k' = k) as ->.
    { match goal with
      | Hk : keyIsId ChitGroup.id _ = true |- _ =>
          unfold keyIsId in Hk; rewrite forallb_forall in Hk;
          specialize (Hk _ Hin); simpl in Hk; apply Z.eqb_eq in Hk
      end. congruence. }
    now apply JsMapFacts.unique_In_get.
Qed.

(** C7. For an authenticated customer [c], [GET /api/chitgroups] answers
    200 with a list that holds a chit group [G] if and only if [G] is a
    stored group and a membership record with [chitGroupId = G.id] and
    [userId = c.id] exists: every such group is listed and no other. The
    store is any well-formed one, which every reachable store is
    ([reachable_wellFormed]). *)
Theorem getChitGroups_customer_exact s sid c :
  wellFormed s = true ->
  getUser sid s = Some c ->
  User.role c = "customer" ->
  exists groups,
    serve (getChitGroups (Some sid)) s
    = (mkResponse 200 (JChitGroups groups), s)
    /\ forall G,
        In G groups
        <-> In G (getAllChitGroups s)
            /\ exists m, In m (JsMap.values (chitGroupMembers s))
                         /\ ChitGroupMember.chitGroupId m = ChitGroup.id G
                         /\ ChitGroupMember.userId m = User.id c.
Proof.
  intros Hwf Hc Hrole.
  exists (getChitGroupsByUser (User.id c) s). split.
  - unfold serve, getChitGroups, bind.
    rewrite (isAuthenticated_session sid c s Hc), Hrole. reflexivity.
  - intros G. rewrite getChitGroupsByUser_spec. split.
    + intros (m & Hin & Hu & Hget).
      apply (stored_group_iff s G _ Hwf) in Hget as [HG Hid].
      split; [exact HG|]. exists m. auto.
    + intros (HG & m & Hin & Hg & Hu). exists m.
      split; [exact Hin|]. split; [exact Hu|].
      apply (stored_group_iff s G _ Hwf). split; [exact HG|]. now symmetry.
Qed.
End GroupListing.

Lemma getChitGroups_customer_exact_witness :
  exists groups,
    serve (Routes.getChitGroups (Some 3)) demoStore
    = (mkResponse 200 (JChitGroups groups), demoStore)
    /\ forall G,
        In G groups
        <-> In G (MemStorage.getAllChitGroups demoStore)
            /\ exists m, In m (JsMap.values (chitGroupMembers demoStore))
                         /\ ChitGroupMember.chitGroupId m = ChitGroup.id G
                         /\ ChitGroupMember.userId m = 3.
Proof.
  exact (getChitGroups_customer_exact demoStore 3 _ eq_refl eq_refl eq_refl).
Defined.

(** ** Reading and updating a chit group *)

Section ChitGroupAccess.
Import MemStorage Routes.

(** The read route turns away a manager who did not create the group. *)
Lemma getChitGroupById_other_manager s sid m gid g :
  getUser sid s = Some m ->
  User.role m = "manager" ->
  getChitGroup gid s = Some g ->
  ChitGroup.createdBy g <> User.id m ->
  serve (getChitGroupById (Some sid) gid) s
  = (mkResponse 403
       (JMessage "You can only access chit groups you've created"), s).
Proof.
  intros Hm Hrole Hg Hne. unfold serve, getChitGroupById, bind.
  rewrite (isAuthenticated_session sid m s Hm).
  unfold query, orElse, ret. rewrite Hg, Hrole. cbn.
  apply Z.eqb_neq in Hne. now rewrite Hne.
Qed.


(** C1, the update half at a concrete request. Group 1 was created by
    manager 1; manager 2 sends [PUT /api/chitgroups/1] with a new name.
    The claim asks for Forbidden and an unchanged record; the route
    answers 200 and the stored record carries the new name. (The read
    half holds: [getChitGroupById_other_manager].) *)
Theorem putChitGroup_by_other_manager_updates :
  let reqBody :=
    Fields (ChitGroupFields.mk (Some "Taken over") None None None None None) in
  let answer := serve (putChitGroup demoRuntime (Some 2) 1 reqBody) demoStore in
  exists m g g',
    getUser 2 demoStore = Some m /\ User.role m = "manager"
    /\ getChitGroup 1 demoStore = Some g
    /\ ChitGroup.createdBy g = 1 /\ User.id m = 2
    /\ fst answer = mkResponse 200 (JChitGroup g')
    /\ getChitGroup 1 (snd answer) = Some g'
    /\ ChitGroup.name g = "Gold" /\ ChitGroup.name g' = "Taken over".
Proof.
  vm_compute. do 3 eexists. repeat split; reflexivity.
Qed.
End ChitGroupAccess.

(** ** Updating an auction *)

Section AuctionUpdate.
Import MemStorage Routes.

Lemma putAuction_manager s sid m aid a f :
  getUser sid s = Some m ->
  User.role m = "manager" ->
  getAuction aid s = Some a ->
  serve (putAuction (Some sid) aid (Fields f)) s
  = (mkResponse 200 (JAuction (mergeAuction a f)),
     withAuctions (JsMap.set aid (mergeAuction a f) (auctions s))
                  (auctionIdCounter s) s).
Proof.
  intros Hm Hrole Ha. unfold serve, putAuction, bind.
  rewrite (isManager_session sid m s Hm Hrole).
  unfold query, orElse, ret, command, updateAuction.
  rewrite Ha. cbn. unfold getAuction in Ha. now rewrite Ha.
Qed.

(** C2 fails: auction 2 is completed, and a manager's update that sets
    its status back to scheduled is answered 200 and stored. *)
Lemma putAuction_reopens_completed_auction :
  let reqBody :=
    Fields (AuctionFields.mk None None None None (Some "scheduled") None) in
  let answer := serve (putAuction (Some 1) 2 reqBody) demoStore in
  exists a a',
    getAuction 2 demoStore = Some a /\ Auction.status a = "completed"
    /\ fst answer = mkResponse 200 (JAuction a')
    /\ getAuction 2 (snd answer) = Some a'
    /\ Auction.status a' = "scheduled".
Proof.
  vm_compute. do 2 eexists. repeat split; reflexivity.
Qed.

(** C2 as amended. [PUT /api/auctions/:id] does not look at the current
    status of the auction. For every manager and every existing auction,
    terminal or not, an update with a well-typed body is answered 200 and
    the store then holds the old record overwritten by exactly the fields
    the body carries: the status is unchanged when the body has no status
    and is the body's status otherwise. *)
Theorem putAuction_overwrites_any_status s sid m aid a f :
  getUser sid s = Some m ->
  User.role m = "manager" ->
  getAuction aid s = Some a ->
  let answer := serve (putAuction (Some sid) aid (Fields f)) s in
  fst answer = mkResponse 200 (JAuction (mergeAuction a f))
  /\ getAuction aid (snd answer) = Some (mergeAuction a f)
  /\ (forall other, other <> aid ->
        getAuction other (snd answer) = getAuction other s)
  /\ Auction.status (mergeAuction a f)
     = spread (Auction.status a) (AuctionFields.status f)
  /\ (AuctionFields.status f = None ->
        Auction.status (mergeAuction a f) = Auction.status a)
  /\ (forall st, AuctionFields.status f = Some st ->
        Auction.status (mergeAuction a f) = st).
Proof.
  intros Hm Hrole Ha answer. subst answer.
  rewrite (putAuction_manager s sid m aid a f Hm Hrole Ha). cbn.
  split; [reflexivity|]. split.
  { unfold getAuction. cbn. apply JsMapFacts.get_set_same. }
  split.
  { intros other Hne. unfold getAuction. cbn.
    apply JsMapFacts.get_set_other. congruence. }
  split; [reflexivity|]. split.
  - intros ->. reflexivity.
  - intros st ->. reflexivity.
Qed.
End AuctionUpdate.

Lemma putAuction_overwrites_any_status_witness :
  let reqBody := AuctionFields.mk None None None None (Some "scheduled") None in
  exists a,
    MemStorage.getAuction 3 demoStore = Some a
    /\ Auction.status a = "cancelled"
    /\ MemStorage.getAuction 3
         (snd (serve (Routes.putAuction (Some 2) 3 (Fields reqBody)) demoStore))
       = Some (MemStorage.mergeAuction a reqBody).
Proof.
  intros reqBody. eexists. split; [reflexivity|]. split; [reflexivity|].
  exact (proj1 (proj2
    (putAuction_overwrites_any_status demoStore 2 _ 3 _ reqBody
       eq_refl eq_refl eq_refl))).
Defined.

(** ** Status and winner fields of an auction *)

Section AuctionFieldsStored.
Import MemStorage Routes.

Lemma insertAuctionSchema_fields f d :
  Schema.insertAuctionSchema f = Some d ->
  AuctionFields.status f = Some (InsertAuction.status d)
  /\ InsertAuction.winnerUserId d = AuctionFields.winnerUserId f
  /\ InsertAuction.winningBid d = AuctionFields.winningBid f.
Proof.
  unfold Schema.insertAuctionSchema.
  destruct (AuctionFields.chitGroupId f), (AuctionFields.auctionDate f),
    (AuctionFields.status f), (AuctionFields.monthNumber f);
    try discriminate.
  intros [= <-]. cbn. auto.
Qed.

(** C3 fails: a manager creates an auction with status completed and no
    winner fields; the store reached holds a completed auction whose
    winner fields are null. Likewise an update of the scheduled auction 1
    to completed, without winner fields, is accepted. *)
Lemma completed_auction_without_winner_is_reachable :
  let s :=
    run demoRuntime
        (history ++ [PostChitGroupAuction 1010 (Some 1) 1
                       (Fields (auctionFor 4 "2024-05-01" "completed"))]) in
  let answer :=
    serve (putAuction (Some 1) 1
             (Fields (AuctionFields.mk None None None None
                                       (Some "completed") None)))
          demoStore in
  reachable demoRuntime s
  /\ (exists a, getAuction 4 s = Some a
                /\ Auction.status a = "completed"
                /\ Auction.winnerUserId a = None
                /\ Auction.winningBid a = None)
  /\ (exists a', fst answer = mkResponse 200 (JAuction a')
                 /\ getAuction 1 (snd answer) = Some a'
                 /\ Auction.status a' = "completed"
                 /\ Auction.winnerUserId a' = None
                 /\ Auction.winningBid a' = None).
Proof.
  cbv zeta. split; [apply run_reachable|].
  vm_compute. split; eexists; repeat split; reflexivity.
Qed.

Lemma serverRun_reachable rt events :
  serverReachable rt (serverRun rt (mkServer newStore []) events).
Proof.
  unfold serverRun. induction events as [|event events IH] using rev_ind.
  - constructor.
  - rewrite fold_left_app. cbn [fold_left]. now constructor.
Qed.

(** The two routes that write auctions, and the writes that leave them. *)
Lemma postChitGroupAuction_store now session gid reqBody s :
  snd (serve (postChitGroupAuction now session gid reqBody) s) = s
  \/ exists f d,
      reqBody = Fields f /\ Schema.insertAuctionSchema f = Some d
      /\ snd (serve (postChitGroupAuction now session gid reqBody) s)
         = snd (createAuction now
                  (InsertAuction.mk gid
                     (InsertAuction.auctionDate d)
                     (InsertAuction.winnerUserId d)
                     (InsertAuction.winningBid d) (InsertAuction.status d)
                     (InsertAuction.monthNumber d)) s).
Proof.
  unfold serve, postChitGroupAuction, bind.
  destruct (isManager_cases session s)
    as [(m & -> & _)|(code & j & -> & _)]; [|now left].
  unfold query, orElse, command, ret, respond, validateRequest.
  destruct (getChitGroup gid s); [|now left].
  destruct reqBody as [|f]; [now left|].
  destruct (Schema.insertAuctionSchema f) as [d|] eqn:E; [|now left].
  right. exists f, d. auto.
Qed.

Lemma putAuction_store session aid reqBody s :
  snd (serve (putAuction session aid reqBody) s) = s
  \/ exists f a,
      reqBody = Fields f /\ getAuction aid s = Some a
      /\ snd (serve (putAuction session aid reqBody) s)
         = withAuctions (JsMap.set aid (mergeAuction a f) (auctions s))
                        (auctionIdCounter s) s.
Proof.
  unfold serve, putAuction, bind.
  destruct (isManager_cases session s)
    as [(m & -> & _)|(code & j & -> & _)]; [|now left].
  unfold query, orElse, command, ret, respond, validateRequest,
    Schema.partialAuctionSchema, updateAuction.
  destruct (getAuction aid s) as [a|] eqn:E; [|now left].
  destruct reqBody as [|f]; [now left|].
  right. exists f, a. unfold getAuction in E. rewrite E. auto.
Qed.

Lemma handle_auctions rt req s :
  match req with
  | PostChitGroupAuction _ _ _ _ | PutAuction _ _ _ => True
  | _ => auctions (snd (serve (handle rt req) s)) = auctions s
  end.
Proof.
  destruct req; try exact I; unfold_handler.
  all: unfold createUser, updateUser, createChitGroup, updateChitGroup,
         addMemberToChitGroup, removeMemberFromChitGroup, createBid,
         createPayment, updatePayment, createNotification,
         markNotificationAsRead.
  all: repeat (break_match; cbn); reflexivity.
Qed.

Lemma resume_auctions rt waits s :
  auctions (snd (serve (resume rt waits) s)) = auctions s.
Proof.
  destruct waits; cbn [resume]; unfold_handler; unfold createUser, updateUser.
  all: repeat (break_match; cbn); reflexivity.
Qed.

Lemma auction_unchanged (s s' : Store) k a' (onNew : Prop)
    (onChange : Auction.t -> Prop) :
  auctions s' = auctions s ->
  getAuction k s' = Some a' ->
  match getAuction k s with
  | None => onNew
  | Some a => a' = a \/ onChange a
  end.
Proof.
  unfold getAuction. intros -> ->. now left.
Qed.

Lemma wellFormed_auctions s :
  wellFormed s = true -> JsMap.below (auctionIdCounter s) (auctions s) = true.
Proof.
  intros Hwf. unfold wellFormed in Hwf.
  repeat (let H := fresh "Hwf" in apply andb_true_iff in Hwf as [Hwf H]).
  assumption.
Qed.

(** What an event of the server does to one auction. *)
Lemma react_auction rt waits s event k a' :
  wellFormed s = true ->
  getAuction k (store (react rt (mkServer s waits) event)) = Some a' ->
  match getAuction k s with
  | None =>
      exists now session gid f,
        event = Arrives (PostChitGroupAuction now session gid (Fields f))
        /\ k = auctionIdCounter s
        /\ AuctionFields.status f = Some (Auction.status a')
        /\ Auction.winnerUserId a' = orNull (AuctionFields.winnerUserId f)
        /\ Auction.winningBid a' = orNull (AuctionFields.winningBid f)
  | Some a =>
      a' = a
      \/ exists session f,
          event = Arrives (PutAuction session k (Fields f))
          /\ Auction.status a'
             = spread (Auction.status a) (AuctionFields.status f)
          /\ Auction.winnerUserId a'
             = spread (Auction.winnerUserId a) (AuctionFields.winnerUserId f)
          /\ Auction.winningBid a'
             = spread (Auction.winningBid a) (AuctionFields.winningBid f)
  end.
Proof.
  intros Hwf.
  destruct event as [req|i]; cbn [react store waiting].
  2:{ destruct (nth_error waits i) as [w|]; cbn [store];
        apply auction_unchanged; [apply resume_auctions|reflexivity]. }
  destruct (arrive_cases rt req s)
    as [(r & -> & _)|[(w & -> & _)|(-> & _)]]; cbn [store];
    try (apply auction_unchanged; reflexivity).
  pose proof (handle_auctions rt req s) as Hsame.
  destruct req; try (apply auction_unchanged; exact Hsame); clear Hsame;
    cbn [handle].
  - destruct (postChitGroupAuction_store now session chitGroupId reqBody s)
      as [->|(f & d & -> & Hd & ->)];
      [apply auction_unchanged; reflexivity|].
    pose proof (wellFormed_auctions s Hwf) as Hb.
    destruct (insertAuctionSchema_fields f d Hd) as (Hs & Hw & Hbid).
    unfold createAuction, getAuction.
    cbn [fst snd auctions withAuctions].
    destruct (Z.eq_dec (auctionIdCounter s) k) as [<-|Hne].
    + rewrite JsMapFacts.get_set_same.
      rewrite (JsMapFacts.below_get_none _ _ _ Hb) by lia.
      intros [= <-]. exists now, session, chitGroupId, f.
      cbn. rewrite Hw, Hbid. auto.
    + rewrite (JsMapFacts.get_set_other _ _ _ _ Hne).
      intros H. rewrite H. now left.
  - destruct (putAuction_store session auctionId reqBody s)
      as [->|(f & a & -> & Ha & ->)];
      [apply auction_unchanged; reflexivity|].
    unfold getAuction in *. cbn [auctions withAuctions].
    destruct (Z.eq_dec auctionId k) as [<-|Hne].
    + rewrite JsMapFacts.get_set_same, Ha. intros [= <-].
      right. exists session, f. cbn. auto.
    + rewrite (JsMapFacts.get_set_other _ _ _ _ Hne).
      intros H. rewrite H. now left.
Qed.

(** C3 as amended. Status and winner fields are stored as the requests
    supply them, and nothing ties the one to the other. In any store, a
    create request of a manager with a valid body for a stored group
    stores the body's status, and stores [winnerUserId] and [winningBid] as
    given, null when the body omits them, whatever the status. An update
    of a manager that sets the status of a stored auction to completed is
    accepted whatever winner fields it carries: the stored auction is
    completed, with each winner field the body's if the body has it and the
    old one if not. In a store whose ids lie below its counters, as in
    every store the server reaches, no other event of the server touches
    these fields: an auction appears only by a create request, with the
    fields of its body, and the fields of a stored auction change only by
    an update request for it, to the fields of its body where it has them.
    So in every store the server reaches from its start,
    requests overlapping or not, an auction has a non-null winner or a
    non-null winning bid only if some create request, or an update request
    for that auction, supplied that value. *)
Theorem auction_status_and_winner_as_supplied rt s :
  (forall now sid m gid g f d,
      getUser sid s = Some m ->
      User.role m = "manager" ->
      getChitGroup gid s = Some g ->
      Schema.insertAuctionSchema f = Some d ->
      let created :=
        serve (postChitGroupAuction now (Some sid) gid (Fields f)) s in
      exists a',
        fst created = mkResponse 201 (JAuction a')
        /\ getAuction (auctionIdCounter s) (snd created) = Some a'
        /\ AuctionFields.status f = Some (Auction.status a')
        /\ Auction.winnerUserId a' = orNull (AuctionFields.winnerUserId f)
        /\ Auction.winningBid a' = orNull (AuctionFields.winningBid f))
  /\ (forall sid m aid a f',
        getUser sid s = Some m ->
        User.role m = "manager" ->
        getAuction aid s = Some a ->
        AuctionFields.status f' = Some "completed" ->
        let updated := serve (putAuction (Some sid) aid (Fields f')) s in
        exists a',
          fst updated = mkResponse 200 (JAuction a')
          /\ getAuction aid (snd updated) = Some a'
          /\ Auction.status a' = "completed"
          /\ Auction.winnerUserId a'
             = spread (Auction.winnerUserId a) (AuctionFields.winnerUserId f')
          /\ Auction.winningBid a'
             = spread (Auction.winningBid a) (AuctionFields.winningBid f'))
  /\ (forall waits event k a',
        wellFormed s = true ->
        getAuction k (store (react rt (mkServer s waits) event)) = Some a' ->
        match getAuction k s with
        | None =>
            exists now session gid f,
              event = Arrives (PostChitGroupAuction now session gid (Fields f))
              /\ k = auctionIdCounter s
              /\ AuctionFields.status f = Some (Auction.status a')
              /\ Auction.winnerUserId a'
                 = orNull (AuctionFields.winnerUserId f)
              /\ Auction.winningBid a' = orNull (AuctionFields.winningBid f)
        | Some a =>
            a' = a
            \/ exists session f,
                event = Arrives (PutAuction session k (Fields f))
                /\ Auction.status a'
                   = spread (Auction.status a) (AuctionFields.status f)
                /\ Auction.winnerUserId a'
                   = spread (Auction.winnerUserId a)
                            (AuctionFields.winnerUserId f)
                /\ Auction.winningBid a'
                   = spread (Auction.winningBid a)
                            (AuctionFields.winningBid f)
        end)
  /\ (forall events k a,
        getAuction k (store (serverRun rt (mkServer newStore []) events))
        = Some a ->
        (forall winner,
            Auction.winnerUserId a = Some winner ->
            exists session f,
              AuctionFields.winnerUserId f = Some (Some winner)
              /\ ((exists now gid,
                      In (Arrives (PostChitGroupAuction now session gid
                                     (Fields f))) events)
                  \/ In (Arrives (PutAuction session k (Fields f))) events))
        /\ (forall bid,
              Auction.winningBid a = Some bid ->
              exists session f,
                AuctionFields.winningBid f = Some (Some bid)
                /\ ((exists now gid,
                        In (Arrives (PostChitGroupAuction now session gid
                                       (Fields f))) events)
                    \/ In (Arrives (PutAuction session k (Fields f)))
                          events))).
Proof.
  split; [|split; [|split]].
  - intros now sid m gid g f d Hm Hrole Hg Hd created.
    subst created. unfold serve, postChitGroupAuction, bind.
    rewrite (isManager_session sid m s Hm Hrole).
    unfold query, orElse, ret, command, validateRequest.
    rewrite Hg. cbn. rewrite Hd. cbn.
    destruct (insertAuctionSchema_fields f d Hd) as (Hs & Hw & Hb).
    eexists. split; [reflexivity|]. unfold createAuction, getAuction. cbn.
    rewrite JsMapFacts.get_set_same. rewrite Hw, Hb. auto.
  - intros sid m aid a f' Hm Hrole Ha Hst updated. subst updated.
    rewrite (putAuction_manager s sid m aid a f' Hm Hrole Ha). cbn.
    eexists. split; [reflexivity|]. unfold getAuction. cbn.
    rewrite JsMapFacts.get_set_same, Hst. auto.
  - intros waits event k a' Hwf. now apply react_auction.
  - clear s. intros events.
    induction events as [|event events IH] using rev_ind.
    + intros k a H. discriminate H.
    + intros k a. unfold serverRun. rewrite fold_left_app. cbn [fold_left].
      fold (serverRun rt (mkServer newStore []) events).
      pose proof (serverRun_reachable rt events) as Hr.
      pose proof (serverReachable_wellFormed rt _ Hr) as Hwf.
      destruct (serverRun rt (mkServer newStore []) events) as [s waits].
      cbn [store] in *. intros Ha.
      pose proof (react_auction rt waits s event k a Hwf Ha) as Hstep.
      destruct (getAuction k s) as [a0|] eqn:E.
      * destruct (IH k a0 E) as [IHw IHb].
        destruct Hstep as [->|(session & f & -> & _ & Hw & Hb)].
        { split.
          - intros winner Hwin.
            destruct (IHw winner Hwin) as (session & f & Hf & [(n & g & Hin)|Hin]);
              exists session, f; (split; [exact Hf|]);
              [left; exists n, g|right]; apply in_or_app; now left.
          - intros bid Hbid.
            destruct (IHb bid Hbid) as (session & f & Hf & [(n & g & Hin)|Hin]);
              exists session, f; (split; [exact Hf|]);
              [left; exists n, g|right]; apply in_or_app; now left. }
        split.
        -- intros winner Hwin. rewrite Hw in Hwin.
           destruct (AuctionFields.winnerUserId f) as [given|] eqn:Ef;
             cbn [spread] in Hwin.
           ++ exists session, f. split; [congruence|].
              right. apply in_or_app. right. now left.
           ++ destruct (IHw winner Hwin)
                as (session' & f' & Hf & [(n & g & Hin)|Hin]);
                exists session', f'; (split; [exact Hf|]);
                [left; exists n, g|right]; apply in_or_app; now left.
        -- intros bid Hbid. rewrite Hb in Hbid.
           destruct (AuctionFields.winningBid f) as [given|] eqn:Ef;
             cbn [spread] in Hbid.
           ++ exists session, f. split; [congruence|].
              right. apply in_or_app. right. now left.
           ++ destruct (IHb bid Hbid)
                as (session' & f' & Hf & [(n & g & Hin)|Hin]);
                exists session', f'; (split; [exact Hf|]);
                [left; exists n, g|right]; apply in_or_app; now left.
      * destruct Hstep as (now & session & gid & f & -> & _ & _ & Hw & Hb).
        split.
        -- intros winner Hwin. rewrite Hw in Hwin.
           exists session, f. split.
           ++ destruct (AuctionFields.winnerUserId f) as [given|];
                cbn [orNull] in Hwin; congruence.
           ++ left. exists now, gid. apply in_or_app. right. now left.
        -- intros bid Hbid. rewrite Hb in Hbid.
           exists session, f. split.
           ++ destruct (AuctionFields.winningBid f) as [given|];
                cbn [orNull] in Hbid; congruence.
           ++ left. exists now, gid. apply in_or_app. right. now left.
Qed.
End AuctionFieldsStored.

Lemma auction_status_and_winner_as_supplied_witness :
  let f := auctionFor 1 "2024-02-01" "completed" in
  let f' :=
    AuctionFields.mk None None (Some (Some 3)) (Some (Some 90000))
                     (Some "completed") None in
  (auctions groupStore = []
   /\ exists a',
       fst (serve (Routes.postChitGroupAuction 1006 (Some 1) 1 (Fields f))
                  groupStore)
       = mkResponse 201 (JAuction a')
       /\ Auction.status a' = "completed"
       /\ Auction.winnerUserId a' = None /\ Auction.winningBid a' = None)
  /\ (exists a',
        fst (serve (Routes.putAuction (Some 1) 1 (Fields f')) demoStore)
        = mkResponse 200 (JAuction a')
        /\ Auction.status a' = "completed"
        /\ Auction.winnerUserId a' = Some 3
        /\ Auction.winningBid a' = Some 90000).
Proof.
  intros f f'. split.
  - split; [reflexivity|].
    destruct (proj1 (auction_status_and_winner_as_supplied demoRuntime
                       groupStore)
                1006 1 ltac:(stored (MemStorage.getUser 1 groupStore))
                1 ltac:(stored (MemStorage.getChitGroup 1 groupStore))
                f _ eq_refl eq_refl eq_refl eq_refl)
      as (a1 & H1 & _ & Hs & Hw & Hb).
    exists a1. split; [exact H1|]. split; [|split; [exact Hw|exact Hb]].
    cbn in Hs. congruence.
  - destruct (proj1 (proj2 (auction_status_and_winner_as_supplied demoRuntime
                              demoStore))
                1 ltac:(stored (MemStorage.getUser 1 demoStore))
                1 ltac:(stored (MemStorage.getAuction 1 demoStore))
                f' eq_refl eq_refl eq_refl eq_refl)
      as (a2 & H2 & _ & Hs & Hw2 & Hb2).
    exists a2. auto.
Defined.

(** ** Placing a bid *)

Section PlaceBid.
Import MemStorage Routes.

(** The route as a decision list. *)
Lemma postAuctionBid_eval now s sid u aid reqBody :
  getUser sid s = Some u ->
  serve (postAuctionBid now (Some sid) aid reqBody) s
  = match getAuction aid s with
    | None => (mkResponse 404 (JMessage "Auction not found"), s)
    | Some a =>
        if negb (String.eqb (Auction.status a) "scheduled") then
          (mkResponse 400
             (JMessage "Cannot place bid on a completed or cancelled auction"),
           s)
        else if String.eqb (User.role u) "customer"
                && negb (someMember (User.id u)
                           (getChitGroupMembers (Auction.chitGroupId a) s))
        then
          (mkResponse 403
             (JMessage "You are not a member of this chit group"), s)
        else
          match validateRequest Schema.insertBidSchema reqBody with
          | None => (mkResponse 400 JInvalid, s)
          | Some data =>
              let bidData :=
                InsertBid.mk aid (User.id u) (InsertBid.bidAmount data) in
              (mkResponse 201 (JBid (fst (createBid now bidData s))),
               snd (createBid now bidData s))
          end
    end.
Proof.
  intros Hu. unfold serve, postAuctionBid, bind.
  rewrite (isAuthenticated_session sid u s Hu).
  unfold query, orElse, ret, respond, rejectIf, command.
  destruct (getAuction aid s) as [a|]; [|reflexivity].
  destruct (String.eqb (Auction.status a) "scheduled"); cbn; [|reflexivity].
  destruct (String.eqb (User.role u) "customer"); cbn.
  - destruct (someMember _ _); cbn; [|reflexivity].
    destruct (validateRequest _ _); reflexivity.
  - destruct (validateRequest _ _); reflexivity.
Qed.

Lemma createBid_listed now d s :
  In (fst (createBid now d s))
     (getBidsByAuction (InsertBid.auctionId d) (snd (createBid now d s))).
Proof.
  apply getBidsByAuction_spec. unfold createBid. cbn. split; [|reflexivity].
  eapply JsMapFacts.get_In_values, JsMapFacts.get_set_same.
Qed.

(** C4 fails: bob is a manager and no member of group 1, yet his bid on
    the scheduled auction 1 is answered 201 and listed. *)
Lemma manager_bids_without_membership :
  let reqBody := Fields (BidFields.mk (Some 1) (Some 2) (Some 91000)) in
  let answer := serve (postAuctionBid 1010 (Some 2) 1 reqBody) demoStore in
  someMember 2 (getChitGroupMembers 1 demoStore) = false
  /\ exists bid, fst answer = mkResponse 201 (JBid bid)
                 /\ Bid.userId bid = 2
                 /\ In bid (getBidsByAuction 1 (snd answer)).
Proof.
  vm_compute. split; [reflexivity|]. eexists. repeat split. right. now left.
Qed.

(** C4 as amended. For an authenticated user [u], placing a bid is
    answered 201 if and only if the auction exists, its status is
    scheduled, the body is a valid bid, and [u] is a member of the
    auction's group or is not a customer: the membership check is made for
    customers only. On an auction that is not scheduled the call is
    answered 400; on a scheduled one a customer who is no member is
    answered 403; a call that is not answered 201 leaves the store as it
    was. A call answered 201 creates a bid of [u] on that auction, and the
    bid list of the auction then returns it. *)
Theorem postAuctionBid_accepts_iff now s sid u aid reqBody :
  getUser sid s = Some u ->
  let answer := serve (postAuctionBid now (Some sid) aid reqBody) s in
  (status (fst answer) = 201
   <-> exists a,
         getAuction aid s = Some a
         /\ Auction.status a = "scheduled"
         /\ (User.role u = "customer" ->
             someMember (User.id u)
                        (getChitGroupMembers (Auction.chitGroupId a) s) = true)
         /\ isSome (validateRequest Schema.insertBidSchema reqBody) = true)
  /\ (forall a, getAuction aid s = Some a ->
                Auction.status a <> "scheduled" ->
                answer
                = (mkResponse 400
                     (JMessage
                        "Cannot place bid on a completed or cancelled auction"),
                   s))
  /\ (forall a, getAuction aid s = Some a ->
                Auction.status a = "scheduled" ->
                User.role u = "customer" ->
                someMember (User.id u)
                           (getChitGroupMembers (Auction.chitGroupId a) s)
                = false ->
                answer
                = (mkResponse 403
                     (JMessage "You are not a member of this chit group"), s))
  /\ (status (fst answer) <> 201 -> snd answer = s)
  /\ (status (fst answer) = 201 ->
      exists bid,
        body (fst answer) = JBid bid
        /\ Bid.auctionId bid = aid /\ Bid.userId bid = User.id u
        /\ In bid (getBidsByAuction aid (snd answer))
        /\ exists listed,
             fst (serve (getAuctionBids (Some sid) aid) (snd answer))
             = mkResponse 200 (JBids listed)
             /\ In (bidWithUserDetails (snd answer) bid) listed).
Proof.
  intros Hu answer. subst answer.
  rewrite (postAuctionBid_eval now s sid u aid reqBody Hu).
  destruct (getAuction aid s) as [a|] eqn:Ha.
  2:{ cbn. split; [|split; [|split; [|split]]].
      - split; [discriminate|]. intros (a & Hsome & _). discriminate.
      - intros a Hsome. discriminate.
      - intros a Hsome. discriminate.
      - reflexivity.
      - discriminate. }
  destruct (String.eqb (Auction.status a) "scheduled") eqn:Hst; cbn.
  2:{ apply String.eqb_neq in Hst. split; [|split; [|split; [|split]]].
      - split; [discriminate|]. intros (a0 & [= <-] & Hs & _). contradiction.
      - reflexivity.
      - intros a0 [= <-] Hs. contradiction.
      - reflexivity.
      - discriminate. }
  apply String.eqb_eq in Hst.
  destruct (String.eqb (User.role u) "customer"
            && negb (someMember (User.id u)
                       (getChitGroupMembers (Auction.chitGroupId a) s)))
    eqn:Hguard; cbn.
  { apply andb_true_iff in Hguard as [Hrole Hmem].
    apply String.eqb_eq in Hrole. apply negb_true_iff in Hmem.
    split; [|split; [|split; [|split]]].
    - split; [discriminate|].
      intros (a0 & [= <-] & _ & Hm & _). specialize (Hm Hrole). congruence.
    - intros a0 [= <-] Hne. contradiction.
    - reflexivity.
    - reflexivity.
    - discriminate. }
  assert (User.role u = "customer" ->
          someMember (User.id u)
                     (getChitGroupMembers (Auction.chitGroupId a) s) = true)
    as Hmember.
  { intros Hrole. apply String.eqb_eq in Hrole. rewrite Hrole in Hguard.
    cbn in Hguard. now apply negb_false_iff in Hguard. }
  destruct (validateRequest Schema.insertBidSchema reqBody) as [d|] eqn:Hd;
    cbn.
  2:{ split; [|split; [|split; [|split]]].
      - split; [discriminate|]. intros (a0 & _ & _ & _ & Hv). discriminate.
      - intros a0 [= <-] Hne. contradiction.
      - intros a0 [= <-] _ Hrole Hmem. specialize (Hmember Hrole). congruence.
      - reflexivity.
      - discriminate. }
  split; [|split; [|split; [|split]]].
  - split; [|reflexivity]. intros _. exists a. auto.
  - intros a0 [= <-] Hne. contradiction.
  - intros a0 [= <-] _ Hrole Hmem. specialize (Hmember Hrole). congruence.
  - intros Hne. now contradiction Hne.
  - intros _. eexists. split; [reflexivity|].
    split; [reflexivity|]. split; [reflexivity|].
    pose proof (createBid_listed now
                  (InsertBid.mk aid (User.id u) (InsertBid.bidAmount d)) s)
      as Hin.
    cbn in Hin. split; [exact Hin|].
    eexists. split.
    + erewrite getAuctionBids_authenticated; [reflexivity| |].
      * unfold createBid, getUser. cbn. exact Hu.
      * unfold createBid, getAuction. cbn. exact Ha.
    + now apply in_map.
Qed.
End PlaceBid.

Lemma postAuctionBid_accepts_iff_witness :
  status (fst (serve (Routes.postAuctionBid 1010 (Some 3) 1
                        (Fields (BidFields.mk (Some 1) (Some 3) (Some 92000))))
                     demoStore)) = 201
  /\ serve (Routes.postAuctionBid 1010 (Some 4) 1
              (Fields (BidFields.mk (Some 1) (Some 4) (Some 92000))))
           demoStore
     = (mkResponse 403 (JMessage "You are not a member of this chit group"),
        demoStore).
Proof.
  split.
  - refine (proj2 (proj1 (postAuctionBid_accepts_iff 1010 demoStore 3 _ 1 _
                            eq_refl)) _).
    eexists. split; [reflexivity|]. split; [reflexivity|].
    split; [intros _|]; reflexivity.
  - refine (proj1 (proj2 (proj2 (postAuctionBid_accepts_iff 1010 demoStore 4 _ 1 _
                                   eq_refl))) _ eq_refl eq_refl eq_refl eq_refl).
Defined.

(** ** Recording a payment *)

Section RecordPayment.
Import MemStorage Routes.

Lemma postPayment_eval now s sid m reqBody :
  getUser sid s = Some m ->
  User.role m = "manager" ->
  serve (postPayment now (Some sid) reqBody) s
  = match validateRequest Schema.insertPaymentSchema reqBody with
    | None => (mkResponse 400 JInvalid, s)
    | Some data =>
        match getChitGroup (InsertPayment.chitGroupId data) s with
        | None => (mkResponse 404 (JMessage "Chit group not found"), s)
        | Some chitGroup =>
            match getUser (InsertPayment.userId data) s with
            | None => (mkResponse 404 (JMessage "User not found"), s)
            | Some _ =>
                if negb (someMember (InsertPayment.userId data)
                           (getChitGroupMembers
                              (InsertPayment.chitGroupId data) s))
                then (mkResponse 400
                        (JMessage "User is not a member of this chit group"),
                      s)
                else
                  (mkResponse 201 (JPayment (fst (createPayment now data s))),
                   snd (createNotification now
                          (InsertNotification.mk
                             (InsertPayment.userId data)
                             (paymentMessage data chitGroup) "payment")
                          (snd (createPayment now data s))))
            end
        end
    end.
Proof.
  intros Hm Hrole. unfold serve, postPayment, bind.
  rewrite (isManager_session sid m s Hm Hrole).
  unfold query, orElse, ret, respond, rejectIf, command.
  destruct (validateRequest _ _) as [data|]; [|reflexivity].
  destruct (getChitGroup _ s); [|reflexivity].
  destruct (getUser (InsertPayment.userId data) s); [|reflexivity].
  destruct (someMember _ _); reflexivity.
Qed.

Lemma postPayment_not_manager now s session reqBody code j :
  isManager session s = (inl (mkResponse code j), s) ->
  serve (postPayment now session reqBody) s = (mkResponse code j, s).
Proof.
  intros H. unfold serve, postPayment, bind. now rewrite H.
Qed.

(** C5. A record-payment request whose target group does not exist, whose
    target user does not exist, or whose user is not a member of the group
    is not answered 201 and leaves the store as it was: no payment and no
    notification is created. A manager's valid request for an existing
    group and an existing user who is a member is answered 201, and the
    store then has exactly one more payment, the one returned, and exactly
    one more notification, of type payment, unread, addressed to the
    paying user, with the message naming amount, group, month and status;
    every other table is as before. The store is any well-formed one. *)
Theorem postPayment_all_or_nothing now s session reqBody :
  wellFormed s = true ->
  let answer := serve (postPayment now session reqBody) s in
  (forall data,
      validateRequest Schema.insertPaymentSchema reqBody = Some data ->
      getChitGroup (InsertPayment.chitGroupId data) s = None
      \/ getUser (InsertPayment.userId data) s = None
      \/ someMember (InsertPayment.userId data)
                    (getChitGroupMembers (InsertPayment.chitGroupId data) s)
         = false ->
      status (fst answer) <> 201 /\ snd answer = s)
  /\ (forall sid m data g u,
        session = Some sid ->
        getUser sid s = Some m ->
        User.role m = "manager" ->
        validateRequest Schema.insertPaymentSchema reqBody = Some data ->
        getChitGroup (InsertPayment.chitGroupId data) s = Some g ->
        getUser (InsertPayment.userId data) s = Some u ->
        someMember (InsertPayment.userId data)
                   (getChitGroupMembers (InsertPayment.chitGroupId data) s)
        = true ->
        exists p n,
          fst answer = mkResponse 201 (JPayment p)
          /\ payments (snd answer) = payments s ++ [(paymentIdCounter s, p)]
          /\ notifications (snd answer)
             = notifications s ++ [(notificationIdCounter s, n)]
          /\ Payment.chitGroupId p = InsertPayment.chitGroupId data
          /\ Payment.userId p = InsertPayment.userId data
          /\ Payment.amount p = InsertPayment.amount data
          /\ Payment.monthNumber p = InsertPayment.monthNumber data
          /\ Payment.status p = InsertPayment.status data
          /\ Notification.userId n = InsertPayment.userId data
          /\ Notification.type n = "payment"
          /\ Notification.isRead n = false
          /\ Notification.message n = paymentMessage data g
          /\ users (snd answer) = users s
          /\ chitGroups (snd answer) = chitGroups s
          /\ chitGroupMembers (snd answer) = chitGroupMembers s
          /\ auctions (snd answer) = auctions s
          /\ bids (snd answer) = bids s).
Proof.
  intros Hwf answer. subst answer. split.
  - intros data Hdata Hmissing.
    destruct (isManager_cases session s)
      as [(m & Hok & Hrole & sid & -> & Hm)|(code & j & Hrej & Hcode)].
    + rewrite (postPayment_eval now s sid m reqBody Hm Hrole), Hdata.
      destruct (getChitGroup _ s) as [g|] eqn:Hg;
        [|cbn; split; [discriminate|reflexivity]].
      destruct (getUser (InsertPayment.userId data) s) as [u|] eqn:Hu;
        [|cbn; split; [discriminate|reflexivity]].
      destruct (someMember _ _) eqn:Hmem; cbn;
        [|split; [discriminate|reflexivity]].
      destruct Hmissing as [H|[H|H]]; discriminate.
    + rewrite (postPayment_not_manager now s session reqBody code j Hrej).
      cbn. split; [|reflexivity]. destruct Hcode; subst code; discriminate.
  - intros sid m data g u -> Hm Hrole Hdata Hg Hu Hmem.
    rewrite (postPayment_eval now s sid m reqBody Hm Hrole), Hdata, Hg, Hu, Hmem.
    cbn. unfold wellFormed in Hwf.
    repeat (let H := fresh "Hwf" in apply andb_true_iff in Hwf as [Hwf H]).
    do 2 eexists. split; [reflexivity|].
    unfold createNotification, createPayment. cbn.
    rewrite !JsMapFacts.set_fresh
      by (eapply JsMapFacts.below_get_none; [eassumption|lia]).
    repeat split; reflexivity.
Qed.
End RecordPayment.

Lemma postPayment_all_or_nothing_witness :
  let paid :=
    Fields (PaymentFields.mk (Some 1) (Some 3) (Some 10000) (Some "2024-02-05")
                             (Some 1) (Some "paid")) in
  let stranger :=
    Fields (PaymentFields.mk (Some 1) (Some 4) (Some 10000) (Some "2024-02-05")
                             (Some 1) (Some "paid")) in
  (exists p n,
      serve (Routes.postPayment 1010 (Some 1) paid) demoStore
      = (mkResponse 201 (JPayment p),
         snd (serve (Routes.postPayment 1010 (Some 1) paid) demoStore))
      /\ payments (snd (serve (Routes.postPayment 1010 (Some 1) paid) demoStore))
         = [(1, p)]
      /\ notifications
           (snd (serve (Routes.postPayment 1010 (Some 1) paid) demoStore))
         = [(1, n)]
      /\ Notification.userId n = 3)
  /\ snd (serve (Routes.postPayment 1010 (Some 1) stranger) demoStore)
     = demoStore.
Proof.
  intros paid stranger. split.
  - destruct (proj2 (postPayment_all_or_nothing 1010 demoStore (Some 1) paid
                       eq_refl)
                    1 _ _ _ _ eq_refl eq_refl eq_refl eq_refl eq_refl eq_refl
                    eq_refl)
      as (p & n & Hfst & Hp & Hn & _ & _ & _ & _ & _ & Hto & _).
    exists p, n. split; [|split; [exact Hp|split; [exact Hn|exact Hto]]].
    rewrite <- Hfst. now destruct (serve _ _).
  - refine (proj2 (proj1 (postPayment_all_or_nothing 1010 demoStore (Some 1)
                            stranger eq_refl) _ eq_refl _)).
    right. right. reflexivity.
Defined.

(** ** Adding a member twice *)

Section AddMember.
Import MemStorage Routes.

Lemma postChitGroupMember_eval now s sid m gid reqBody :
  getUser sid s = Some m ->
  User.role m = "manager" ->
  serve (postChitGroupMember now (Some sid) gid reqBody) s
  = match getChitGroup gid s with
    | None => (mkResponse 404 (JMessage "Chit group not found"), s)
    | Some chitGroup =>
        if negb (ChitGroup.createdBy chitGroup =? User.id m) then
          (mkResponse 403
             (JMessage "You can only add members to chit groups you've created"),
           s)
        else
          match validateRequest Schema.insertChitGroupMemberSchema reqBody with
          | None => (mkResponse 400 JInvalid, s)
          | Some data =>
              match getUser (InsertChitGroupMember.userId data) s with
              | None => (mkResponse 404 (JMessage "User not found"), s)
              | Some user =>
                  if String.eqb (User.role user) "customer"
                     && negb (optZ_eqb (User.managerId user) (User.id m))
                  then
                    (mkResponse 403
                       (JMessage
                          "You can only add customers you manage to chit groups"),
                     s)
                  else if someMember (InsertChitGroupMember.userId data)
                                     (getChitGroupMembers gid s)
                  then
                    (mkResponse 400
                       (JMessage "User is already a member of this chit group"),
                     s)
                  else
                    let memberData :=
                      InsertChitGroupMember.mk gid
                        (InsertChitGroupMember.userId data)
                        (InsertChitGroupMember.joinDate data) in
                    (mkResponse 201
                       (JMember (fst (addMemberToChitGroup now memberData s))),
                     snd (addMemberToChitGroup now memberData s))
              end
          end
    end.
Proof.
  intros Hm Hrole. unfold serve, postChitGroupMember, bind.
  rewrite (isManager_session sid m s Hm Hrole).
  unfold query, orElse, ret, respond, rejectIf, command.
  destruct (getChitGroup gid s) as [g|]; [|reflexivity].
  destruct (ChitGroup.createdBy g =? User.id m); cbn; [|reflexivity].
  destruct (validateRequest _ _) as [data|]; [|reflexivity].
  destruct (getUser (InsertChitGroupMember.userId data) s) as [user|];
    [|reflexivity].
  destruct (String.eqb (User.role user) "customer"
            && negb (optZ_eqb (User.managerId user) (User.id m)));
    cbn; [reflexivity|].
  destruct (someMember _ _); reflexivity.
Qed.

Lemma postChitGroupMember_not_manager now s session gid reqBody code j :
  isManager session s = (inl (mkResponse code j), s) ->
  serve (postChitGroupMember now session gid reqBody) s
  = (mkResponse code j, s).
Proof.
  intros H. unfold serve, postChitGroupMember, bind. now rewrite H.
Qed.

(** The records of the pair (group, user). *)
Lemma no_member_no_record gid u (l : list ChitGroupMember.t) :
  someMember u
    (filter (fun member => ChitGroupMember.chitGroupId member =? gid) l)
  = false ->
  filter (fun member => (ChitGroupMember.chitGroupId member =? gid)
                        && (ChitGroupMember.userId member =? u)) l = [].
Proof.
  unfold someMember. induction l as [|r l IH]; simpl; [reflexivity|].
  destruct (ChitGroupMember.chitGroupId r =? gid); simpl.
  - intros H. apply orb_false_iff in H as [Hr Hl]. rewrite Hr. now apply IH.
  - exact IH.
Qed.

(** What a successful call says about the store before and after. *)
Lemma postChitGroupMember_created now s session gid reqBody member s1 :
  wellFormed s = true ->
  serve (postChitGroupMember now session gid reqBody) s
  = (mkResponse 201 (JMember member), s1) ->
  exists sid m g user,
    session = Some sid /\ getUser sid s = Some m /\ User.role m = "manager"
    /\ getChitGroup gid s = Some g
    /\ (ChitGroup.createdBy g =? User.id m) = true
    /\ getUser (ChitGroupMember.userId member) s = Some user
    /\ String.eqb (User.role user) "customer"
       && negb (optZ_eqb (User.managerId user) (User.id m)) = false
    /\ someMember (ChitGroupMember.userId member) (getChitGroupMembers gid s)
       = false
    /\ ChitGroupMember.chitGroupId member = gid
    /\ users s1 = users s /\ chitGroups s1 = chitGroups s
    /\ chitGroupMembers s1
       = chitGroupMembers s ++ [(chitGroupMemberIdCounter s, member)].
Proof.
  intros Hwf Hcall.
  destruct (isManager_cases session s)
    as [(m & Hok & Hrole & sid & -> & Hm)|(code & j & Hrej & Hcode)].
  2:{ rewrite (postChitGroupMember_not_manager _ _ _ _ _ _ _ Hrej) in Hcall.
      destruct Hcode; subst code; discriminate. }
  rewrite (postChitGroupMember_eval now s sid m gid reqBody Hm Hrole) in Hcall.
  destruct (getChitGroup gid s) as [g|] eqn:Hg; [|discriminate].
  destruct (ChitGroup.createdBy g =? User.id m) eqn:Hown; cbn in Hcall;
    [|discriminate].
  destruct (validateRequest _ _) as [data|]; [|discriminate].
  destruct (getUser (InsertChitGroupMember.userId data) s) as [user|] eqn:Hu;
    [|discriminate].
  destruct (String.eqb (User.role user) "customer"
            && negb (optZ_eqb (User.managerId user) (User.id m))) eqn:Hguard;
    cbn in Hcall; [discriminate|].
  destruct (someMember _ _) eqn:Hmem; [discriminate|].
  cbn in Hcall. injection Hcall as <- <-.
  unfold wellFormed in Hwf.
  repeat (let H := fresh "Hwf" in apply andb_true_iff in Hwf as [Hwf H]).
  exists sid, m, g, user. unfold addMemberToChitGroup. cbn.
  rewrite JsMapFacts.set_fresh
    by (eapply JsMapFacts.below_get_none; [eassumption|lia]).
  repeat split; auto.
Qed.

(** C6. After an add-member call for group [gid] that was answered 201
    with the record [member], a second add-member call for the same group
    and the same user is refused: sent by the same caller it is answered
    400 "User is already a member of this chit group" (the route's
    conflict answer), sent by anyone it is not answered 201, and in both
    cases the store stays as the first call left it, with exactly one
    membership record for the pair, the one the first call created. The
    store before the first call is any well-formed one. *)
Theorem postChitGroupMember_twice now now' s session gid reqBody member s1
    reqBody' data' :
  wellFormed s = true ->
  serve (postChitGroupMember now session gid reqBody) s
  = (mkResponse 201 (JMember member), s1) ->
  validateRequest Schema.insertChitGroupMemberSchema reqBody' = Some data' ->
  InsertChitGroupMember.userId data' = ChitGroupMember.userId member ->
  serve (postChitGroupMember now' session gid reqBody') s1
  = (mkResponse 400 (JMessage "User is already a member of this chit group"),
     s1)
  /\ (forall session',
        let again :=
          serve (postChitGroupMember now' session' gid reqBody') s1 in
        status (fst again) <> 201 /\ snd again = s1)
  /\ filter (fun r => (ChitGroupMember.chitGroupId r =? gid)
                      && (ChitGroupMember.userId r
                          =? ChitGroupMember.userId member))
            (JsMap.values (chitGroupMembers s1))
     = [member].
Proof.
  intros Hwf Hcall Hdata' Hsame.
  destruct (postChitGroupMember_created now s session gid reqBody member s1
              Hwf Hcall)
    as (sid & m & g & user & -> & Hm & Hrole & Hg & Hown & Hu & Hguard & Hmem
        & Hgid & Husers & Hgroups & Hmembers).
  assert (forall id, getUser id s1 = getUser id s) as HgetUser.
  { intros id. unfold getUser. now rewrite Husers. }
  assert (getChitGroup gid s1 = Some g) as Hg1.
  { unfold getChitGroup. now rewrite Hgroups. }
  assert (someMember (ChitGroupMember.userId member)
                     (getChitGroupMembers gid s1) = true) as Hmem1.
  { unfold getChitGroupMembers, JsMap.values. rewrite Hmembers.
    rewrite map_app, filter_app. unfold someMember.
    rewrite existsb_app. cbn. rewrite Hgid, !Z.eqb_refl. cbn.
    now rewrite Z.eqb_refl, orb_true_r. }
  split; [|split].
  - rewrite (postChitGroupMember_eval now' s1 sid m gid reqBody');
      [|now rewrite HgetUser|exact Hrole].
    rewrite Hg1, Hown, Hdata'. cbn. rewrite HgetUser, Hsame, Hu, Hguard, Hmem1.
    reflexivity.
  - intros session' again. subst again.
    destruct (isManager_cases session' s1)
      as [(m' & Hok & Hrole' & sid' & -> & Hm')|(code & j & Hrej & Hcode)].
    + rewrite (postChitGroupMember_eval now' s1 sid' m' gid reqBody' Hm' Hrole').
      rewrite Hg1, Hdata'. cbn. rewrite HgetUser, Hsame, Hu, Hmem1.
      destruct (ChitGroup.createdBy g =? User.id m'); cbn;
        [|split; [discriminate|reflexivity]].
      destruct (String.eqb (User.role user) "customer"
                && negb (optZ_eqb (User.managerId user) (User.id m')));
        cbn; split; (discriminate || reflexivity).
    + rewrite (postChitGroupMember_not_manager _ _ _ _ _ _ _ Hrej). cbn.
      split; [|reflexivity]. destruct Hcode; subst code; discriminate.
  - unfold JsMap.values. rewrite Hmembers, map_app, filter_app.
    unfold getChitGroupMembers in Hmem.
    pose proof (no_member_no_record gid _ _ Hmem) as Hnone.
    unfold JsMap.values in Hnone. rewrite Hnone. cbn.
    now rewrite Hgid, !Z.eqb_refl.
Qed.
End AddMember.

Lemma postChitGroupMember_twice_witness :
  let addDave := Fields (MemberFields.mk (Some 1) (Some 4) (Some "2024-01-15")) in
  let first := serve (Routes.postChitGroupMember 1010 (Some 1) 1 addDave) demoStore in
  status (fst first) = 201
  /\ serve (Routes.postChitGroupMember 1011 (Some 1) 1 addDave) (snd first)
     = (mkResponse 400 (JMessage "User is already a member of this chit group"),
        snd first).
Proof.
  intros addDave first. split; [reflexivity|].
  refine (proj1 (postChitGroupMember_twice 1010 1011 demoStore (Some 1) 1 addDave
                   (ChitGroupMember.mk 2 1 4 "2024-01-15" 1010) (snd first)
                   addDave _ eq_refl _ eq_refl eq_refl)).
  reflexivity.
Defined.

(** ** Hashing and comparing passwords *)

Module CredentialFacts.
Import Credentials.

Lemma bytesEqb_eq a b : bytesEqb a b = true <-> a = b.
Proof.
  revert b. induction a as [|x a IH]; intros [|y b]; simpl;
    try (split; (discriminate || reflexivity)).
  rewrite andb_true_iff, IH. split.
  - intros [Hxy ->]. f_equal. now apply Byte.byte_dec_bl.
  - intros [= -> ->]. split; [|reflexivity]. now apply Byte.byte_dec_lb.
Qed.

Lemma timingSafeEqual_true a b : timingSafeEqual a b = Some true <-> a = b.
Proof.
  unfold timingSafeEqual. split.
  - destruct (Nat.eqb _ _); [|discriminate].
    intros [= H]. now apply bytesEqb_eq.
  - intros ->. rewrite Nat.eqb_refl. f_equal. now apply bytesEqb_eq.
Qed.

(** Decoding undoes encoding, byte by byte. *)
Lemma fromHex_hexOfByte b rest :
  fromHex (hexOfByte b ++ rest)%string = b :: fromHex rest.
Proof. destruct b; reflexivity. Qed.

Lemma fromHex_toHex buf : fromHex (toHex buf) = buf.
Proof.
  induction buf as [|b buf IH]; [reflexivity|].
  change (toHex (b :: buf)) with (hexOfByte b ++ toHex buf)%string.
  now rewrite fromHex_hexOfByte, IH.
Qed.

(** A hex string has no dot, so [split(".")] cuts [hex.salt] at the one dot
    between them. *)
Lemma splitDot_hexOfByte b rest :
  splitDot (hexOfByte b ++ rest)%string
  = match splitDot rest with
    | part :: parts => (hexOfByte b ++ part)%string :: parts
    | [] => [hexOfByte b]
    end.
Proof.
  assert (match hexOfByte b with
          | String hi (String lo EmptyString) =>
              negb (Ascii.eqb hi ".") && negb (Ascii.eqb lo ".")
          | _ => false
          end = true) as Hdigits
    by (destruct b; reflexivity).
  destruct (hexOfByte b) as [|hi [|lo [|]]]; try discriminate.
  apply andb_true_iff in Hdigits as [Hhi Hlo].
  apply negb_true_iff in Hhi, Hlo.
  simpl. rewrite Hhi, Hlo. now destruct (splitDot rest).
Qed.

Lemma splitDot_nonempty s : splitDot s <> [].
Proof.
  destruct s as [|c s]; simpl; [discriminate|].
  destruct (Ascii.eqb c "."); [discriminate|].
  destruct (splitDot s); discriminate.
Qed.

Lemma splitDot_toHex_app buf rest :
  splitDot (toHex buf ++ rest)%string
  = match splitDot rest with
    | part :: parts => (toHex buf ++ part)%string :: parts
    | [] => [toHex buf]
    end.
Proof.
  induction buf as [|b buf IH].
  - cbn. pose proof (splitDot_nonempty rest).
    now destruct (splitDot rest).
  - change (toHex (b :: buf) ++ rest)%string
      with (hexOfByte b ++ (toHex buf ++ rest))%string.
    rewrite splitDot_hexOfByte, IH.
    now destruct (splitDot rest).
Qed.

Lemma append_empty_r (s : string) : (s ++ "")%string = s.
Proof. induction s; simpl; congruence. Qed.

Lemma splitDot_toHex buf : splitDot (toHex buf) = [toHex buf].
Proof.
  rewrite <- (append_empty_r (toHex buf)) at 1.
  rewrite splitDot_toHex_app. cbn. now rewrite append_empty_r.
Qed.

Lemma splitDot_stored digest salt :
  splitDot (toHex digest ++ "." ++ toHex salt)%string
  = [toHex digest; toHex salt].
Proof.
  rewrite splitDot_toHex_app. cbn. rewrite splitDot_toHex.
  now rewrite append_empty_r.
Qed.

(** Against a hash made by [hashPassword], a password is compared through
    its key under the stored salt. *)
Lemma comparePasswords_hashPassword rt rnd password supplied :
  comparePasswords rt supplied (hashPassword rt rnd password)
  = timingSafeEqual (scrypt rt password (toHex rnd) 64)
                    (scrypt rt supplied (toHex rnd) 64).
Proof.
  unfold comparePasswords, hashPassword.
  now rewrite splitDot_stored, fromHex_toHex.
Qed.

Lemma hashPassword_verifies rt rnd password :
  comparePasswords rt password (hashPassword rt rnd password) = Some true.
Proof.
  rewrite comparePasswords_hashPassword. now apply timingSafeEqual_true.
Qed.

Lemma hashPassword_verifies_iff rt rnd password supplied :
  comparePasswords rt supplied (hashPassword rt rnd password) = Some true
  <-> scrypt rt supplied (toHex rnd) 64 = scrypt rt password (toHex rnd) 64.
Proof.
  rewrite comparePasswords_hashPassword, timingSafeEqual_true.
  split; intros H; now symmetry.
Qed.
End CredentialFacts.

(** ** Resetting a password *)

Section ResetPassword.
Import MemStorage Routes Credentials.

Lemma postUserResetPassword_eval rt rnd session uid reqBody s :
  serve (postUserResetPassword rt rnd session uid reqBody) s
  = if (uid =? 0)
       || negb (isSome (truthyString (currentPassword reqBody)))
       || negb (isSome (truthyString (newPassword reqBody)))
    then (mkResponse 400 (JMessage "Missing required fields"), s)
    else
      match getUser uid s with
      | None => (mkResponse 404 (JMessage "User not found"), s)
      | Some user =>
          match comparePasswords rt
                  (spread EmptyString (currentPassword reqBody))
                  (User.password user) with
          | None => (mkResponse 500 (JMessage "Failed to update password"), s)
          | Some passwordCorrect =>
              if negb passwordCorrect then
                (mkResponse 400 (JMessage "Current password is incorrect"), s)
              else
                (mkResponse 200 (JMessage "Password updated successfully"),
                 snd (updateUser uid
                        (PartialUser.mk
                           (Some (hashPassword rt rnd
                                    (spread EmptyString (newPassword reqBody))))
                           (Some false))
                        s))
          end
      end.
Proof.
  unfold serve, postUserResetPassword, postUserResetPasswordChecks,
    postUserResetPasswordUpdate, bind, query, orElse, ret, respond,
    rejectIf, command.
  destruct ((uid =? 0) || _ || _); cbn; [reflexivity|].
  destruct (getUser uid s) as [user|]; cbn; [|reflexivity].
  destruct (comparePasswords _ _ _) as [[|]|]; reflexivity.
Qed.

Lemma truthyString_nonempty (x : string) :
  x <> EmptyString -> truthyString (Some x) = Some x.
Proof.
  intros H. unfold truthyString.
  destruct (String.eqb x "") eqn:E; [|reflexivity].
  apply String.eqb_eq in E. contradiction.
Qed.

Lemma updateUser_stored uid u patch s :
  getUser uid s = Some u ->
  exists u',
    getUser uid (snd (updateUser uid patch s)) = Some u'
    /\ User.password u' = spread (User.password u) (PartialUser.password patch)
    /\ User.isFirstLogin u'
       = spread (User.isFirstLogin u) (PartialUser.isFirstLogin patch)
    /\ User.id u' = User.id u /\ User.username u' = User.username u
    /\ User.role u' = User.role u /\ User.managerId u' = User.managerId u.
Proof.
  intros Hu. unfold updateUser. unfold getUser in Hu. rewrite Hu.
  eexists. unfold getUser. cbn. rewrite JsMapFacts.get_set_same.
  repeat split; reflexivity.
Qed.

Lemma wellFormed_user_id uid u s :
  wellFormed s = true -> getUser uid s = Some u ->
  uid <> 0 /\ User.id u = uid.
Proof.
  intros Hwf Hu. unfold wellFormed in Hwf.
  repeat (let H := fresh "Hwf" in apply andb_true_iff in Hwf as [Hwf H]).
  unfold getUser in Hu. split.
  - assert (1 <= uid) by (eapply JsMapFacts.atLeast_get; eassumption). lia.
  - eapply (keyIsId_get User.id); eassumption.
Qed.

(** The successful path of the route, for any session. *)
Lemma postUserResetPassword_accepts rt rnd session uid u cur new s :
  wellFormed s = true ->
  getUser uid s = Some u ->
  cur <> EmptyString -> new <> EmptyString ->
  comparePasswords rt cur (User.password u) = Some true ->
  serve (postUserResetPassword rt rnd session uid
           (mkResetFields (Some cur) (Some new))) s
  = (mkResponse 200 (JMessage "Password updated successfully"),
     snd (updateUser uid
            (PartialUser.mk (Some (hashPassword rt rnd new)) (Some false)) s)).
Proof.
  intros Hwf Hu Hcur Hnew Hok.
  rewrite postUserResetPassword_eval. cbn [currentPassword newPassword spread].
  rewrite (truthyString_nonempty cur Hcur), (truthyString_nonempty new Hnew).
  destruct (wellFormed_user_id uid u s Hwf Hu) as [Hne _].
  apply Z.eqb_neq in Hne. rewrite Hne. cbn. now rewrite Hu, Hok.
Qed.

(** C9. [POST /api/users/:userId/reset-password] does not look at the
    session. A request that names an existing user, supplies that user's
    current password (one that verifies against the stored hash) and a new
    password is answered 200 and the new hash is stored with
    [isFirstLogin] false, with or without a session and whoever the
    session belongs to: the answer and the resulting store are the same
    for every session. No request to this route is answered 401. The
    store is any well-formed one. *)
Theorem postUserResetPassword_needs_no_session rt rnd session uid u cur new s :
  wellFormed s = true ->
  getUser uid s = Some u ->
  cur <> EmptyString -> new <> EmptyString ->
  comparePasswords rt cur (User.password u) = Some true ->
  let reqBody := mkResetFields (Some cur) (Some new) in
  let answer := serve (postUserResetPassword rt rnd session uid reqBody) s in
  fst answer = mkResponse 200 (JMessage "Password updated successfully")
  /\ (exists u',
        getUser uid (snd answer) = Some u'
        /\ User.password u' = hashPassword rt rnd new
        /\ User.isFirstLogin u' = false)
  /\ (forall session',
        serve (postUserResetPassword rt rnd session' uid reqBody) s = answer)
  /\ (forall session' uid' reqBody' s',
        status (fst (serve (postUserResetPassword rt rnd session' uid' reqBody')
                           s')) <> 401).
Proof.
  intros Hwf Hu Hcur Hnew Hok reqBody answer. subst reqBody answer.
  rewrite (postUserResetPassword_accepts rt rnd session uid u cur new s)
    by assumption.
  split; [reflexivity|]. split.
  - destruct (updateUser_stored uid u
                (PartialUser.mk (Some (hashPassword rt rnd new)) (Some false))
                s Hu) as (u' & Hget & Hp & Hf & _).
    exists u'. auto.
  - split.
    + intros session'.
      now rewrite (postUserResetPassword_accepts rt rnd session' uid u cur new s).
    + intros session' uid' reqBody' s'.
      rewrite postUserResetPassword_eval.
      clear. repeat (break_match; cbn); discriminate.
Qed.

(** C8 fails twice over. Carol resets her password, giving her temporary
    password both as the current and as the new one: the route answers
    200, [isFirstLogin] becomes false, a new hash is stored, and the old
    password still verifies. And the session route stores a new password
    for the logged-in carol without any current password being sent. *)
Lemma reset_keeps_old_password_valid :
  let reqBody := mkResetFields (Some "temp123") (Some "temp123") in
  let answer :=
    serve (postUserResetPassword demoRuntime [x09; x0a] None 3 reqBody)
          demoStore in
  let viaSession :=
    serve (Auth.postResetPassword demoRuntime [x09; x0a] (Some 3)
             (Some "new-secret"))
          demoStore in
  (exists u u',
      getUser 3 demoStore = Some u /\ User.isFirstLogin u = true
      /\ comparePasswords demoRuntime "temp123" (User.password u) = Some true
      /\ fst answer = mkResponse 200 (JMessage "Password updated successfully")
      /\ getUser 3 (snd answer) = Some u'
      /\ User.isFirstLogin u' = false
      /\ String.eqb (User.password u') (User.password u) = false
      /\ comparePasswords demoRuntime "temp123" (User.password u') = Some true)
  /\ (exists u',
        status (fst viaSession) = 200
        /\ getUser 3 (snd viaSession) = Some u'
        /\ User.isFirstLogin u' = false
        /\ comparePasswords demoRuntime "temp123" (User.password u')
           = Some false
        /\ comparePasswords demoRuntime "new-secret" (User.password u')
           = Some true).
Proof.
  cbv zeta. split.
  - exists ltac:(stored (getUser 3 demoStore)).
    exists ltac:(stored
      (getUser 3
         (snd (serve (postUserResetPassword demoRuntime [x09; x0a] None 3
                        (mkResetFields (Some "temp123") (Some "temp123")))
                     demoStore)))).
    repeat split; vm_compute; reflexivity.
  - exists ltac:(stored
      (getUser 3
         (snd (serve (Auth.postResetPassword demoRuntime [x09; x0a] (Some 3)
                        (Some "new-secret"))
                     demoStore)))).
    repeat split; vm_compute; reflexivity.
Qed.

(** C8 as amended. At [POST /api/users/:userId/reset-password] a new
    password is accepted only when the supplied current password verifies
    against the stored hash. On success [isFirstLogin] is false and the
    stored credential is a fresh hash of the new password: the new
    password verifies against it, and any other password, the old one
    included, verifies against it exactly when [scrypt] gives it the key
    of the new password under the new salt (so the old password keeps
    verifying when the new password equals it). When the current password
    does not verify the route does not answer 200 and the store is
    unchanged. The session route [POST /api/reset-password] asks for no
    current password: for a logged-in user it stores the hash of the new
    password and sets [isFirstLogin] to false. The store is any
    well-formed one. *)
Theorem reset_password_flow rt rnd session uid u cur new s :
  wellFormed s = true ->
  getUser uid s = Some u ->
  let reqBody := mkResetFields (Some cur) (Some new) in
  let answer := serve (postUserResetPassword rt rnd session uid reqBody) s in
  let viaSession :=
    serve (Auth.postResetPassword rt rnd (Some uid) (Some new)) s in
  (status (fst answer) = 200 ->
   comparePasswords rt cur (User.password u) = Some true)
  /\ (cur <> EmptyString -> new <> EmptyString ->
      comparePasswords rt cur (User.password u) = Some true ->
      status (fst answer) = 200
      /\ exists u',
          getUser uid (snd answer) = Some u'
          /\ User.isFirstLogin u' = false
          /\ User.password u' = hashPassword rt rnd new
          /\ comparePasswords rt new (User.password u') = Some true
          /\ (forall other,
                comparePasswords rt other (User.password u') = Some true
                <-> scrypt rt other (toHex rnd) 64
                    = scrypt rt new (toHex rnd) 64))
  /\ (comparePasswords rt cur (User.password u) <> Some true ->
      status (fst answer) <> 200 /\ snd answer = s)
  /\ (status (fst viaSession) = 200
      /\ exists u',
          getUser uid (snd viaSession) = Some u'
          /\ User.isFirstLogin u' = false
          /\ User.password u' = hashPassword rt rnd new).
Proof.
  intros Hwf Hu reqBody answer viaSession.
  assert (status (fst answer) = 200 ->
          comparePasswords rt cur (User.password u) = Some true) as Honly.
  { subst answer reqBody. rewrite postUserResetPassword_eval. cbn.
    destruct ((uid =? 0) || _ || _); [discriminate|].
    rewrite Hu.
    destruct (comparePasswords rt _ (User.password u)) as [[|]|] eqn:E;
      cbn; try discriminate.
    reflexivity. }
  split; [exact Honly|]. split; [|split].
  - intros Hcur Hnew Hok. subst answer reqBody.
    rewrite (postUserResetPassword_accepts rt rnd session uid u cur new s)
      by assumption.
    split; [reflexivity|].
    destruct (updateUser_stored uid u
                (PartialUser.mk (Some (hashPassword rt rnd new)) (Some false))
                s Hu) as (u' & Hget & Hp & Hf & _).
    cbn in Hp, Hf. exists u'. cbn. rewrite Hp.
    split; [exact Hget|]. split; [exact Hf|]. split; [reflexivity|].
    split; [apply CredentialFacts.hashPassword_verifies|].
    intros other. apply CredentialFacts.hashPassword_verifies_iff.
  - intros Hbad. subst answer reqBody.
    rewrite postUserResetPassword_eval. cbn.
    destruct ((uid =? 0) || _ || _); [split; [discriminate|reflexivity]|].
    rewrite Hu.
    destruct (comparePasswords rt cur (User.password u)) as [[|]|];
      cbn; try (split; [discriminate|reflexivity]).
    now contradiction Hbad.
  - subst viaSession.
    unfold serve, Auth.postResetPassword, Auth.postResetPasswordChecks,
      Auth.postResetPasswordUpdate, reqUser, bind, query, orElse, ret,
      respond, rejectIf, command.
    rewrite Hu. cbn.
    destruct (wellFormed_user_id uid u s Hwf Hu) as [_ ->].
    destruct (updateUser_stored uid u
                (PartialUser.mk (Some (hashPassword rt rnd new)) (Some false))
                s Hu) as (u' & Hget & Hp & Hf & _).
    cbn in Hp, Hf. split; [reflexivity|]. exists u'. auto.
Qed.
End ResetPassword.

Lemma postUserResetPassword_needs_no_session_witness :
  let reqBody := Routes.mkResetFields (Some "temp123") (Some "fresh-secret") in
  fst (serve (Routes.postUserResetPassword demoRuntime [x09; x0a] (Some 2) 3
                reqBody) demoStore)
  = mkResponse 200 (JMessage "Password updated successfully")
  /\ serve (Routes.postUserResetPassword demoRuntime [x09; x0a] None 3 reqBody)
           demoStore
     = serve (Routes.postUserResetPassword demoRuntime [x09; x0a] (Some 2) 3
                reqBody) demoStore.
Proof.
  intros reqBody.
  assert ("temp123" <> EmptyString) as Hcur by discriminate.
  assert ("fresh-secret" <> EmptyString) as Hnew by discriminate.
  destruct (postUserResetPassword_needs_no_session demoRuntime [x09; x0a]
              (Some 2) 3 _ "temp123" "fresh-secret" demoStore
              eq_refl eq_refl Hcur Hnew eq_refl)
    as (Hfst & _ & Hsame & _).
  split; [exact Hfst|]. exact (Hsame None).
Defined.

Lemma reset_password_flow_witness :
  let reqBody := Routes.mkResetFields (Some "temp123") (Some "fresh-secret") in
  let answer :=
    serve (Routes.postUserResetPassword demoRuntime [x09; x0a] (Some 3) 3
             reqBody) demoStore in
  status (fst answer) = 200
  /\ exists u',
      MemStorage.getUser 3 (snd answer) = Some u'
      /\ User.isFirstLogin u' = false
      /\ Credentials.comparePasswords demoRuntime "fresh-secret"
           (User.password u') = Some true.
Proof.
  intros reqBody answer.
  assert ("temp123" <> EmptyString) as Hcur by discriminate.
  assert ("fresh-secret" <> EmptyString) as Hnew by discriminate.
  destruct (proj1 (proj2 (reset_password_flow demoRuntime [x09; x0a] (Some 3) 3
                            _ "temp123" "fresh-secret" demoStore
                            eq_refl eq_refl))
                  Hcur Hnew eq_refl)
    as (Hstatus & u' & Hget & Hfirst & _ & Hnewok & _).
  split; [exact Hstatus|]. exists u'. auto.
Defined.

(** ** What a request can write *)

(** Boolean tests of the handlers, as facts. *)
Ltac tidy :=
  repeat match goal with
  | H : negb _ = false |- _ => apply negb_false_iff in H
  | H : negb _ = true |- _ => apply negb_true_iff in H
  | H : isSome ?x = false |- _ => destruct x eqn:?; [discriminate H | clear H]
  | H : String.eqb _ _ = true |- _ => apply String.eqb_eq in H
  | H : _ && _ = true |- _ => apply andb_true_iff in H; destruct H
  end.

Lemma handle_effect rt s req : Effect rt s (snd (serve (handle rt req) s)).
Proof.
  destruct req; unfold_handler.
  all: repeat (break_match; cbn); cbn.
  all: try solve [econstructor; eauto].
  all: tidy; solve [econstructor; eauto].
Qed.

Lemma step_effect rt s req : Effect rt s (step rt s req).
Proof.
  destruct (step_cases rt s req) as [->| ->];
    [constructor|apply handle_effect].
Qed.

Lemma resume_effect rt waits s : Effect rt s (snd (serve (resume rt waits) s)).
Proof.
  destruct waits; cbn [resume]; unfold_handler; cbn; econstructor.
Qed.

Lemma react_effect rt server event :
  Effect rt (store server) (store (react rt server event)).
Proof.
  destruct event as [req|i]; cbn [react].
  - destruct (arrive_cases rt req (store server))
      as [(r & -> & _)|[(waits & -> & _)|(-> & _)]]; cbn [store];
      [constructor|constructor|apply handle_effect].
  - destruct (nth_error (waiting server) i); [|constructor]. cbn [store].
    apply resume_effect.
Qed.

(** What every write keeps, every reachable store has. *)
Lemma reachable_invariant rt (P : Store -> Prop) :
  P newStore ->
  (forall s s', wellFormed s = true -> P s -> Effect rt s s' -> P s') ->
  forall s, reachable rt s -> P s.
Proof.
  intros Hnew Hkeep s [waits H].
  change s with (store (mkServer s waits)).
  induction H as [|server event H IH]; [exact Hnew|].
  apply (Hkeep (store server)); [|exact IH|apply react_effect].
  exact (serverReachable_wellFormed rt _ H).
Qed.

(** The store operations, opened. *)
Ltac open_store :=
  unfold MemStorage.createUser, MemStorage.updateUser,
    MemStorage.createChitGroup, MemStorage.updateChitGroup,
    MemStorage.addMemberToChitGroup, MemStorage.removeMemberFromChitGroup,
    MemStorage.createAuction, MemStorage.updateAuction, MemStorage.createBid,
    MemStorage.createPayment, MemStorage.updatePayment,
    MemStorage.createNotification, MemStorage.markNotificationAsRead;
  repeat (break_match; cbn); cbn.

Lemma wellFormed_parts s :
  wellFormed s = true ->
  JsMap.below (userIdCounter s) (users s) = true
  /\ JsMap.below (chitGroupIdCounter s) (chitGroups s) = true
  /\ JsMap.below (chitGroupMemberIdCounter s) (chitGroupMembers s) = true
  /\ JsMap.below (auctionIdCounter s) (auctions s) = true
  /\ JsMap.below (bidIdCounter s) (bids s) = true
  /\ JsMap.below (paymentIdCounter s) (payments s) = true
  /\ JsMap.below (notificationIdCounter s) (notifications s) = true
  /\ JsMap.uniqueKeys (chitGroups s) = true
  /\ keyIsId ChitGroup.id (chitGroups s) = true
  /\ 1 <= userIdCounter s
  /\ JsMap.atLeast 1 (users s) = true
  /\ keyIsId User.id (users s) = true.
Proof.
  intros H. unfold wellFormed in H.
  repeat (let H' := fresh "H" in apply andb_true_iff in H as [H H']).
  apply Z.leb_le in H2. repeat split; assumption.
Qed.

Lemma below_fresh {V : Type} (m : JsMap.t V) k v :
  JsMap.below k m = true -> JsMap.set k v m = m ++ [(k, v)].
Proof.
  intros H. apply JsMapFacts.set_fresh.
  eapply JsMapFacts.below_get_none; [exact H|lia].
Qed.

Lemma below_key_lt {V : Type} (m : JsMap.t V) bound k v :
  JsMap.below bound m = true -> JsMap.get k m = Some v -> k < bound.
Proof.
  intros Hb Hget. destruct (Z.lt_ge_cases k bound) as [|Hge]; [assumption|].
  rewrite (JsMapFacts.below_get_none m k bound Hb Hge) in Hget. discriminate.
Qed.

(** ** Records that stay *)

Section Kept.
Import MemStorage.

Lemma runFrom_wellFormed rt s reqs :
  wellFormed s = true -> wellFormed (runFrom rt s reqs) = true.
Proof.
  unfold runFrom. revert s.
  induction reqs as [|req reqs IH]; intros s Hwf; simpl; [exact Hwf|].
  apply IH. now apply step_wellFormed.
Qed.

(** A lookup after [m.set(k0, v)]. *)
Ltac get_set k0 k :=
  let Hne := fresh "Hne" in
  destruct (Z.eq_dec k0 k) as [->|Hne];
  [rewrite JsMapFacts.get_set_same
  |rewrite (JsMapFacts.get_set_other _ _ _ _ Hne)].

Lemma effect_user_kept rt s s' k u :
  wellFormed s = true ->
  Effect rt s s' ->
  getUser k s = Some u ->
  exists u',
    getUser k s' = Some u'
    /\ User.id u' = User.id u /\ User.username u' = User.username u
    /\ User.role u' = User.role u /\ User.managerId u' = User.managerId u
    /\ User.createdAt u' = User.createdAt u.
Proof.
  intros Hwf He Hu. destruct (wellFormed_parts s Hwf) as (Hbu & _).
  unfold getUser in *.
  pose proof (below_key_lt _ _ _ _ Hbu Hu) as Hlt.
  destruct He; open_store.
  all: try solve [eexists; split; [eassumption|auto]].
  - rewrite JsMapFacts.get_set_other by lia. eauto 10.
  - rewrite JsMapFacts.get_set_other by lia. eauto 10.
  - get_set id k.
    + eexists. split; [reflexivity|]. cbn.
      assert (t = u) as -> by congruence. auto.
    + eauto 10.
Qed.

Lemma effect_chitGroup_kept rt s s' k g :
  wellFormed s = true ->
  Effect rt s s' ->
  getChitGroup k s = Some g ->
  exists g',
    getChitGroup k s' = Some g'
    /\ ChitGroup.id g' = ChitGroup.id g
    /\ ChitGroup.createdBy g' = ChitGroup.createdBy g
    /\ ChitGroup.createdAt g' = ChitGroup.createdAt g.
Proof.
  intros Hwf He Hg. destruct (wellFormed_parts s Hwf) as (_ & Hbg & _).
  unfold getChitGroup in *.
  pose proof (below_key_lt _ _ _ _ Hbg Hg) as Hlt.
  destruct He; open_store.
  all: try solve [eexists; split; [eassumption|auto]].
  all: try (rewrite JsMapFacts.get_set_other by lia; eauto 10).
  all: get_set id k;
    [eexists; split; [reflexivity|]; cbn;
     match goal with
     | H1 : JsMap.get ?z _ = Some ?a, H2 : JsMap.get ?z _ = Some ?b |- _ =>
         assert (a = b) as -> by congruence
     end; auto
    |eauto 10].
Qed.

Lemma effect_auction_kept rt s s' k a :
  wellFormed s = true ->
  Effect rt s s' ->
  getAuction k s = Some a ->
  exists a',
    getAuction k s' = Some a'
    /\ Auction.id a' = Auction.id a
    /\ Auction.createdAt a' = Auction.createdAt a.
Proof.
  intros Hwf He Ha. destruct (wellFormed_parts s Hwf) as (_ & _ & _ & Hba & _).
  unfold getAuction in *.
  pose proof (below_key_lt _ _ _ _ Hba Ha) as Hlt.
  destruct He; open_store.
  all: try solve [eexists; split; [eassumption|auto]].
  all: try (rewrite JsMapFacts.get_set_other by lia; eauto 10).
  all: get_set id k;
    [eexists; split; [reflexivity|]; cbn;
     match goal with
     | H1 : JsMap.get ?z _ = Some ?x, H2 : JsMap.get ?z _ = Some ?y |- _ =>
         assert (x = y) as -> by congruence
     end; auto
    |eauto 10].
Qed.


(** X2. No sequence of requests removes a chit group or changes its id, its
    creator or its creation time: the group found under a key in a
    well-formed store is found under the same key after any requests, with
    [createdBy] as it was. *)
Theorem chitGroups_keep_their_creator rt s reqs k g :
  wellFormed s = true ->
  getChitGroup k s = Some g ->
  exists g',
    getChitGroup k (runFrom rt s reqs) = Some g'
    /\ ChitGroup.id g' = ChitGroup.id g
    /\ ChitGroup.createdBy g' = ChitGroup.createdBy g
    /\ ChitGroup.createdAt g' = ChitGroup.createdAt g.
Proof.
  unfold runFrom. revert s g.
  induction reqs as [|req reqs IH]; intros s g Hwf Hg; simpl.
  - eauto 10.
  - destruct (effect_chitGroup_kept rt s (step rt s req) k g Hwf
                (step_effect rt s req) Hg)
      as (g1 & Hg1 & Hid & Hby & Hat).
    destruct (IH (step rt s req) g1 (step_wellFormed rt s req Hwf) Hg1)
      as (g' & Hg' & Hid' & Hby' & Hat').
    exists g'. repeat split; congruence.
Qed.
End Kept.

(** ** More on [JsMap] *)

Section JsMapValues.
Context {V B : Type}.
Implicit Types (m : JsMap.t V) (f : V -> B).

Lemma map_values_set_same m f k v v' :
  JsMap.get k m = Some v -> f v' = f v ->
  map f (JsMap.values (JsMap.set k v' m)) = map f (JsMap.values m).
Proof.
  intros Hget Hf. unfold JsMap.values.
  induction m as [|[k0 v0] m IH]; simpl in *; [discriminate|].
  destruct (k0 =? k); simpl.
  - injection Hget as ->. now rewrite Hf.
  - now rewrite IH.
Qed.

Lemma In_values_set m k v x :
  In x (JsMap.values (JsMap.set k v m)) -> x = v \/ In x (JsMap.values m).
Proof.
  unfold JsMap.values.
  induction m as [|[k0 v0] m IH]; simpl.
  - intros [<-|[]]. now left.
  - destruct (k0 =? k); simpl.
    + intros [<-|H]; auto.
    + intros [<-|H]; auto. destruct (IH H); auto.
Qed.

Lemma In_values_delete m k x :
  In x (JsMap.values (JsMap.delete k m)) -> In x (JsMap.values m).
Proof.
  unfold JsMap.values.
  induction m as [|[k0 v0] m IH]; simpl; [auto|].
  destruct (k0 =? k); simpl; [auto|].
  intros [<-|H]; auto.
Qed.

Lemma NoDup_map_delete m f k :
  NoDup (map f (JsMap.values m)) ->
  NoDup (map f (JsMap.values (JsMap.delete k m))).
Proof.
  unfold JsMap.values.
  induction m as [|[k0 v0] m IH]; simpl; [auto|].
  intros H. inversion H as [|? ? Hnotin Hnd]; subst.
  destruct (k0 =? k); simpl; [assumption|].
  constructor; [|now apply IH].
  intros Hin. apply Hnotin.
  apply in_map_iff in Hin as (x & Hx & Hin). apply in_map_iff.
  exists x. split; [exact Hx|]. now apply (In_values_delete m k x).
Qed.

Lemma uniqueKeys_delete m k :
  JsMap.uniqueKeys m = true -> JsMap.uniqueKeys (JsMap.delete k m) = true.
Proof.
  unfold JsMap.uniqueKeys, JsMap.keys.
  induction m as [|[k0 v0] m IH]; simpl; [auto|].
  intros H. apply andb_true_iff in H as [Hfresh Hnd].
  destruct (k0 =? k); simpl; [assumption|].
  rewrite IH by assumption. rewrite andb_true_r.
  apply negb_true_iff. apply negb_true_iff in Hfresh.
  destruct (existsb (Z.eqb k0) (map fst (JsMap.delete k m))) eqn:E;
    [|reflexivity].
  apply existsb_exists in E as (k1 & Hin & Hk1).
  rewrite <- Hfresh. symmetry.
  apply existsb_exists. exists k1. split; [|exact Hk1].
  clear -Hin. induction m as [|[k2 v2] m IH]; simpl in *; [auto|].
  destruct (k2 =? k); simpl in *; [auto|]. destruct Hin; auto.
Qed.

(** Deleting the key of an entry of a map without repeated keys removes
    that entry: what stays differs from it, when no two values agree under
    [f]. *)
Lemma delete_removes_the_like m f k v :
  JsMap.uniqueKeys m = true ->
  NoDup (map f (JsMap.values m)) ->
  In (k, v) m ->
  forall x, In x (JsMap.values (JsMap.delete k m)) -> f x <> f v.
Proof.
  unfold JsMap.uniqueKeys, JsMap.keys, JsMap.values.
  induction m as [|[k0 v0] m IH]; simpl; [contradiction|].
  intros Hkeys Hnd Hin x Hx.
  apply andb_true_iff in Hkeys as [Hfresh Hkeys].
  inversion Hnd as [|? ? Hnotin Hnd']; subst.
  destruct (k0 =? k) eqn:E.
  - apply Z.eqb_eq in E. subst k0. destruct Hin as [[= ->]|Hin].
    + intros Heq. apply Hnotin. rewrite <- Heq. now apply in_map.
    + apply negb_true_iff in Hfresh.
      assert (existsb (Z.eqb k) (map fst m) = true) as Hex.
      { apply existsb_exists. exists k. split; [|apply Z.eqb_refl].
        change k with (fst (k, v)). now apply in_map. }
      congruence.
  - destruct Hin as [[= -> ->]|Hin]; [rewrite Z.eqb_refl in E; discriminate|].
    simpl in Hx. destruct Hx as [<-|Hx].
    + intros Heq. apply Hnotin. rewrite Heq.
      apply in_map. change v with (snd (k, v)). now apply in_map.
    + now apply (IH Hkeys Hnd' Hin).
Qed.
End JsMapValues.

Lemma find_none_username (users : list User.t) name :
  find (fun user => String.eqb (User.username user) name) users = None ->
  ~ In name (map User.username users).
Proof.
  intros Hnone Hin. apply in_map_iff in Hin as (u & Hu & Hin).
  pose proof (find_none _ _ Hnone u Hin) as H. cbn in H.
  rewrite Hu, String.eqb_refl in H. discriminate.
Qed.

Lemma NoDup_app_one {A : Type} (l : list A) (x : A) :
  NoDup l -> ~ In x l -> NoDup (l ++ [x]).
Proof.
  intros Hnd Hnotin. induction Hnd as [|y l Hy Hnd IH]; simpl.
  - constructor; [intros []|constructor].
  - constructor.
    + rewrite in_app_iff. intros [H|[<-|[]]]; [contradiction|].
      apply Hnotin. now left.
    + apply IH. intros H. apply Hnotin. now right.
Qed.

(** ** Usernames and memberships are unique *)

Section Uniqueness.
Import MemStorage.

(** A user created under a free username keeps the usernames unique; so
    does every write that creates no user. *)
Lemma createUser_uniqueUsernames now d s :
  wellFormed s = true -> uniqueUsernames s ->
  getUserByUsername (InsertUser.username d) s = None ->
  uniqueUsernames (snd (createUser now d s)).
Proof.
  intros Hwf Hu Hfree. destruct (wellFormed_parts s Hwf) as (Hbu & _).
  unfold uniqueUsernames in *.
  unfold createUser. cbn. rewrite (below_fresh _ _ _ Hbu).
  unfold JsMap.values. rewrite !map_app. cbn.
  apply NoDup_app_one; [exact Hu|]. now apply find_none_username.
Qed.

Lemma updateUser_uniqueUsernames id d s :
  uniqueUsernames s -> uniqueUsernames (snd (updateUser id d s)).
Proof.
  intros Hu. unfold uniqueUsernames in *.
  unfold updateUser. destruct (JsMap.get id (users s)) eqn:E; [|assumption].
  cbn [snd users withUsers]. erewrite map_values_set_same; eauto.
Qed.

Lemma handle_uniqueUsernames rt s req :
  wellFormed s = true -> uniqueUsernames s ->
  uniqueUsernames (snd (serve (handle rt req) s)).
Proof.
  intros Hwf Hu. destruct req; unfold_handler.
  all: repeat (break_match; cbn); cbn.
  all: try assumption.
  all: tidy.
  all: first
    [ now apply createUser_uniqueUsernames
    | now apply updateUser_uniqueUsernames
    | unfold uniqueUsernames in *; open_store; assumption ].
Qed.

Lemma effect_uniqueUserKeys rt s s' :
  JsMap.uniqueKeys (users s) = true -> Effect rt s s' ->
  JsMap.uniqueKeys (users s') = true.
Proof.
  intros Hu He.
  destruct He; open_store;
    first [assumption | now apply JsMapFacts.uniqueKeys_set].
Qed.

Lemma no_member_no_pair gid uid (l : list ChitGroupMember.t) :
  Routes.someMember uid
    (filter (fun member => ChitGroupMember.chitGroupId member =? gid) l)
  = false ->
  ~ In (gid, uid) (map memberPair l).
Proof.
  intros Hnone Hin. apply in_map_iff in Hin as (r & Hr & Hin).
  unfold memberPair in Hr. injection Hr as Hg Hu.
  unfold Routes.someMember in Hnone.
  assert (existsb (fun member => ChitGroupMember.userId member =? uid)
            (filter (fun member => ChitGroupMember.chitGroupId member =? gid) l)
          = true) as Hex; [|congruence].
  apply existsb_exists. exists r. split; [|now apply Z.eqb_eq].
  apply filter_In. split; [exact Hin|now apply Z.eqb_eq].
Qed.

Lemma effect_uniqueMemberships rt s s' :
  wellFormed s = true -> uniqueMemberships s -> Effect rt s s' ->
  uniqueMemberships s'.
Proof.
  intros Hwf Hu He. destruct (wellFormed_parts s Hwf) as (_ & _ & Hbm & _).
  unfold uniqueMemberships in *.
  destruct He; try (open_store; assumption).
  - unfold addMemberToChitGroup. cbn. rewrite (below_fresh _ _ _ Hbm).
    unfold JsMap.values. rewrite !map_app. cbn.
    apply NoDup_app_one; [exact Hu|].
    unfold memberPair at 1. cbn. now apply no_member_no_pair.
  - unfold removeMemberFromChitGroup. destruct (find _ _); [|assumption].
    cbn. now apply NoDup_map_delete.
Qed.

Lemma effect_uniqueMemberKeys rt s s' :
  JsMap.uniqueKeys (chitGroupMembers s) = true -> Effect rt s s' ->
  JsMap.uniqueKeys (chitGroupMembers s') = true.
Proof.
  intros Hu He.
  destruct He; open_store;
    first [assumption
          |now apply JsMapFacts.uniqueKeys_set
          |now apply uniqueKeys_delete].
Qed.

Lemma reachable_unique rt s :
  reachable rt s ->
  JsMap.uniqueKeys (users s) = true
  /\ uniqueMemberships s /\ JsMap.uniqueKeys (chitGroupMembers s) = true.
Proof.
  apply (reachable_invariant rt
           (fun s => JsMap.uniqueKeys (users s) = true
                     /\ uniqueMemberships s
                     /\ JsMap.uniqueKeys (chitGroupMembers s) = true)).
  - repeat split; constructor.
  - intros s0 s' Hwf (Hk & Hm & Hmk) He.
    repeat split;
      eauto using effect_uniqueUserKeys, effect_uniqueMemberships,
        effect_uniqueMemberKeys.
Qed.

Lemma NoDup_map_at_most_one {A C : Type} (f : A -> C) (test : A -> bool) c
    (l : list A) :
  (forall x, test x = true -> f x = c) ->
  NoDup (map f l) -> (List.length (filter test l) <= 1)%nat.
Proof.
  intros Htest. induction l as [|x l IH]; simpl; [lia|].
  intros Hnd. inversion Hnd as [|? ? Hnotin Hnd']; subst.
  destruct (test x) eqn:E; [|now apply IH].
  simpl. assert (filter test l = []) as ->; [|simpl; lia].
  destruct (filter test l) as [|y l'] eqn:F; [reflexivity|].
  exfalso. apply Hnotin.
  assert (In y (filter test l)) as Hy by (rewrite F; now left).
  apply filter_In in Hy as [Hy Ty].
  rewrite (Htest x E), <- (Htest y Ty). now apply in_map.
Qed.

(** X4. In every reachable store a user is a member of a chit group at most
    once: for every group id and user id the store holds at most one
    membership record of the pair. *)
Theorem memberships_are_unique rt s (gid uid : Z) :
  reachable rt s ->
  (List.length
     (filter (fun r => (ChitGroupMember.chitGroupId r =? gid)%Z
                       && (ChitGroupMember.userId r =? uid)%Z)
             (JsMap.values (chitGroupMembers s))) <= 1)%nat.
Proof.
  intros Hr. destruct (reachable_unique rt s Hr) as (_ & Hm & _).
  apply (NoDup_map_at_most_one memberPair _ (gid, uid)); [|exact Hm].
  intros r Hr'. apply andb_true_iff in Hr' as [Hg Hu].
  apply Z.eqb_eq in Hg, Hu. unfold memberPair. now rewrite Hg, Hu.
Qed.
End Uniqueness.

(** ** Stored references resolve *)

Section References.
Import MemStorage.

Lemma effect_onlyCustomersHaveManagers rt s s' :
  onlyCustomersHaveManagers s -> Effect rt s s' ->
  onlyCustomersHaveManagers s'.
Proof.
  unfold onlyCustomersHaveManagers. intros Hold He.
  destruct He; open_store; try assumption.
  all: intros u Hin; apply In_values_set in Hin as [->|Hin]; auto; cbn.
  all: first
    [ intros Hr; exfalso; apply Hr; now apply String.eqb_eq
    | apply Hold; eapply JsMapFacts.get_In_values; eassumption ].
Qed.

Lemma stored_user_by_id s sid u :
  wellFormed s = true -> getUser sid s = Some u ->
  getUser (User.id u) s = Some u /\ truthyNumber (Some (User.id u)) = Some (User.id u).
Proof.
  intros Hwf Hu. destruct (wellFormed_user_id sid u s Hwf Hu) as [Hne Hid].
  rewrite Hid. split; [exact Hu|]. unfold truthyNumber.
  apply Z.eqb_neq in Hne. now rewrite Hne.
Qed.

Lemma effect_creatorsAreManagers rt s s' :
  wellFormed s = true -> creatorsAreManagers s -> Effect rt s s' ->
  creatorsAreManagers s'.
Proof.
  intros Hwf Hold He.
  assert (forall g, In g (JsMap.values (chitGroups s')) ->
                    exists m, getUser (ChitGroup.createdBy g) s = Some m
                              /\ User.role m = "manager") as Horigin.
  { destruct He; open_store; try exact Hold.
    all: intros g Hin; apply In_values_set in Hin as [->|Hin]; auto; cbn.
    - match goal with
      | Hc : InsertChitGroup.createdBy _ = Some _, Hm : getUser _ s = Some _
        |- _ => rewrite Hc;
                destruct (stored_user_by_id s _ _ Hwf Hm) as [Hm' ->]
      end.
      cbn. eauto.
    - apply Hold. eapply JsMapFacts.get_In_values. eassumption. }
  intros g Hin. destruct (Horigin g Hin) as (m & Hm & Hrole).
  destruct (effect_user_kept rt s s' _ m Hwf He Hm)
    as (m' & Hm' & _ & _ & Hrole' & _).
  exists m'. split; [exact Hm'|congruence].
Qed.

Lemma effect_membershipsResolve rt s s' :
  wellFormed s = true -> membershipsResolve s -> Effect rt s s' ->
  membershipsResolve s'.
Proof.
  intros Hwf Hold He.
  assert (forall r, In r (JsMap.values (chitGroupMembers s')) ->
            (exists g, getChitGroup (ChitGroupMember.chitGroupId r) s = Some g)
            /\ (exists u, getUser (ChitGroupMember.userId r) s = Some u))
    as Horigin.
  { destruct He; open_store; try exact Hold.
    - intros r Hin. apply In_values_set in Hin as [->|Hin]; auto. cbn. eauto.
    - intros r Hin. apply In_values_delete in Hin. auto. }
  intros r Hin. destruct (Horigin r Hin) as [(g & Hg) (u & Hu)].
  destruct (effect_chitGroup_kept rt s s' _ g Hwf He Hg) as (g' & Hg' & _).
  destruct (effect_user_kept rt s s' _ u Hwf He Hu) as (u' & Hu' & _).
  eauto.
Qed.

Lemma effect_bidsResolve rt s s' :
  wellFormed s = true -> bidsResolve s -> Effect rt s s' -> bidsResolve s'.
Proof.
  intros Hwf Hold He.
  assert (forall b, In b (JsMap.values (bids s')) ->
            (exists a, getAuction (Bid.auctionId b) s = Some a)
            /\ (exists u, getUser (Bid.userId b) s = Some u)) as Horigin.
  { destruct He; open_store; try exact Hold.
    intros b Hin. apply In_values_set in Hin as [->|Hin]; auto. cbn.
    split; [eauto|].
    match goal with
    | Hd : InsertBid.userId _ = User.id _, Hm : getUser _ s = Some _ |- _ =>
        rewrite Hd; destruct (stored_user_by_id s _ _ Hwf Hm) as [Hm' _]
    end.
    eauto. }
  intros b Hin. destruct (Horigin b Hin) as [(a & Ha) (u & Hu)].
  destruct (effect_auction_kept rt s s' _ a Hwf He Ha) as (a' & Ha' & _).
  destruct (effect_user_kept rt s s' _ u Hwf He Hu) as (u' & Hu' & _).
  eauto.
Qed.

Lemma effect_notificationsResolve rt s s' :
  wellFormed s = true -> notificationsResolve s -> Effect rt s s' ->
  notificationsResolve s'.
Proof.
  intros Hwf Hold He.
  assert (forall n, In n (JsMap.values (notifications s')) ->
            exists u, getUser (Notification.userId n) s = Some u) as Horigin.
  { destruct He; open_store; try exact Hold.
    all: intros n Hin; apply In_values_set in Hin as [->|Hin]; auto; cbn.
    - eauto.
    - apply Hold. eapply JsMapFacts.get_In_values. eassumption. }
  intros n Hin. destruct (Horigin n Hin) as (u & Hu).
  destruct (effect_user_kept rt s s' _ u Hwf He Hu) as (u' & Hu' & _).
  eauto.
Qed.

Lemma reachable_references rt s :
  reachable rt s ->
  onlyCustomersHaveManagers s /\ creatorsAreManagers s
  /\ membershipsResolve s /\ bidsResolve s /\ notificationsResolve s.
Proof.
  apply (reachable_invariant rt
           (fun s => onlyCustomersHaveManagers s /\ creatorsAreManagers s
                     /\ membershipsResolve s /\ bidsResolve s
                     /\ notificationsResolve s)).
  - split; [|split; [|split; [|split]]]; intros x Hx; destruct Hx.
  - intros s0 s' Hwf (Hc & Hg & Hm & Hb & Hn) He.
    split; [|split; [|split; [|split]]];
      eauto using effect_onlyCustomersHaveManagers, effect_creatorsAreManagers,
        effect_membershipsResolve, effect_bidsResolve,
        effect_notificationsResolve.
Qed.

(** X5. In every reachable store a user whose role is not customer has no
    manager: [createUser] keeps a [managerId] for customers only, and no
    request changes a role or a manager. *)
Theorem only_customers_have_managers rt s k u :
  reachable rt s ->
  getUser k s = Some u ->
  User.role u <> "customer" ->
  User.managerId u = None.
Proof.
  intros Hr Hu Hrole.
  destruct (reachable_references rt s Hr) as (Hc & _).
  apply Hc; [|exact Hrole]. eapply JsMapFacts.get_In_values. exact Hu.
Qed.

(** X6. In every reachable store the creator of every chit group is a
    stored user of role manager: [createdBy] is the id of the manager who
    sent the create request, and neither the group's creator nor the
    manager's record can be taken away afterwards. *)
Theorem chitGroup_creator_is_a_manager rt s k g :
  reachable rt s ->
  getChitGroup k s = Some g ->
  exists m, getUser (ChitGroup.createdBy g) s = Some m
            /\ User.role m = "manager"
            /\ User.id m = ChitGroup.createdBy g.
Proof.
  intros Hr Hg.
  destruct (reachable_references rt s Hr) as (_ & Hc & _).
  destruct (Hc g (JsMapFacts.get_In_values _ _ _ Hg)) as (m & Hm & Hrole).
  exists m. repeat split; auto.
  now destruct (wellFormed_user_id _ _ _ (reachable_wellFormed rt s Hr) Hm).
Qed.

(** X7. In every reachable store the references of memberships, bids and
    notifications resolve: every membership names a stored chit group and a
    stored user, every bid a stored auction and a stored user, every
    notification a stored user. *)
Theorem stored_references_resolve rt s :
  reachable rt s ->
  (forall r, In r (JsMap.values (chitGroupMembers s)) ->
      (exists g, getChitGroup (ChitGroupMember.chitGroupId r) s = Some g)
      /\ (exists u, getUser (ChitGroupMember.userId r) s = Some u))
  /\ (forall b, In b (JsMap.values (bids s)) ->
        (exists a, getAuction (Bid.auctionId b) s = Some a)
        /\ (exists u, getUser (Bid.userId b) s = Some u))
  /\ (forall n, In n (JsMap.values (notifications s)) ->
        exists u, getUser (Notification.userId n) s = Some u).
Proof.
  intros Hr.
  destruct (reachable_references rt s Hr) as (_ & _ & Hm & Hb & Hn).
  split; [exact Hm|]. split; [exact Hb|exact Hn].
Qed.
End References.

(** ** The bids of an auction, as any caller reads them *)

Section AuctionBidsRead.
Import MemStorage Routes.

(** C10. [GET /api/auctions/:id/bids] answers every authenticated caller
    alike: for an existing auction the answer is 200 with one entry for
    each stored bid of that auction, in the stored order, and the store is
    untouched. An entry is the bid together with the details of its
    bidder: the [id] and the [name] of the user stored under the bid's
    [userId], or null if there is none; in a store the server has reached
    there always is one. Neither the role of the caller, nor membership in
    the auction's group, nor ownership of it enters: two callers [u1] and
    [u2], whoever they are, get the same answer. *)
Theorem getAuctionBids_ignores_caller s sid1 sid2 u1 u2 aid a :
  getUser sid1 s = Some u1 ->
  getUser sid2 s = Some u2 ->
  getAuction aid s = Some a ->
  exists listed,
    serve (getAuctionBids (Some sid1) aid) s
    = (mkResponse 200 (JBids listed), s)
    /\ serve (getAuctionBids (Some sid2) aid) s
       = serve (getAuctionBids (Some sid1) aid) s
    /\ map BidWithUser.bid listed = getBidsByAuction aid s
    /\ (forall b, In b (getBidsByAuction aid s)
                  <-> In b (JsMap.values (bids s)) /\ Bid.auctionId b = aid)
    /\ (forall entry,
          In entry listed ->
          BidWithUser.user entry
          = match getUser (Bid.userId (BidWithUser.bid entry)) s with
            | Some bidder => Some (User.id bidder, User.name bidder)
            | None => None
            end)
    /\ (forall rt entry,
          reachable rt s ->
          In entry listed ->
          exists bidder,
            getUser (Bid.userId (BidWithUser.bid entry)) s = Some bidder
            /\ BidWithUser.user entry
               = Some (Bid.userId (BidWithUser.bid entry),
                       User.name bidder)).
Proof.
  intros H1 H2 Ha.
  exists (map (bidWithUserDetails s) (getBidsByAuction aid s)).
  rewrite (getAuctionBids_authenticated s sid1 u1 aid a H1 Ha).
  rewrite (getAuctionBids_authenticated s sid2 u2 aid a H2 Ha).
  split; [reflexivity|]. split; [reflexivity|].
  split; [rewrite map_map; apply map_id|].
  split; [intros b; apply getBidsByAuction_spec|].
  split.
  - intros entry Hin. apply in_map_iff in Hin as (b & <- & _). reflexivity.
  - intros rt entry Hr Hin. apply in_map_iff in Hin as (b & <- & Hb).
    apply getBidsByAuction_spec in Hb as [Hb _].
    destruct (reachable_references rt s Hr) as (_ & _ & _ & Hbids & _).
    destruct (Hbids b Hb) as (_ & bidder & Hbidder).
    exists bidder. unfold bidWithUserDetails. cbn [BidWithUser.bid BidWithUser.user].
    rewrite Hbidder. split; [reflexivity|].
    destruct (wellFormed_user_id _ _ _ (reachable_wellFormed rt s Hr) Hbidder)
      as [_ ->].
    reflexivity.
Qed.
End AuctionBidsRead.

Lemma getAuctionBids_ignores_caller_witness :
  exists listed,
    serve (Routes.getAuctionBids (Some 3) 1) demoStore
    = (mkResponse 200 (JBids listed), demoStore)
    /\ serve (Routes.getAuctionBids (Some 4) 1) demoStore
       = serve (Routes.getAuctionBids (Some 3) 1) demoStore
    /\ map BidWithUser.user listed = [Some (3, "Carol")].
Proof.
  destruct (getAuctionBids_ignores_caller demoStore 3 4
              ltac:(stored (MemStorage.getUser 3 demoStore))
              ltac:(stored (MemStorage.getUser 4 demoStore))
              1 ltac:(stored (MemStorage.getAuction 1 demoStore))
              eq_refl eq_refl eq_refl)
    as (listed & Hsame & Hother & _).
  exists listed. split; [exact Hsame|]. split; [exact Hother|].
  vm_compute in Hsame. injection Hsame as <-.
  vm_compute. reflexivity.
Defined.

(** ** Bids are only ever added *)

Section BidsAppendOnly.
Import MemStorage.

Lemma effect_bids_appended rt s s' :
  wellFormed s = true -> Effect rt s s' ->
  exists added, bids s' = bids s ++ added.
Proof.
  intros Hwf He. destruct (wellFormed_parts s Hwf) as (_ & _ & _ & _ & Hb & _).
  destruct He; open_store; try (exists []; now rewrite app_nil_r).
  rewrite (below_fresh _ _ _ Hb). eauto.
Qed.

(** X8. Bids are append-only. Whatever requests follow, the bids stored in a
    well-formed store stay as they are, in their order, and new bids come
    after them; so the bid list of an auction only grows at its end. *)
Theorem bids_are_append_only rt s reqs :
  wellFormed s = true ->
  exists added,
    bids (runFrom rt s reqs) = bids s ++ added
    /\ forall aid,
        getBidsByAuction aid (runFrom rt s reqs)
        = getBidsByAuction aid s
          ++ filter (fun bid => Bid.auctionId bid =? aid) (JsMap.values added).
Proof.
  intros Hwf.
  assert (exists added, bids (runFrom rt s reqs) = bids s ++ added)
    as (added & Hadded).
  { unfold runFrom. revert s Hwf.
    induction reqs as [|req reqs IH]; intros s Hwf; simpl.
    - exists []. now rewrite app_nil_r.
    - destruct (effect_bids_appended rt s _ Hwf (step_effect rt s req))
        as (l1 & H1).
      destruct (IH _ (step_wellFormed rt s req Hwf)) as (l2 & H2).
      exists (l1 ++ l2). now rewrite H2, H1, app_assoc. }
  exists added. split; [exact Hadded|].
  intros aid. unfold getBidsByAuction, JsMap.values.
  now rewrite Hadded, map_app, filter_app.
Qed.
End BidsAppendOnly.


Lemma chitGroups_keep_their_creator_witness :
  let later :=
    [ PutChitGroup (Some 2) 1
        (Fields (ChitGroupFields.mk (Some "Taken over") None None None None
                                    None)) ] in
  exists g',
    MemStorage.getChitGroup 1 (runFrom demoRuntime demoStore later) = Some g'
    /\ ChitGroup.createdBy g' = 1.
Proof.
  intros later.
  destruct (chitGroups_keep_their_creator demoRuntime demoStore later 1 _
              eq_refl eq_refl)
    as (g' & Hg' & _ & Hby & _).
  exists g'. auto.
Defined.

Lemma memberships_are_unique_witness :
  (List.length
     (filter (fun r => (ChitGroupMember.chitGroupId r =? 1)%Z
                       && (ChitGroupMember.userId r =? 3)%Z)
             (JsMap.values (chitGroupMembers demoStore))) <= 1)%nat.
Proof.
  exact (memberships_are_unique demoRuntime demoStore 1 3 demoStore_reachable).
Defined.

Lemma only_customers_have_managers_witness :
  exists u, MemStorage.getUser 2 demoStore = Some u /\ User.managerId u = None.
Proof.
  eexists. split; [reflexivity|].
  eapply (only_customers_have_managers demoRuntime demoStore 2);
    [exact demoStore_reachable|reflexivity|discriminate].
Defined.

Lemma chitGroup_creator_is_a_manager_witness :
  exists m, MemStorage.getUser 1 demoStore = Some m /\ User.role m = "manager".
Proof.
  destruct (chitGroup_creator_is_a_manager demoRuntime demoStore 1 _
              demoStore_reachable eq_refl)
    as (m & Hm & Hrole & _).
  exists m. auto.
Defined.

Lemma stored_references_resolve_witness :
  let b := ltac:(stored (JsMap.get 1 (bids demoStore))) in
  (exists a, MemStorage.getAuction (Bid.auctionId b) demoStore = Some a)
  /\ (exists u, MemStorage.getUser (Bid.userId b) demoStore = Some u).
Proof.
  intros b.
  apply (proj1 (proj2 (stored_references_resolve demoRuntime demoStore
                         demoStore_reachable))).
  left. reflexivity.
Defined.

Lemma bids_are_append_only_witness :
  let later :=
    [ PostAuctionBid 1030 (Some 2) 1
        (Fields (BidFields.mk (Some 1) (Some 2) (Some 91000))) ] in
  exists added,
    bids (runFrom demoRuntime demoStore later) = bids demoStore ++ added.
Proof.
  intros later.
  destruct (bids_are_append_only demoRuntime demoStore later eq_refl)
    as (added & Hadded & _).
  exists added. exact Hadded.
Defined.

(** ** Salts, login and registration *)

Section Salts.
Import Credentials CredentialFacts.

Lemma toHex_injective a b : toHex a = toHex b -> a = b.
Proof.
  intros H. rewrite <- (fromHex_toHex a), <- (fromHex_toHex b). now rewrite H.
Qed.

(** X9. Two stored password strings made with different random salts are
    different, whatever the passwords (the same password hashed twice with
    two salts gives two strings), and each still verifies its own
    password. *)
Theorem hashPassword_salts_differ rt rnd1 rnd2 password1 password2 :
  rnd1 <> rnd2 ->
  hashPassword rt rnd1 password1 <> hashPassword rt rnd2 password2
  /\ comparePasswords rt password1 (hashPassword rt rnd1 password1) = Some true
  /\ comparePasswords rt password2 (hashPassword rt rnd2 password2) = Some true.
Proof.
  intros Hrnd. split; [|split; apply hashPassword_verifies].
  intros Heq. apply (f_equal splitDot) in Heq. unfold hashPassword in Heq.
  rewrite !splitDot_stored in Heq. injection Heq as _ Hsalt.
  apply toHex_injective in Hsalt. contradiction.
Qed.
End Salts.

Lemma hashPassword_salts_differ_witness :
  Credentials.hashPassword demoRuntime [x01; x02] "temp123"
  <> Credentials.hashPassword demoRuntime [x03; x04] "temp123".
Proof.
  exact (proj1 (hashPassword_salts_differ demoRuntime [x01; x02] [x03; x04]
                  "temp123" "temp123" ltac:(discriminate))).
Defined.

Section LoginFacts.
Import MemStorage Credentials.

Lemma stored_user_resolves rt s u :
  reachable rt s -> In u (JsMap.values (users s)) ->
  getUser (User.id u) s = Some u.
Proof.
  intros Hr Hin.
  destruct (reachable_unique rt s Hr) as (Hk & _).
  destruct (wellFormed_parts s (reachable_wellFormed rt s Hr))
    as (_ & _ & _ & _ & _ & _ & _ & _ & _ & _ & _ & Hid).
  unfold JsMap.values in Hin. apply in_map_iff in Hin as ([k v] & Hv & Hin).
  simpl in Hv. subst v. unfold getUser.
  pose proof (JsMapFacts.unique_In_get _ _ _ Hk Hin) as Hget.
  now rewrite (keyIsId_get User.id _ _ _ Hid Hget).
Qed.

(** X10. Login and the session fit together. When the verify callback of
    the login strategy accepts a username and a password in a reachable
    store, the user it hands over has that username, the password verifies
    against the stored string, and the session that [serializeUser] makes of
    the user is resolved by the middleware to this very user. *)
Theorem login_session_round_trip rt s name password u :
  reachable rt s ->
  Login.verify rt name password s = Login.DoneUser u ->
  User.username u = name
  /\ comparePasswords rt password (User.password u) = Some true
  /\ isAuthenticated (Login.serializeUser u) s = (inr u, s).
Proof.
  intros Hr Hv. unfold Login.verify in Hv.
  destruct (getUserByUsername name s) as [found|] eqn:Hfind; [|discriminate].
  destruct (comparePasswords rt password (User.password found))
    as [[|]|] eqn:Hcmp; try discriminate.
  injection Hv as ->. unfold getUserByUsername in Hfind.
  apply find_some in Hfind as [Hin Hname]. apply String.eqb_eq in Hname.
  repeat split; [exact Hname|exact Hcmp|].
  unfold Login.serializeUser. apply isAuthenticated_session.
  now apply (stored_user_resolves rt).
Qed.
End LoginFacts.

Lemma login_session_round_trip_witness :
  exists u,
    Login.verify demoRuntime "carol" "temp123" demoStore = Login.DoneUser u
    /\ isAuthenticated (Login.serializeUser u) demoStore = (inr u, demoStore).
Proof.
  exists ltac:(stored (MemStorage.getUser 3 demoStore)).
  assert (Login.verify demoRuntime "carol" "temp123" demoStore
          = Login.DoneUser ltac:(stored (MemStorage.getUser 3 demoStore)))
    as Hv by (vm_compute; reflexivity).
  split; [exact Hv|].
  exact (proj2 (proj2 (login_session_round_trip demoRuntime demoStore _ _ _
                         demoStore_reachable Hv))).
Defined.

Section Registration.
Import MemStorage Credentials.

Lemma find_app_none {A : Type} (f : A -> bool) (l l' : list A) :
  find f l = None -> find f (l ++ l') = find f l'.
Proof.
  induction l as [|x l IH]; simpl; [reflexivity|].
  destruct (f x); [discriminate|exact IH].
Qed.

Lemma createUser_users now d s :
  wellFormed s = true ->
  users (snd (createUser now d s))
  = users s ++ [(userIdCounter s, fst (createUser now d s))].
Proof.
  intros Hwf. destruct (wellFormed_parts s Hwf) as (Hb & _).
  unfold createUser. cbn [fst snd users withUsers].
  now rewrite (below_fresh _ _ _ Hb).
Qed.

Lemma createUser_found now d s :
  wellFormed s = true ->
  getUserByUsername (InsertUser.username d) s = None ->
  getUserByUsername (InsertUser.username d) (snd (createUser now d s))
  = Some (fst (createUser now d s))
  /\ getUser (User.id (fst (createUser now d s))) (snd (createUser now d s))
     = Some (fst (createUser now d s)).
Proof.
  intros Hwf Hfree. split.
  - unfold getUserByUsername in *. rewrite (createUser_users _ _ _ Hwf).
    unfold JsMap.values in *. rewrite map_app, (find_app_none _ _ _ Hfree).
    unfold createUser. cbn. now rewrite String.eqb_refl.
  - unfold getUser, createUser. cbn [fst snd users withUsers User.id].
    apply JsMapFacts.get_set_same.
Qed.

Lemma createUser_keeps now d s k u :
  wellFormed s = true -> getUser k s = Some u ->
  getUser k (snd (createUser now d s)) = Some u.
Proof.
  intros Hwf Hu. destruct (wellFormed_parts s Hwf) as (Hb & _).
  unfold getUser in *. pose proof (below_key_lt _ _ _ _ Hb Hu) as Hlt.
  unfold createUser. cbn [snd users withUsers].
  rewrite JsMapFacts.get_set_other by lia. exact Hu.
Qed.

Ltac eqb_props :=
  repeat match goal with
  | H : String.eqb _ _ = true |- _ => apply String.eqb_eq in H
  | H : String.eqb _ _ = false |- _ => apply String.eqb_neq in H
  end.

Lemma find_app_some {A : Type} (f : A -> bool) (l l' : list A) x :
  find f l = Some x -> find f (l ++ l') = Some x.
Proof.
  induction l as [|y l IH]; simpl; [discriminate|].
  destruct (f y); [auto|exact IH].
Qed.

Lemma createUser_stored now d s :
  getUser (User.id (fst (createUser now d s))) (snd (createUser now d s))
  = Some (fst (createUser now d s)).
Proof.
  unfold getUser, createUser. cbn [fst snd users withUsers User.id].
  apply JsMapFacts.get_set_same.
Qed.

(** A user created under a username that is taken stays behind the earlier
    user of that name: the lookup by username goes on finding the earlier
    one. *)
Lemma createUser_shadowed now d s name earlier :
  wellFormed s = true ->
  getUserByUsername name s = Some earlier ->
  getUserByUsername name (snd (createUser now d s)) = Some earlier.
Proof.
  intros Hwf Hfound. unfold getUserByUsername in *.
  rewrite (createUser_users _ _ _ Hwf). unfold JsMap.values in *.
  rewrite map_app. now apply find_app_some.
Qed.

Lemma stored_user_id_below s u :
  wellFormed s = true -> In u (JsMap.values (users s)) ->
  User.id u < userIdCounter s.
Proof.
  intros Hwf Hin.
  destruct (wellFormed_parts s Hwf)
    as (Hb & _ & _ & _ & _ & _ & _ & _ & _ & _ & _ & Hid).
  unfold JsMap.values in Hin. apply in_map_iff in Hin as ([k v] & Hv & Hin).
  cbn in Hv. subst v.
  unfold keyIsId in Hid. rewrite forallb_forall in Hid.
  specialize (Hid _ Hin). cbn in Hid. apply Z.eqb_eq in Hid.
  unfold JsMap.below, JsMap.keys in Hb. rewrite forallb_forall in Hb.
  assert (In k (map fst (users s))) as Hk
    by (change k with (fst (k, u)); now apply in_map).
  specialize (Hb _ Hk). apply Z.ltb_lt in Hb. lia.
Qed.

(** What the login strategy says after a user was created: under a free
    username it accepts the new user with the password that was hashed;
    under a taken one it says what it said before, and never hands over the
    new user. *)
Lemma createUser_then_verify rt now rnd d password s :
  wellFormed s = true ->
  InsertUser.password d = hashPassword rt rnd password ->
  (getUserByUsername (InsertUser.username d) s = None ->
   Login.verify rt (InsertUser.username d) password (snd (createUser now d s))
   = Login.DoneUser (fst (createUser now d s)))
  /\ (forall earlier,
        getUserByUsername (InsertUser.username d) s = Some earlier ->
        forall supplied,
          Login.verify rt (InsertUser.username d) supplied
                       (snd (createUser now d s))
          = Login.verify rt (InsertUser.username d) supplied s
          /\ Login.verify rt (InsertUser.username d) supplied
                          (snd (createUser now d s))
             <> Login.DoneUser (fst (createUser now d s))).
Proof.
  intros Hwf Hpw. split.
  - intros Hfree. unfold Login.verify.
    rewrite (proj1 (createUser_found now d s Hwf Hfree)).
    change (User.password (fst (createUser now d s)))
      with (InsertUser.password d).
    rewrite Hpw. now rewrite CredentialFacts.hashPassword_verifies.
  - intros earlier Hearlier supplied. unfold Login.verify.
    rewrite (createUser_shadowed now d s _ earlier Hwf Hearlier), Hearlier.
    split; [reflexivity|].
    assert (User.id earlier < userIdCounter s) as Hlt.
    { apply stored_user_id_below; [exact Hwf|].
      unfold getUserByUsername in Hearlier.
      now apply find_some in Hearlier as [Hin _]. }
    destruct (comparePasswords rt supplied (User.password earlier))
      as [[|]|]; try discriminate.
    intros [= Heq]. rewrite Heq in Hlt. cbn in Hlt. lia.
Qed.

Lemma registerChecks_cases session reqBody s :
  let caller :=
    match session with Some sid => getUser sid s | None => None end in
  let passes :=
    getUserByUsername (RegisterFields.username reqBody) s = None
    /\ match caller with
       | None => RegisterFields.role reqBody <> "customer"
       | Some u => User.role u = "manager"
                   /\ RegisterFields.role reqBody <> "manager"
       end in
  (exists password,
      passes /\ RegisterFields.password reqBody = Some password
      /\ Auth.registerChecks session reqBody s = (inr password, s))
  \/ (passes /\ RegisterFields.password reqBody = None
      /\ Auth.registerChecks session reqBody s
         = (inl (mkResponse 500 JEnd), s))
  \/ (~ passes
      /\ exists code text,
          Auth.registerChecks session reqBody s
          = (inl (mkResponse code (JText text)), s)
          /\ (code = 403 \/ code = 400)).
Proof.
  intros caller passes. subst caller passes.
  unfold Auth.registerChecks, reqUser, bind, query, rejectIf, orElse, ret,
    respond.
  destruct session as [sid|]; [destruct (getUser sid s) as [u|]|].
  all: cbn [isSome negb andb orb].
  all: cbv beta.
  all: try destruct (String.eqb (User.role u) "manager") eqn:Hu.
  all: destruct (String.eqb (RegisterFields.role reqBody) "customer") eqn:Hc.
  all: destruct (String.eqb (RegisterFields.role reqBody) "manager") eqn:Hm.
  all: destruct (getUserByUsername (RegisterFields.username reqBody) s) eqn:He.
  all: destruct (RegisterFields.password reqBody) as [password|] eqn:Hp.
  all: cbn [isSome negb andb orb]; rewrite ?He; cbn [isSome negb andb orb].
  all: eqb_props.
  all: first
    [ left; eexists;
      split; [split; [reflexivity|]; try split; assumption
             |split; reflexivity]
    | right; left;
      split; [split; [reflexivity|]; try split; assumption
             |split; reflexivity]
    | right; right; split;
      [ intros [Hfree Hrole]; try destruct Hrole; congruence
      | do 2 eexists; split; [reflexivity|auto] ] ].
Qed.

(** X11. Who may register whom. [POST /api/register] gets past its checks,
    and then waits for scrypt, exactly when the username is free, either
    nobody is logged in and the requested role is not customer or a manager
    is logged in and the requested role is not manager, and the body has a
    password that is a string. With everything else in order a missing
    password is answered 500; every other request is answered 403 or 400.
    A refused request leaves the store as it was. Once past the checks the
    request is answered 201 whatever the store holds when it goes on. *)
Theorem register_accepts_iff rt now rnd session reqBody s :
  let caller :=
    match session with Some sid => getUser sid s | None => None end in
  let passes :=
    getUserByUsername (RegisterFields.username reqBody) s = None
    /\ match caller with
       | None => RegisterFields.role reqBody <> "customer"
       | Some u => User.role u = "manager"
                   /\ RegisterFields.role reqBody <> "manager"
       end in
  let answer := serve (Auth.register rt now rnd session reqBody) s in
  (forall password,
      Auth.registerChecks session reqBody s = (inr password, s)
      <-> passes /\ RegisterFields.password reqBody = Some password)
  /\ (passes -> RegisterFields.password reqBody = None ->
      Auth.registerChecks session reqBody s = (inl (mkResponse 500 JEnd), s))
  /\ (~ passes ->
      exists code text,
        Auth.registerChecks session reqBody s
        = (inl (mkResponse code (JText text)), s)
        /\ (code = 403 \/ code = 400))
  /\ (forall password s',
        status (fst (serve (Auth.registerCreate rt now rnd reqBody password)
                           s')) = 201)
  /\ (status (fst answer) = 201
      <-> passes /\ RegisterFields.password reqBody <> None)
  /\ (status (fst answer) <> 201 ->
      snd answer = s
      /\ (status (fst answer) = 403 \/ status (fst answer) = 400
          \/ status (fst answer) = 500)).
Proof.
  intros caller passes answer. subst answer.
  unfold Auth.register, serve, bind.
  destruct (registerChecks_cases session reqBody s)
    as [(pw & Hok & Hpw & Hchecks)
       |[(Hok & Hpw & Hchecks)
        |(Hno & code & text & Hchecks & Hcode)]];
    fold caller in Hok || fold caller in Hno; fold passes in Hok || fold passes in Hno;
    rewrite Hchecks; cbn [fst snd status].
  - split; [|split; [|split; [|split; [|split]]]].
    + intros password. split.
      * intros [= <-]. auto.
      * intros [_ H]. congruence.
    + congruence.
    + contradiction.
    + reflexivity.
    + split; [intros _; split; [exact Hok|congruence]|reflexivity].
    + intros H. now contradiction H.
  - split; [|split; [|split; [|split; [|split]]]].
    + intros password. split; [discriminate|]. intros [_ H]. congruence.
    + reflexivity.
    + contradiction.
    + reflexivity.
    + split; [discriminate|]. intros [_ H]. contradiction.
    + auto.
  - split; [|split; [|split; [|split; [|split]]]].
    + intros password. split; [discriminate|]. intros [H _]. contradiction.
    + contradiction.
    + eauto.
    + reflexivity.
    + split; [intros ->; destruct Hcode; discriminate|].
      intros [H _]. contradiction.
    + intros _. split; [reflexivity|]. destruct Hcode; auto.
Qed.

(** X12. A registration that went past its checks creates a user, and is
    answered 201, when scrypt has answered. The session made of the new
    user resolves to it and the user is marked as on first login. If the
    username is still free at that time, the login strategy accepts it with
    the password that was sent and hands over the new user. If another
    request has taken the username in between, the login strategy goes on
    answering for the earlier user of the name and never hands over the new
    one. In both cases a registration of that username that arrives later
    is refused. *)
Theorem register_then_login rt now rnd reqBody password s u s' :
  wellFormed s = true ->
  serve (Auth.registerCreate rt now rnd reqBody password) s
  = (mkResponse 201 (JUser u), s') ->
  isAuthenticated (Login.serializeUser u) s' = (inr u, s')
  /\ User.username u = RegisterFields.username reqBody
  /\ User.isFirstLogin u = true
  /\ (getUserByUsername (RegisterFields.username reqBody) s = None ->
      Login.verify rt (RegisterFields.username reqBody) password s'
      = Login.DoneUser u)
  /\ (forall earlier,
        getUserByUsername (RegisterFields.username reqBody) s = Some earlier ->
        forall supplied,
          Login.verify rt (RegisterFields.username reqBody) supplied s'
          = Login.verify rt (RegisterFields.username reqBody) supplied s
          /\ Login.verify rt (RegisterFields.username reqBody) supplied s'
             <> Login.DoneUser u)
  /\ (forall session' reqBody',
        RegisterFields.username reqBody' = RegisterFields.username reqBody ->
        exists code text,
          Auth.registerChecks session' reqBody' s'
          = (inl (mkResponse code (JText text)), s')
          /\ (code = 403 \/ code = 400)).
Proof.
  intros Hwf Hserve.
  set (d := registered rt rnd reqBody password).
  assert (fst (createUser now d s) = u /\ snd (createUser now d s) = s')
    as [Hu Hs'].
  { change (serve (Auth.registerCreate rt now rnd reqBody password) s)
      with (mkResponse 201 (JUser (fst (createUser now d s))),
            snd (createUser now d s)) in Hserve.
    split; congruence. }
  destruct (createUser_then_verify rt now rnd d password s Hwf eq_refl)
    as [Hfree Htaken].
  rewrite Hu, Hs' in Hfree, Htaken.
  pose proof (createUser_stored now d s) as Hget. rewrite Hu, Hs' in Hget.
  split; [unfold Login.serializeUser; now apply isAuthenticated_session|].
  split; [rewrite <- Hu; reflexivity|].
  split; [rewrite <- Hu; reflexivity|].
  split; [exact Hfree|]. split; [exact Htaken|].
  intros session' reqBody' Hname.
  assert (getUserByUsername (RegisterFields.username reqBody) s' <> None)
    as Hthere.
  { change (RegisterFields.username reqBody) with (InsertUser.username d).
    rewrite <- Hs'.
    destruct (getUserByUsername (InsertUser.username d) s)
      as [earlier|] eqn:E.
    - rewrite (createUser_shadowed now d s _ earlier Hwf E). discriminate.
    - rewrite (proj1 (createUser_found now d s Hwf E)). discriminate. }
  destruct (registerChecks_cases session' reqBody' s')
    as [(pw & [Hf _] & _)|[([Hf _] & _)|(_ & code & text & Hc & Hcode)]].
  - rewrite Hname in Hf. contradiction.
  - rewrite Hname in Hf. contradiction.
  - eauto.
Qed.
End Registration.

Lemma register_then_login_witness :
  exists u s',
    serve (Auth.registerCreate demoRuntime 1040 [x0d; x0e]
             (RegisterFields.mk "frank" (Some "frank-secret") "9000000006"
                                "Frank" None "manager" None)
             "frank-secret") demoStore
    = (mkResponse 201 (JUser u), s')
    /\ Login.verify demoRuntime "frank" "frank-secret" s' = Login.DoneUser u.
Proof.
  assert (forall u s'
            (H : serve (Auth.registerCreate demoRuntime 1040 [x0d; x0e]
                          (RegisterFields.mk "frank" (Some "frank-secret")
                             "9000000006" "Frank" None "manager" None)
                          "frank-secret") demoStore
                 = (mkResponse 201 (JUser u), s')),
             Login.verify demoRuntime "frank" "frank-secret" s'
             = Login.DoneUser u) as Hgen.
  { intros u s' H.
    exact (proj1 (proj2 (proj2 (proj2
             (register_then_login demoRuntime 1040 [x0d; x0e] _ _
                demoStore u s' eq_refl H)))) eq_refl). }
  eexists. eexists.
  match goal with
  | |- ?call = _ /\ _ =>
      assert (call = ltac:(let v := eval vm_compute in call in exact v)) as Hcall
        by (vm_compute; reflexivity)
  end.
  split; [exact Hcall|]. exact (Hgen _ _ Hcall).
Defined.

(** ** Customers of a manager *)

Section Customers.
Import MemStorage Routes.

Lemma postCustomerChecks_cases session reqBody s :
  (exists sid m data,
      session = Some sid /\ getUser sid s = Some m /\ User.role m = "manager"
      /\ reqBody = Fields data
      /\ getUserByUsername (InsertUser.username data) s = None
      /\ postCustomerChecks session reqBody s = (inr (m, data), s))
  \/ (exists code j,
         postCustomerChecks session reqBody s = (inl (mkResponse code j), s)
         /\ (code = 401 \/ code = 403 \/ code = 400)).
Proof.
  unfold postCustomerChecks, bind.
  destruct (isManager_cases session s)
    as [(m & -> & Hrole & sid & -> & Hm)|(code & j & -> & Hcode)];
    [|right; exists code, j; split; [reflexivity|tauto]].
  unfold query, orElse, rejectIf, ret, respond, validateRequest.
  destruct reqBody as [|data]; [right; eauto 6|].
  destruct (getUserByUsername (InsertUser.username data) s) eqn:Hfree;
    cbn [isSome]; [right; eauto 6|].
  left. exists sid, m, data. repeat split; auto.
Qed.

Lemma postCustomer_cases rt now rnd session reqBody s :
  (exists sid m data,
      session = Some sid /\ getUser sid s = Some m /\ User.role m = "manager"
      /\ reqBody = Fields data
      /\ getUserByUsername (InsertUser.username data) s = None
      /\ serve (postCustomer rt now rnd session reqBody) s
         = (mkResponse 201
              (JUserWithoutPassword
                 (withoutPassword
                    (fst (createUser now (customerOf rt rnd (User.id m) data) s)))),
            snd (createUser now (customerOf rt rnd (User.id m) data) s)))
  \/ (exists code j,
         serve (postCustomer rt now rnd session reqBody) s
         = (mkResponse code j, s)
         /\ (code = 401 \/ code = 403 \/ code = 400)).
Proof.
  unfold serve, postCustomer, bind.
  destruct (postCustomerChecks_cases session reqBody s)
    as [(sid & m & data & Hs & Hm & Hrole & Hb & Hfree & ->)
       |(code & j & -> & Hcode)].
  - left. exists sid, m, data. repeat split; auto.
  - right. eauto.
Qed.

Lemma getCustomersByManager_createUser now d s managerId :
  wellFormed s = true ->
  getCustomersByManager managerId (snd (createUser now d s))
  = getCustomersByManager managerId s
    ++ (if String.eqb (User.role (fst (createUser now d s))) "customer"
           && optZ_eqb (User.managerId (fst (createUser now d s))) managerId
        then [fst (createUser now d s)] else []).
Proof.
  intros Hwf. unfold getCustomersByManager.
  rewrite (createUser_users _ _ _ Hwf). unfold JsMap.values.
  rewrite map_app, filter_app. f_equal.
Qed.

(** X13. A customer created through [POST /api/customers] belongs to the
    manager who sent the request: the answer carries role customer and that
    manager's id as managerId, whatever role and managerId the body named;
    the manager's own [GET /api/customers] then lists the old customers
    followed by the new one, and the listing of every other user is what it
    was. *)
Theorem postCustomer_then_listed rt now rnd session reqBody s c s' :
  wellFormed s = true ->
  serve (postCustomer rt now rnd session reqBody) s
  = (mkResponse 201 (JUserWithoutPassword c), s') ->
  exists m listed,
    isManager session s = (inr m, s)
    /\ UserWithoutPassword.role c = "customer"
    /\ UserWithoutPassword.managerId c = Some (User.id m)
    /\ ReadRoutes.getCustomers session s = (inr listed, s)
    /\ ReadRoutes.getCustomers session s' = (inr (listed ++ [c]), s')
    /\ forall sid' m',
        getUser sid' s = Some m' -> User.id m' <> User.id m ->
        fst (ReadRoutes.getCustomers (Some sid') s')
        = fst (ReadRoutes.getCustomers (Some sid') s).
Proof.
  intros Hwf Hserve.
  destruct (postCustomer_cases rt now rnd session reqBody s)
    as [(sid & m & data & -> & Hm & Hrole & -> & Hfree & Heq)
       |(code & j & Heq & Hcode)];
    rewrite Heq in Hserve;
    [|injection Hserve as -> _ _; destruct Hcode as [|[|]]; discriminate].
  set (d := customerOf rt rnd (User.id m) data) in *.
  assert (withoutPassword (fst (createUser now d s)) = c
          /\ snd (createUser now d s) = s') as [Hc Hs']
    by (split; congruence).
  destruct (wellFormed_user_id sid m s Hwf Hm) as [Hsid Hid].
  assert (User.role (fst (createUser now d s)) = "customer") as Hcrole
    by reflexivity.
  assert (User.managerId (fst (createUser now d s)) = Some (User.id m))
    as Hcmgr.
  { unfold createUser, d, customerOf. cbn. unfold truthyNumber.
    destruct (User.id m =? 0) eqn:E; [|reflexivity].
    apply Z.eqb_eq in E. congruence. }
  pose proof (createUser_keeps now d s sid m Hwf Hm) as Hm'.
  rewrite Hs' in Hm'.
  exists m, (map withoutPassword (getCustomersByManager (User.id m) s)).
  split; [now apply isManager_session|].
  split; [rewrite <- Hc; exact Hcrole|].
  split; [rewrite <- Hc; exact Hcmgr|].
  split; [|split].
  - unfold ReadRoutes.getCustomers, bind.
    rewrite (isManager_session sid m s Hm Hrole). reflexivity.
  - unfold ReadRoutes.getCustomers, bind.
    rewrite (isManager_session sid m s' Hm' Hrole).
    unfold query, ret. rewrite <- Hs' at 1.
    rewrite (getCustomersByManager_createUser now d s _ Hwf).
    rewrite Hcrole, Hcmgr. cbn [optZ_eqb]. rewrite Z.eqb_refl. cbn.
    now rewrite map_app, <- Hc.
  - intros sid' m' Hother Hne.
    pose proof (createUser_keeps now d s sid' m' Hwf Hother) as Hother'.
    rewrite Hs' in Hother'.
    unfold ReadRoutes.getCustomers, isManager, reqUser, bind, query, orElse,
      rejectIf, ret, respond.
    rewrite Hother, Hother'. cbn [isSome negb].
    destruct (String.eqb (User.role m') "manager"); cbn; [|reflexivity].
    rewrite <- Hs'.
    rewrite (getCustomersByManager_createUser now d s _ Hwf).
    rewrite Hcrole, Hcmgr. cbn [optZ_eqb].
    destruct (User.id m =? User.id m') eqn:E;
      [apply Z.eqb_eq in E; congruence|].
    cbn. now rewrite app_nil_r.
Qed.
End Customers.

Lemma postCustomer_then_listed_witness :
  exists c s' listed,
    serve (Routes.postCustomer demoRuntime 1020 [x0b; x0c] (Some 2)
             (Fields (InsertUser.mk "erin" "temp789" "9000000005" "Erin" None
                                    "manager" None (Some 1)))) demoStore
    = (mkResponse 201 (JUserWithoutPassword c), s')
    /\ UserWithoutPassword.role c = "customer"
    /\ ReadRoutes.getCustomers (Some 2) s' = (inr (listed ++ [c]), s').
Proof.
  assert (forall c s'
            (H : serve (Routes.postCustomer demoRuntime 1020 [x0b; x0c] (Some 2)
                          (Fields (InsertUser.mk "erin" "temp789" "9000000005"
                                     "Erin" None "manager" None (Some 1))))
                       demoStore
                 = (mkResponse 201 (JUserWithoutPassword c), s')),
             exists listed,
               UserWithoutPassword.role c = "customer"
               /\ ReadRoutes.getCustomers (Some 2) s'
                  = (inr (listed ++ [c]), s')) as Hgen.
  { intros c s' H.
    destruct (postCustomer_then_listed demoRuntime 1020 [x0b; x0c] (Some 2) _
                demoStore c s' eq_refl H)
      as (m & listed & _ & Hrole & _ & _ & Hlist & _).
    exists listed. auto. }
  eexists. eexists.
  match goal with
  | |- exists listed, ?call = _ /\ _ =>
      assert (call = ltac:(let v := eval vm_compute in call in exact v)) as Hcall
        by (vm_compute; reflexivity)
  end.
  destruct (Hgen _ _ Hcall) as (listed & Hrole & Hlist).
  exists listed. split; [exact Hcall|]. split; [exact Hrole|exact Hlist].
Defined.

(** ** Creating and reading chit groups *)

Section ChitGroupCreation.
Import MemStorage Routes.

Lemma postChitGroup_cases rt now session reqBody s :
  (exists sid m data,
      session = Some sid /\ getUser sid s = Some m /\ User.role m = "manager"
      /\ validateRequest Schema.insertChitGroupSchema reqBody = Some data
      /\ let d :=
           InsertChitGroup.mk
             (InsertChitGroup.name data) (InsertChitGroup.value data)
             (InsertChitGroup.duration data)
             (InsertChitGroup.membersCount data)
             (InsertChitGroup.startDate data) (InsertChitGroup.isActive data)
             (Some (User.id m)) in
         serve (postChitGroup rt now session reqBody) s
         = (mkResponse 201 (JChitGroup (fst (createChitGroup rt now d s))),
            snd (createChitGroup rt now d s)))
  \/ (exists code j,
         serve (postChitGroup rt now session reqBody) s
         = (mkResponse code j, s)
         /\ (code = 401 \/ code = 403 \/ code = 400)).
Proof.
  unfold serve, postChitGroup, bind.
  destruct (isManager_cases session s)
    as [(m & -> & Hrole & sid & -> & Hm)|(code & j & -> & Hcode)];
    [|right; exists code, j; split; [reflexivity|tauto]].
  unfold query, command, orElse, ret, respond.
  destruct (validateRequest Schema.insertChitGroupSchema reqBody)
    as [data|] eqn:Hdata; [|right; eauto 6].
  left. exists sid, m, data. repeat split; auto.
Qed.

Lemma createChitGroup_chitGroups rt now d s :
  wellFormed s = true ->
  chitGroups (snd (createChitGroup rt now d s))
  = chitGroups s ++ [(chitGroupIdCounter s, fst (createChitGroup rt now d s))]
  /\ users (snd (createChitGroup rt now d s)) = users s
  /\ chitGroupMembers (snd (createChitGroup rt now d s)) = chitGroupMembers s.
Proof.
  intros Hwf. destruct (wellFormed_parts s Hwf) as (_ & Hb & _).
  unfold createChitGroup. cbn [fst snd chitGroups users chitGroupMembers
                                withChitGroups].
  now rewrite (below_fresh _ _ _ Hb).
Qed.

(** X14. A chit group created through [POST /api/chitgroups] belongs to
    the manager who sent the request. The answer carries a fresh id and
    that manager's id as createdBy; the manager's [GET /api/chitgroups]
    then lists the old groups followed by the new one and
    [GET /api/chitgroups/:id] answers with it; every other manager lists
    what they listed before and is refused the new group with 403. *)
Theorem postChitGroup_then_listed rt now session reqBody s g s' :
  wellFormed s = true ->
  serve (postChitGroup rt now session reqBody) s
  = (mkResponse 201 (JChitGroup g), s') ->
  exists m listed,
    isManager session s = (inr m, s)
    /\ ChitGroup.createdBy g = User.id m
    /\ ChitGroup.id g = chitGroupIdCounter s
    /\ getChitGroup (ChitGroup.id g) s = None
    /\ serve (getChitGroups session) s = (mkResponse 200 (JChitGroups listed), s)
    /\ serve (getChitGroups session) s'
       = (mkResponse 200 (JChitGroups (listed ++ [g])), s')
    /\ serve (getChitGroupById session (ChitGroup.id g)) s'
       = (mkResponse 200 (JChitGroup g), s')
    /\ forall sid' m',
        getUser sid' s = Some m' -> User.role m' = "manager" ->
        User.id m' <> User.id m ->
        fst (serve (getChitGroups (Some sid')) s')
        = fst (serve (getChitGroups (Some sid')) s)
        /\ status (fst (serve (getChitGroupById (Some sid') (ChitGroup.id g)) s'))
           = 403.
Proof.
  intros Hwf Hserve.
  destruct (postChitGroup_cases rt now session reqBody s)
    as [(sid & m & data & -> & Hm & Hrole & Hdata & Heq)
       |(code & j & Heq & Hcode)];
    cbv zeta in Heq; rewrite Heq in Hserve;
    [|injection Hserve as -> _ _; destruct Hcode as [|[|]]; discriminate].
  match type of Heq with
  | context [createChitGroup rt now ?x s] => set (d := x) in *
  end.
  assert (fst (createChitGroup rt now d s) = g
          /\ snd (createChitGroup rt now d s) = s') as [Hg Hs']
    by (split; congruence).
  destruct (wellFormed_user_id sid m s Hwf Hm) as [Hsid Hid].
  destruct (wellFormed_parts s Hwf) as (_ & Hb & _).
  destruct (createChitGroup_chitGroups rt now d s Hwf) as (Hgroups & Husers & _).
  rewrite Hg, Hs' in Hgroups. rewrite Hs' in Husers.
  assert (ChitGroup.id g = chitGroupIdCounter s) as Hgid
    by (rewrite <- Hg; reflexivity).
  assert (ChitGroup.createdBy g = User.id m) as Hby.
  { rewrite <- Hg. unfold createChitGroup, d. cbn. unfold truthyNumber.
    destruct (User.id m =? 0) eqn:E; [|reflexivity].
    apply Z.eqb_eq in E. congruence. }
  assert (forall k, getUser k s' = getUser k s) as Hsame
    by (intros k; unfold getUser; now rewrite Husers).
  assert (forall test,
             filter test (getAllChitGroups s')
             = filter test (getAllChitGroups s)
               ++ (if test g then [g] else [])) as Hfilter.
  { intros test. unfold getAllChitGroups, JsMap.values.
    now rewrite Hgroups, map_app, filter_app. }
  assert (getChitGroup (ChitGroup.id g) s' = Some g) as Hstored.
  { unfold getChitGroup. rewrite Hgid, <- Hs', <- Hg.
    unfold createChitGroup. cbn [fst snd chitGroups withChitGroups].
    apply JsMapFacts.get_set_same. }
  pose proof Hm as Hm'. rewrite <- Hsame in Hm'.
  exists m,
    (filter (fun group => ChitGroup.createdBy group =? User.id m)
            (getAllChitGroups s)).
  split; [now apply isManager_session|].
  split; [exact Hby|]. split; [exact Hgid|].
  split.
  { unfold getChitGroup. rewrite Hgid.
    eapply JsMapFacts.below_get_none; [exact Hb|lia]. }
  split; [|split; [|split]].
  - unfold serve, getChitGroups, bind.
    rewrite (isAuthenticated_session sid m s Hm).
    apply String.eqb_eq in Hrole. rewrite Hrole. reflexivity.
  - unfold serve, getChitGroups, bind.
    rewrite (isAuthenticated_session sid m s' Hm').
    apply String.eqb_eq in Hrole. rewrite Hrole.
    unfold query, ret. rewrite Hfilter, Hby, Z.eqb_refl. reflexivity.
  - unfold serve, getChitGroupById, bind.
    rewrite (isAuthenticated_session sid m s' Hm').
    unfold query, orElse, rejectIf, ret. rewrite Hstored.
    apply String.eqb_eq in Hrole. rewrite Hrole, Hby, Z.eqb_refl.
    reflexivity.
  - intros sid' m' Hother Hrole' Hne.
    pose proof Hother as Hother'. rewrite <- Hsame in Hother'.
    apply String.eqb_eq in Hrole'.
    assert ((ChitGroup.createdBy g =? User.id m') = false) as Hno
      by (apply Z.eqb_neq; congruence).
    split.
    + unfold serve, getChitGroups, bind.
      rewrite (isAuthenticated_session sid' m' s Hother),
        (isAuthenticated_session sid' m' s' Hother').
      rewrite Hrole'. unfold query, ret. rewrite Hfilter, Hno.
      now rewrite app_nil_r.
    + unfold serve, getChitGroupById, bind.
      rewrite (isAuthenticated_session sid' m' s' Hother').
      unfold query, orElse, rejectIf, ret, respond. rewrite Hstored.
      rewrite Hrole', Hno. reflexivity.
Qed.
End ChitGroupCreation.

Lemma postChitGroup_then_listed_witness :
  exists g s' listed,
    serve (Routes.postChitGroup demoRuntime 1050 (Some 2)
             (Fields (ChitGroupFields.mk (Some "Silver") (Some 50000) (Some 5)
                        (Some 5) (Some "2024-06-01") None))) demoStore
    = (mkResponse 201 (JChitGroup g), s')
    /\ ChitGroup.createdBy g = 2
    /\ serve (Routes.getChitGroups (Some 2)) s'
       = (mkResponse 200 (JChitGroups (listed ++ [g])), s').
Proof.
  assert (forall g s'
            (H : serve (Routes.postChitGroup demoRuntime 1050 (Some 2)
                          (Fields (ChitGroupFields.mk (Some "Silver")
                                     (Some 50000) (Some 5) (Some 5)
                                     (Some "2024-06-01") None))) demoStore
                 = (mkResponse 201 (JChitGroup g), s')),
             exists listed,
               serve (Routes.getChitGroups (Some 2)) s'
               = (mkResponse 200 (JChitGroups (listed ++ [g])), s')) as Hgen.
  { intros g s' H.
    destruct (postChitGroup_then_listed demoRuntime 1050 (Some 2) _
                demoStore g s' eq_refl H)
      as (m & listed & _ & _ & _ & _ & _ & Hlist & _).
    exists listed. exact Hlist. }
  eexists. eexists.
  match goal with
  | |- exists listed, ?call = _ /\ _ =>
      assert (call = ltac:(let v := eval vm_compute in call in exact v)) as Hcall
        by (vm_compute; reflexivity)
  end.
  destruct (Hgen _ _ Hcall) as (listed & Hlist).
  exists listed. split; [exact Hcall|]. split; [reflexivity|exact Hlist].
Defined.

Section GroupReads.
Import MemStorage Routes.

(** X15. The three reads of one chit group make the same decision. For an
    authenticated caller, [GET /api/chitgroups/:id], [.../members] and
    [.../auctions] all answer 404 when the group is not stored, all answer
    403 when the caller is a manager who did not create it or another user
    who is not a member, and otherwise answer with the group, with its
    members and with its auctions; none changes the store. The members
    answer has one entry for each membership of the group, in the stored
    order: the membership together with the contact details of its user,
    which are the [id], [name], [phone] and [email] of the user stored
    under the membership's [userId], or null if there is none. *)
Theorem group_reads_agree s sid u gid :
  getUser sid s = Some u ->
  let allowed (g : ChitGroup.t) :=
    if String.eqb (User.role u) "manager"
    then ChitGroup.createdBy g =? User.id u
    else someMember (User.id u) (getChitGroupMembers gid s) in
  match getChitGroup gid s with
  | Some g =>
      if allowed g then
        serve (getChitGroupById (Some sid) gid) s
        = (mkResponse 200 (JChitGroup g), s)
        /\ (exists listed,
              ReadRoutes.getChitGroupMembersById (Some sid) gid s
              = (inr listed, s)
              /\ map MemberWithUser.member listed
                 = getChitGroupMembers gid s
              /\ forall entry,
                  In entry listed ->
                  MemberWithUser.user entry
                  = match getUser (ChitGroupMember.userId
                                     (MemberWithUser.member entry)) s with
                    | Some user =>
                        Some (UserContact.mk (User.id user) (User.name user)
                                (User.phone user) (User.email user))
                    | None => None
                    end)
        /\ ReadRoutes.getChitGroupAuctions (Some sid) gid s
           = (inr (getAuctionsByChitGroup gid s), s)
      else
        exists j1 j2 j3,
          serve (getChitGroupById (Some sid) gid) s = (mkResponse 403 j1, s)
          /\ ReadRoutes.getChitGroupMembersById (Some sid) gid s
             = (inl (mkResponse 403 j2), s)
          /\ ReadRoutes.getChitGroupAuctions (Some sid) gid s
             = (inl (mkResponse 403 j3), s)
  | None =>
      exists j1 j2 j3,
        serve (getChitGroupById (Some sid) gid) s = (mkResponse 404 j1, s)
        /\ ReadRoutes.getChitGroupMembersById (Some sid) gid s
           = (inl (mkResponse 404 j2), s)
        /\ ReadRoutes.getChitGroupAuctions (Some sid) gid s
           = (inl (mkResponse 404 j3), s)
  end.
Proof.
  intros Hu allowed. subst allowed.
  unfold serve, getChitGroupById, ReadRoutes.getChitGroupMembersById,
    ReadRoutes.getChitGroupAuctions, bind.
  rewrite (isAuthenticated_session sid u s Hu).
  unfold query, orElse, rejectIf, ret, respond.
  assert (Hlisted :
            exists listed,
              (inr (map (ReadRoutes.memberDetails s)
                        (getChitGroupMembers gid s)), s)
              = (@inr Response _ listed, s)
              /\ map MemberWithUser.member listed
                 = getChitGroupMembers gid s
              /\ forall entry,
                  In entry listed ->
                  MemberWithUser.user entry
                  = match getUser (ChitGroupMember.userId
                                     (MemberWithUser.member entry)) s with
                    | Some user =>
                        Some (UserContact.mk (User.id user) (User.name user)
                                (User.phone user) (User.email user))
                    | None => None
                    end).
  { eexists. split; [reflexivity|].
    split; [rewrite map_map; apply map_id|].
    intros entry Hin. apply in_map_iff in Hin as (m & <- & _). reflexivity. }
  destruct (getChitGroup gid s) as [g|]; [|do 3 eexists; repeat split].
  destruct (String.eqb (User.role u) "manager").
  - destruct (ChitGroup.createdBy g =? User.id u); cbn [negb];
      [|do 3 eexists; repeat split].
    split; [reflexivity|]. split; [exact Hlisted|reflexivity].
  - destruct (someMember (User.id u) (getChitGroupMembers gid s)); cbn [negb];
      [|do 3 eexists; repeat split].
    split; [reflexivity|]. split; [exact Hlisted|reflexivity].
Qed.
End GroupReads.

Lemma group_reads_agree_witness :
  (exists j1 j2 j3,
      serve (Routes.getChitGroupById (Some 4) 1) demoStore
      = (mkResponse 403 j1, demoStore)
      /\ ReadRoutes.getChitGroupMembersById (Some 4) 1 demoStore
         = (inl (mkResponse 403 j2), demoStore)
      /\ ReadRoutes.getChitGroupAuctions (Some 4) 1 demoStore
         = (inl (mkResponse 403 j3), demoStore))
  /\ (exists listed,
        ReadRoutes.getChitGroupMembersById (Some 1) 1 demoStore
        = (inr listed, demoStore)
        /\ map MemberWithUser.user listed
           = [Some (UserContact.mk 3 "Carol" "9000000003" None)]).
Proof.
  split.
  - exact (group_reads_agree demoStore 4
             ltac:(stored (MemStorage.getUser 4 demoStore)) 1 eq_refl).
  - destruct (group_reads_agree demoStore 1
                ltac:(stored (MemStorage.getUser 1 demoStore)) 1 eq_refl)
      as (_ & (listed & Hcall & _) & _).
    exists listed. split; [exact Hcall|].
    vm_compute in Hcall. injection Hcall as <-. vm_compute. reflexivity.
Defined.

(** ** Start dates that do not parse *)

Section StartDates.
Import MemStorage Routes.

End StartDates.


(** ** Adding and removing members *)

Section Members.
Import MemStorage Routes.

Lemma delete_app_fresh {V : Type} (m : JsMap.t V) k v :
  JsMap.below k m = true -> JsMap.delete k (m ++ [(k, v)]) = m.
Proof.
  unfold JsMap.below, JsMap.keys.
  induction m as [|[k0 v0] m IH]; simpl.
  - now rewrite Z.eqb_refl.
  - intros H. apply andb_true_iff in H as [Hlt Hrest].
    apply Z.ltb_lt in Hlt.
    destruct (k0 =? k) eqn:E; [apply Z.eqb_eq in E; lia|].
    now rewrite IH.
Qed.

Lemma someMember_iff gid uid (m : JsMap.t ChitGroupMember.t) :
  someMember uid
    (filter (fun member => ChitGroupMember.chitGroupId member =? gid)
            (JsMap.values m)) = true
  <-> exists entry, In entry m /\ isEntryOf gid uid entry = true.
Proof.
  unfold someMember, JsMap.values, isEntryOf.
  rewrite existsb_exists. split.
  - intros (r & Hin & Hu). apply filter_In in Hin as [Hin Hg].
    apply in_map_iff in Hin as (entry & <- & Hin).
    exists entry. split; [exact Hin|]. now rewrite Hg, Hu.
  - intros (entry & Hin & Htest). apply andb_true_iff in Htest as [Hg Hu].
    exists (snd entry). split; [|exact Hu].
    apply filter_In. split; [now apply in_map|exact Hg].
Qed.

Lemma someMember_find gid uid s :
  someMember uid (getChitGroupMembers gid s) = true ->
  exists entry,
    find (isEntryOf gid uid) (JsMap.entries (chitGroupMembers s)) = Some entry
    /\ In entry (chitGroupMembers s)
    /\ memberPair (snd entry) = (gid, uid).
Proof.
  intros H. apply someMember_iff in H as (entry & Hin & Htest).
  unfold JsMap.entries.
  destruct (find (isEntryOf gid uid) (chitGroupMembers s)) as [found|] eqn:F.
  - exists found. apply find_some in F as [Hfin Hftest].
    split; [reflexivity|]. split; [exact Hfin|].
    unfold isEntryOf in Hftest. apply andb_true_iff in Hftest as [Hg Hu].
    apply Z.eqb_eq in Hg, Hu. unfold memberPair. now rewrite Hg, Hu.
  - pose proof (find_none _ _ F entry Hin). congruence.
Qed.

Lemma noMember_find gid uid s :
  someMember uid (getChitGroupMembers gid s) = false ->
  find (isEntryOf gid uid) (JsMap.entries (chitGroupMembers s)) = None.
Proof.
  intros H. unfold JsMap.entries.
  destruct (find (isEntryOf gid uid) (chitGroupMembers s)) as [found|] eqn:F;
    [|reflexivity].
  apply find_some in F as [Hfin Hftest].
  assert (someMember uid (getChitGroupMembers gid s) = true) as Hyes
    by (apply someMember_iff; eauto).
  congruence.
Qed.

Lemma deleteChitGroupMember_eval s sid m gid uid :
  getUser sid s = Some m ->
  User.role m = "manager" ->
  serve (deleteChitGroupMember (Some sid) gid uid) s
  = match getChitGroup gid s with
    | None => (mkResponse 404 (JMessage "Chit group not found"), s)
    | Some chitGroup =>
        if negb (ChitGroup.createdBy chitGroup =? User.id m) then
          (mkResponse 403
             (JMessage
                "You can only remove members from chit groups you've created"),
           s)
        else if match getUser uid s with
                | Some user =>
                    String.eqb (User.role user) "customer"
                    && negb (optZ_eqb (User.managerId user) (User.id m))
                | None => false
                end
        then
          (mkResponse 403
             (JMessage "You can only manage customers assigned to you"), s)
        else if someMember uid (getChitGroupMembers gid s) then
          (mkResponse 204 JEnd, snd (removeMemberFromChitGroup gid uid s))
        else
          (mkResponse 404 (JMessage "Member not found in this chit group"), s)
    end.
Proof.
  intros Hm Hrole. unfold serve, deleteChitGroupMember, bind.
  rewrite (isManager_session sid m s Hm Hrole).
  unfold rejectIf, query, orElse, command, ret, respond.
  destruct (getChitGroup gid s) as [g|]; [|reflexivity].
  destruct (ChitGroup.createdBy g =? User.id m); cbn [negb]; [|reflexivity].
  destruct (match getUser uid s with Some _ => _ | None => _ end);
    [reflexivity|].
  destruct (someMember uid (getChitGroupMembers gid s)) eqn:Hsome;
    cbn [negb]; [|reflexivity].
  destruct (someMember_find gid uid s Hsome) as (entry & Hfind & _).
  unfold removeMemberFromChitGroup.
  change (fun entry0 : Z * ChitGroupMember.t =>
            (ChitGroupMember.chitGroupId (snd entry0) =? gid)
            && (ChitGroupMember.userId (snd entry0) =? uid))
    with (isEntryOf gid uid).
  rewrite Hfind. reflexivity.
Qed.

(** X17. Adding a member and removing it again is a round trip. After
    [POST /api/chitgroups/:id/members] was answered 201, the same manager's
    [DELETE /api/chitgroups/:id/members/:userId] for the new member is
    answered 204 and the table of memberships is again the one before the
    member was added; users and chit groups are untouched, and only the id
    counter remembers the membership. *)
Theorem add_then_remove_member now s session gid reqBody member s1 :
  wellFormed s = true ->
  serve (postChitGroupMember now session gid reqBody) s
  = (mkResponse 201 (JMember member), s1) ->
  exists s2,
    serve (deleteChitGroupMember session gid (ChitGroupMember.userId member)) s1
    = (mkResponse 204 JEnd, s2)
    /\ chitGroupMembers s2 = chitGroupMembers s
    /\ users s2 = users s /\ chitGroups s2 = chitGroups s
    /\ chitGroupMemberIdCounter s2 = chitGroupMemberIdCounter s1.
Proof.
  intros Hwf Hadd.
  destruct (postChitGroupMember_created now s session gid reqBody member s1
              Hwf Hadd)
    as (sid & m & g & user & -> & Hm & Hrole & Hg & Hby & Huser & Hmine
        & Hnone & Hgid & Husers & Hgroups & Hmembers).
  destruct (wellFormed_parts s Hwf) as (_ & _ & Hb & _).
  set (uid := ChitGroupMember.userId member) in *.
  assert (getUser sid s1 = Some m) as Hm1
    by (unfold getUser in *; now rewrite Husers).
  assert (getUser uid s1 = Some user) as Huser1
    by (unfold getUser in *; now rewrite Husers).
  assert (getChitGroup gid s1 = Some g) as Hg1
    by (unfold getChitGroup in *; now rewrite Hgroups).
  assert (isEntryOf gid uid (chitGroupMemberIdCounter s, member) = true)
    as Hentry.
  { unfold isEntryOf, uid. cbn [snd]. now rewrite Hgid, !Z.eqb_refl. }
  assert (someMember uid (getChitGroupMembers gid s1) = true) as Hsome.
  { apply someMember_iff. exists (chitGroupMemberIdCounter s, member).
    split; [|exact Hentry]. rewrite Hmembers. apply in_or_app. right.
    now left. }
  rewrite (deleteChitGroupMember_eval s1 sid m gid uid Hm1 Hrole).
  rewrite Hg1, Hby. cbn [negb]. rewrite Huser1, Hmine, Hsome.
  eexists. split; [reflexivity|].
  unfold removeMemberFromChitGroup.
  change (fun entry : Z * ChitGroupMember.t =>
            (ChitGroupMember.chitGroupId (snd entry) =? gid)
            && (ChitGroupMember.userId (snd entry) =? uid))
    with (isEntryOf gid uid).
  unfold JsMap.entries. rewrite Hmembers.
  rewrite (find_app_none _ _ _ (noMember_find gid uid s Hnone)).
  cbn [find]. rewrite Hentry.
  cbn [fst snd chitGroupMembers users chitGroups chitGroupMemberIdCounter
         withChitGroupMembers].
  rewrite (delete_app_fresh _ _ _ Hb). auto.
Qed.

(** X18. Removing a member removes the membership. When
    [DELETE /api/chitgroups/:groupId/members/:userId] is answered 204 in a
    reachable store, the user is no longer a member of the group, no other
    membership is touched or added, and users and chit groups are as before;
    any other answer (401, 403 or 404) leaves the store as it was. *)
Theorem deleteChitGroupMember_removes rt s session gid uid r s' :
  reachable rt s ->
  serve (deleteChitGroupMember session gid uid) s = (r, s') ->
  (status r = 204 ->
   someMember uid (getChitGroupMembers gid s') = false
   /\ (forall x, In x (JsMap.values (chitGroupMembers s')) <->
                 In x (JsMap.values (chitGroupMembers s))
                 /\ memberPair x <> (gid, uid))
   /\ users s' = users s /\ chitGroups s' = chitGroups s)
  /\ (status r <> 204 ->
      s' = s /\ (status r = 401 \/ status r = 403 \/ status r = 404)).
Proof.
  intros Hr Hserve.
  destruct (reachable_unique rt s Hr) as (_ & Hpairs & Hkeys).
  destruct (isManager_cases session s)
    as [(m & _ & Hrole & sid & -> & Hm)|(code & j & Hrej & Hcode)].
  2:{ unfold serve, deleteChitGroupMember, bind in Hserve.
      rewrite Hrej in Hserve. injection Hserve as <- <-. cbn [status].
      split; [intros ->; destruct Hcode; discriminate|]. tauto. }
  rewrite (deleteChitGroupMember_eval s sid m gid uid Hm Hrole) in Hserve.
  destruct (getChitGroup gid s) as [g|];
    [|injection Hserve as <- <-; cbn; split; [discriminate|auto]].
  destruct (negb (ChitGroup.createdBy g =? User.id m));
    [injection Hserve as <- <-; cbn; split; [discriminate|auto]|].
  destruct (match getUser uid s with Some _ => _ | None => _ end);
    [injection Hserve as <- <-; cbn; split; [discriminate|auto]|].
  destruct (someMember uid (getChitGroupMembers gid s)) eqn:Hsome;
    [|injection Hserve as <- <-; cbn; split; [discriminate|auto]].
  injection Hserve as <- <-. cbn [status].
  split; [intros _|intros H; now contradiction H].
  destruct (someMember_find gid uid s Hsome) as ([k v] & Hfind & Hin & Hpair).
  unfold removeMemberFromChitGroup.
  change (fun entry : Z * ChitGroupMember.t =>
            (ChitGroupMember.chitGroupId (snd entry) =? gid)
            && (ChitGroupMember.userId (snd entry) =? uid))
    with (isEntryOf gid uid).
  rewrite Hfind.
  cbn [fst snd chitGroupMembers users chitGroups withChitGroupMembers].
  cbn [snd] in Hpair.
  assert (forall x, In x (JsMap.values (JsMap.delete k (chitGroupMembers s)))
                    <-> In x (JsMap.values (chitGroupMembers s))
                        /\ memberPair x <> (gid, uid)) as Hleft.
  { intros x. split.
    - intros Hx. split; [now apply In_values_delete in Hx|].
      rewrite <- Hpair.
      exact (delete_removes_the_like _ memberPair k v Hkeys Hpairs Hin x Hx).
    - intros [Hx Hne]. unfold JsMap.values in *.
      apply in_map_iff in Hx as ([k' x'] & Hx' & Hin').
      cbn [snd] in Hx'. subst x'.
      assert (k' <> k) as Hk.
      { intros ->.
        pose proof (JsMapFacts.unique_In_get _ _ _ Hkeys Hin) as G1.
        pose proof (JsMapFacts.unique_In_get _ _ _ Hkeys Hin') as G2.
        rewrite G1 in G2. injection G2 as ->. contradiction. }
      clear - Hin' Hk.
      induction (chitGroupMembers s) as [|[k0 v0] l IH]; simpl in *;
        [contradiction|].
      destruct Hin' as [[= -> ->]|Hin'].
      + destruct (k' =? k) eqn:E; [apply Z.eqb_eq in E; contradiction|].
        now left.
      + destruct (k0 =? k); [now apply (in_map snd) in Hin'|].
        right. now apply IH. }
  split; [|split; [exact Hleft|auto]].
  destruct (someMember uid
              (getChitGroupMembers gid
                 (withChitGroupMembers (JsMap.delete k (chitGroupMembers s))
                    (chitGroupMemberIdCounter s) s))) eqn:Hstill;
    [|reflexivity].
  apply someMember_iff in Hstill as (entry & Hein & Hetest).
  cbn [chitGroupMembers withChitGroupMembers] in Hein.
  assert (memberPair (snd entry) <> (gid, uid)) as Hne.
  { apply Hleft. unfold JsMap.values. now apply in_map. }
  unfold isEntryOf in Hetest. apply andb_true_iff in Hetest as [Hg' Hu'].
  apply Z.eqb_eq in Hg', Hu'. unfold memberPair in Hne. congruence.
Qed.
End Members.

Lemma add_then_remove_member_witness :
  exists member s1 s2,
    serve (Routes.postChitGroupMember 1070 (Some 1) 1
             (Fields (MemberFields.mk (Some 1) (Some 4) (Some "2024-02-01"))))
          demoStore
    = (mkResponse 201 (JMember member), s1)
    /\ serve (Routes.deleteChitGroupMember (Some 1) 1
                (ChitGroupMember.userId member)) s1
       = (mkResponse 204 JEnd, s2)
    /\ chitGroupMembers s2 = chitGroupMembers demoStore.
Proof.
  assert (forall member s1
            (H : serve (Routes.postChitGroupMember 1070 (Some 1) 1
                          (Fields (MemberFields.mk (Some 1) (Some 4)
                                     (Some "2024-02-01")))) demoStore
                 = (mkResponse 201 (JMember member), s1)),
             exists s2,
               serve (Routes.deleteChitGroupMember (Some 1) 1
                        (ChitGroupMember.userId member)) s1
               = (mkResponse 204 JEnd, s2)
               /\ chitGroupMembers s2 = chitGroupMembers demoStore) as Hgen.
  { intros member s1 H.
    destruct (add_then_remove_member 1070 demoStore (Some 1) 1 _ member s1
                eq_refl H)
      as (s2 & Hdelete & Hmembers & _).
    exists s2. auto. }
  eexists. eexists.
  match goal with
  | |- exists s2, ?call = _ /\ _ =>
      assert (call = ltac:(let v := eval vm_compute in call in exact v)) as Hcall
        by (vm_compute; reflexivity)
  end.
  destruct (Hgen _ _ Hcall) as (s2 & Hdelete & Hmembers).
  exists s2. split; [exact Hcall|]. split; [exact Hdelete|exact Hmembers].
Defined.

Lemma deleteChitGroupMember_removes_witness :
  exists s',
    serve (Routes.deleteChitGroupMember (Some 1) 1 3) demoStore
    = (mkResponse 204 JEnd, s')
    /\ Routes.someMember 3 (MemStorage.getChitGroupMembers 1 s') = false.
Proof.
  eexists.
  match goal with
  | |- ?call = _ /\ _ =>
      assert (call = ltac:(let v := eval vm_compute in call in exact v)) as Hcall
        by (vm_compute; reflexivity)
  end.
  split; [exact Hcall|].
  exact (proj1 (proj1 (deleteChitGroupMember_removes demoRuntime demoStore
                         (Some 1) 1 3 _ _ demoStore_reachable Hcall)
                  eq_refl)).
Defined.

(** ** Scheduling auctions *)

Section Auctions.
Import MemStorage Routes.

(** X19. [POST /api/chitgroups/:id/auctions] files the auction under the
    group of the URL. For any manager, whether or not they created the
    group, and any body that parses, the answer is 201 with a fresh auction
    id and the chit group id of the URL, whatever chit group id the body
    names; the auctions of that group are then the old ones followed by the
    new one, and the auctions of every other group are as before. *)
Theorem postChitGroupAuction_files_under_url now s sid m gid g f d :
  wellFormed s = true ->
  getUser sid s = Some m -> User.role m = "manager" ->
  getChitGroup gid s = Some g ->
  Schema.insertAuctionSchema f = Some d ->
  exists a s',
    serve (postChitGroupAuction now (Some sid) gid (Fields f)) s
    = (mkResponse 201 (JAuction a), s')
    /\ Auction.chitGroupId a = gid
    /\ Auction.id a = auctionIdCounter s
    /\ getAuction (Auction.id a) s = None
    /\ getAuction (Auction.id a) s' = Some a
    /\ getAuctionsByChitGroup gid s' = getAuctionsByChitGroup gid s ++ [a]
    /\ forall gid', gid' <> gid ->
         getAuctionsByChitGroup gid' s' = getAuctionsByChitGroup gid' s.
Proof.
  intros Hwf Hm Hrole Hg Hd.
  destruct (wellFormed_parts s Hwf) as (_ & _ & _ & Hb & _).
  do 2 eexists. split.
  { unfold serve, postChitGroupAuction, bind.
    rewrite (isManager_session sid m s Hm Hrole).
    unfold query, command, orElse, ret, validateRequest.
    rewrite Hg, Hd. reflexivity. }
  unfold createAuction, getAuction, getAuctionsByChitGroup.
  cbn [fst snd auctions withAuctions Auction.id Auction.chitGroupId
         InsertAuction.chitGroupId].
  split; [reflexivity|]. split; [reflexivity|].
  split; [eapply JsMapFacts.below_get_none; [exact Hb|lia]|].
  split; [apply JsMapFacts.get_set_same|].
  rewrite (below_fresh _ _ _ Hb). unfold JsMap.values.
  split.
  - rewrite map_app, filter_app. cbn. now rewrite Z.eqb_refl.
  - intros gid' Hne. rewrite map_app, filter_app. cbn.
    destruct (gid =? gid') eqn:E; [apply Z.eqb_eq in E; congruence|].
    now rewrite app_nil_r.
Qed.
End Auctions.

Lemma postChitGroupAuction_files_under_url_witness :
  exists a s',
    serve (Routes.postChitGroupAuction 1080 (Some 2) 1
             (Fields (AuctionFields.mk (Some 7) (Some "2024-05-01") None None
                                       (Some "scheduled") (Some 4))))
          demoStore
    = (mkResponse 201 (JAuction a), s')
    /\ Auction.chitGroupId a = 1.
Proof.
  destruct (postChitGroupAuction_files_under_url 1080 demoStore 2
              ltac:(stored (MemStorage.getUser 2 demoStore)) 1
              ltac:(stored (MemStorage.getChitGroup 1 demoStore))
              (AuctionFields.mk (Some 7) (Some "2024-05-01") None None
                                (Some "scheduled") (Some 4))
              _ eq_refl eq_refl eq_refl eq_refl eq_refl)
    as (a & s' & Hcall & Hgid & _).
  exists a, s'. auto.
Defined.

(** ** Payments and notifications *)

Section Payments.
Import MemStorage Routes.




End Payments.




Section PaymentSeen.
Import MemStorage Routes.

Lemma postPayment_recorded now s session reqBody p s' :
  serve (postPayment now session reqBody) s
  = (mkResponse 201 (JPayment p), s') ->
  exists data chitGroup,
    p = fst (createPayment now data s)
    /\ s' = snd (createNotification now
                   (InsertNotification.mk (InsertPayment.userId data)
                      (paymentMessage data chitGroup) "payment")
                   (snd (createPayment now data s))).
Proof.
  intros Hserve.
  destruct (isManager_cases session s)
    as [(m & _ & Hrole & sid & -> & Hm)|(code & j & Hrej & Hcode)].
  2:{ rewrite (postPayment_not_manager now s session reqBody code j Hrej)
        in Hserve.
      injection Hserve as -> _ _. destruct Hcode; discriminate. }
  rewrite (postPayment_eval now s sid m reqBody Hm Hrole) in Hserve.
  destruct (validateRequest Schema.insertPaymentSchema reqBody) as [data|];
    [|discriminate].
  destruct (getChitGroup (InsertPayment.chitGroupId data) s) as [g|];
    [|discriminate].
  destruct (getUser (InsertPayment.userId data) s); [|discriminate].
  destruct (negb _); [discriminate|].
  exists data, g. split; congruence.
Qed.

(** X23. A recorded payment reaches the payer. After [POST /api/payments]
    was answered 201 there is one new notification, unread, of type
    payment and addressed to the payer; for every user
    [GET /api/notifications] then lists what it listed before, followed by
    that notification exactly when the user is the payer, and for every
    user who is not a manager [GET /api/payments] lists what it listed
    before, followed by the new payment exactly when the user is the
    payer. *)
Theorem recorded_payment_reaches_the_payer now s session reqBody p s' :
  wellFormed s = true ->
  serve (postPayment now session reqBody) s
  = (mkResponse 201 (JPayment p), s') ->
  exists n,
    Notification.isRead n = false
    /\ Notification.type n = "payment"
    /\ Notification.userId n = Payment.userId p
    /\ (forall sid u,
          getUser sid s = Some u ->
          ReadRoutes.getNotifications (Some sid) s'
          = (inr (getNotificationsByUser (User.id u) s
                  ++ (if Payment.userId p =? User.id u then [n] else [])), s'))
    /\ (forall sid u q,
          getUser sid s = Some u -> User.role u <> "manager" ->
          ReadRoutes.getPayments (Some sid) q s'
          = (inr (map (ReadRoutes.paymentDetails s)
                      (getPaymentsByUser (User.id u) s)
                  ++ (if Payment.userId p =? User.id u
                      then [ReadRoutes.paymentDetails s p] else [])), s')).
Proof.
  intros Hwf Hserve.
  destruct (postPayment_recorded now s session reqBody p s' Hserve)
    as (data & g & -> & ->).
  destruct (wellFormed_parts s Hwf) as (_ & _ & _ & _ & _ & Hbp & Hbn & _).
  eexists. split; [|split; [|split; [|split]]].
  4:{ intros sid u Hu.
      unfold ReadRoutes.getNotifications, bind.
      match goal with
      | |- context [isAuthenticated (Some sid) ?st] =>
          rewrite (isAuthenticated_session sid u st Hu)
      end.
      unfold query, getNotificationsByUser, createNotification, createPayment.
      cbn [fst snd notifications withNotifications withPayments
             notificationIdCounter].
      rewrite (below_fresh _ _ _ Hbn). unfold JsMap.values.
      rewrite map_app, filter_app. cbn [map filter snd app].
      cbn [Notification.userId InsertNotification.userId Payment.userId].
      destruct (InsertPayment.userId data =? User.id u); reflexivity. }
  1-3: reflexivity.
  intros sid u q Hu Hrole.
  unfold ReadRoutes.getPayments, bind.
  match goal with
  | |- context [isAuthenticated (Some sid) ?st] =>
      rewrite (isAuthenticated_session sid u st Hu)
  end.
  apply String.eqb_neq in Hrole. rewrite Hrole.
  unfold query, getPaymentsByUser, createNotification, createPayment.
  cbn [fst snd payments withNotifications withPayments].
  rewrite (below_fresh _ _ _ Hbp). unfold JsMap.values.
  rewrite map_app, filter_app, map_app. cbn [map filter snd app].
  cbn [Payment.userId].
  destruct (InsertPayment.userId data =? User.id u); reflexivity.
Qed.
End PaymentSeen.

Lemma recorded_payment_reaches_the_payer_witness :
  exists p s' n,
    serve (Routes.postPayment 1010 (Some 1) (Fields carolPayment)) demoStore
    = (mkResponse 201 (JPayment p), s')
    /\ ReadRoutes.getNotifications (Some 3) s' = (inr [n], s')
    /\ Notification.isRead n = false.
Proof.
  assert (forall p s'
            (H : serve (Routes.postPayment 1010 (Some 1) (Fields carolPayment))
                       demoStore
                 = (mkResponse 201 (JPayment p), s')),
             Payment.userId p = 3 ->
             exists n,
               ReadRoutes.getNotifications (Some 3) s' = (inr [n], s')
               /\ Notification.isRead n = false) as Hgen.
  { intros p s' H Hpayer.
    destruct (recorded_payment_reaches_the_payer 1010 demoStore (Some 1) _
                p s' eq_refl H)
      as (n & Hread & _ & _ & Hnotes & _).
    exists n. split; [|exact Hread].
    rewrite (Hnotes 3 ltac:(stored (MemStorage.getUser 3 demoStore)) eq_refl).
    rewrite Hpayer. reflexivity. }
  eexists. eexists.
  match goal with
  | |- exists n, ?call = _ /\ _ =>
      assert (call = ltac:(let v := eval vm_compute in call in exact v)) as Hcall
        by (vm_compute; reflexivity)
  end.
  destruct (Hgen _ _ Hcall eq_refl) as (n & Hnotes & Hread).
  exists n. split; [exact Hcall|]. split; [exact Hnotes|exact Hread].
Defined.

(** ** What a caller without the right session can do *)

Section Middleware.
Import MemStorage Routes.

Lemma not_manager_rejected session s :
  (forall sid m, session = Some sid -> getUser sid s = Some m ->
                 User.role m <> "manager") ->
  exists code j,
    isManager session s = (inl (mkResponse code j), s)
    /\ (code = 401 \/ code = 403).
Proof.
  intros Hnot.
  destruct (isManager_cases session s)
    as [(m & _ & Hrole & sid & Hs & Hm)|H]; [|exact H].
  exfalso. exact (Hnot sid m Hs Hm Hrole).
Qed.

(** X24. The routes registered behind [isManager] do nothing for anybody
    else. When the session of the request is not that of a stored user
    with role manager, each of the nine routes that create or change chit
    groups, members, auctions, payments and customers answers 401 or 403
    and leaves the store as it was, whatever the body. *)
Theorem manager_routes_need_a_manager rt s req :
  behindIsManager req = true ->
  (forall sid m, sessionOf req = Some sid -> getUser sid s = Some m ->
                 User.role m <> "manager") ->
  snd (serve (handle rt req) s) = s
  /\ (status (fst (serve (handle rt req) s)) = 401
      \/ status (fst (serve (handle rt req) s)) = 403).
Proof.
  intros Hroute Hnot.
  destruct (not_manager_rejected (sessionOf req) s Hnot)
    as (code & j & Hrej & Hcode).
  destruct req; try discriminate Hroute; cbn [sessionOf] in Hrej.
  all: unfold serve, handle, postChitGroup, putChitGroup, postChitGroupMember,
         deleteChitGroupMember, postChitGroupAuction, putAuction, postPayment,
         putPayment, postCustomer, postCustomerChecks, bind.
  all: rewrite Hrej; cbn [fst snd status]; auto.
Qed.

Lemma handle_anonymous rt s req :
  openRoute req = false -> sessionOf req = None ->
  snd (serve (handle rt req) s) = s
  /\ status (fst (serve (handle rt req) s)) = 401.
Proof.
  intros Hroute Hanon.
  destruct req; try discriminate Hroute; cbn [sessionOf] in Hanon;
    subst session.
  all: unfold serve, handle, Auth.postResetPassword,
         Auth.postResetPasswordChecks, getChitGroups,
         getChitGroupById, postChitGroup, putChitGroup, postChitGroupMember,
         deleteChitGroupMember, postChitGroupAuction, putAuction,
         getAuctionBids, postAuctionBid, postPayment, putPayment,
         postNotificationRead, postCustomer, postCustomerChecks, isManager,
         isAuthenticated, reqUser, bind, ret.
  all: cbn; auto.
Qed.

(** X25. A request without a stored user behind it changes nothing, and
    only two routes are open to it. When the request carries no session,
    every route except [POST /api/register] and
    [POST /api/users/:userId/reset-password] answers 401 and leaves the
    store as it was. When the request carries the session of a user who is
    not stored, [passport] fails it before any route runs: every route,
    the two open ones included, answers 500 at arrival, the store is as it
    was and no request waits. *)
Theorem requests_without_a_user_change_nothing rt s req :
  match sessionOf req with
  | None =>
      openRoute req = false ->
      arrive rt req s = (inl (fst (serve (receive rt req) s)), s)
      /\ snd (serve (receive rt req) s) = s
      /\ status (fst (serve (receive rt req) s)) = 401
  | Some sid =>
      getUser sid s = None ->
      arrive rt req s = (inl (mkResponse 500 JEnd), s)
      /\ serve (receive rt req) s = (mkResponse 500 JEnd, s)
  end.
Proof.
  destruct (sessionOf req) as [sid|] eqn:Hs.
  - intros Hu. exact (receive_stale rt req s sid Hs Hu).
  - intros Hroute.
    assert (passportSession (sessionOf req) s = (inr tt, s)) as Hp
      by (rewrite Hs; reflexivity).
    destruct (handle_anonymous rt s req Hroute Hs) as [Hstore Hstatus].
    rewrite (receive_handle rt req s Hp).
    split; [|split; [exact Hstore|exact Hstatus]].
    destruct (arrive_cases rt req s)
      as [(r & Ha & Hh)|[(waits & Ha & _ & Hh)|(Ha & _)]].
    + rewrite Ha, (Hh Hp). reflexivity.
    + exfalso. rewrite Hh in Hstatus.
      destruct waits; cbn in Hstatus; discriminate Hstatus.
    + rewrite Ha, Hstore. reflexivity.
Qed.
End Middleware.

Lemma manager_routes_need_a_manager_witness :
  snd (serve (handle demoRuntime
                (PutAuction (Some 3) 1
                   (Fields (AuctionFields.mk None None None None
                              (Some "cancelled") None)))) demoStore)
  = demoStore.
Proof.
  refine (proj1 (manager_routes_need_a_manager demoRuntime demoStore
                   (PutAuction (Some 3) 1
                      (Fields (AuctionFields.mk None None None None
                                 (Some "cancelled") None)))
                   eq_refl _)).
  intros sid m Hsid Hm. injection Hsid as <-.
  assert (m = ltac:(stored (MemStorage.getUser 3 demoStore))) as ->
    by (vm_compute in Hm; congruence).
  discriminate.
Defined.

Lemma requests_without_a_user_change_nothing_witness :
  status (fst (serve (receive demoRuntime (GetAuctionBids None 1)) demoStore))
  = 401
  /\ serve (receive demoRuntime
              (Register 1090 [x11; x12] (Some 9)
                 (RegisterFields.mk "gina" (Some "gina-secret") "9000000007"
                                    "Gina" None "manager" None))) demoStore
     = (mkResponse 500 JEnd, demoStore).
Proof.
  split.
  - exact (proj2 (proj2 (requests_without_a_user_change_nothing demoRuntime
                           demoStore (GetAuctionBids None 1) eq_refl))).
  - exact (proj2 (requests_without_a_user_change_nothing demoRuntime demoStore
                    (Register 1090 [x11; x12] (Some 9)
                       (RegisterFields.mk "gina" (Some "gina-secret")
                          "9000000007" "Gina" None "manager" None))
                    eq_refl)).
Defined.

(** ** Setting a new password while logged in *)

Section SessionReset.
Import MemStorage Credentials.

(** The lookup by username after the user under [sid] was overwritten by
    a user of the same name. *)
Lemma find_after_set_own (m : JsMap.t User.t) sid current u'
    (test : User.t -> bool) :
  keyIsId User.id m = true ->
  User.id current = sid ->
  JsMap.get sid m = Some current ->
  test u' = true ->
  find test (JsMap.values m) = Some current ->
  find test (JsMap.values (JsMap.set sid u' m)) = Some u'.
Proof.
  intros Hid Hsid. unfold JsMap.values, keyIsId in *.
  induction m as [|[k0 v0] m IH]; simpl in *; [discriminate|].
  apply andb_true_iff in Hid as [Hk0 Hid]. apply Z.eqb_eq in Hk0.
  intros Hget Htest Hfind.
  destruct (k0 =? sid) eqn:E; simpl.
  - now rewrite Htest.
  - destruct (test v0) eqn:T.
    + injection Hfind as ->. apply Z.eqb_neq in E. congruence.
    + now apply IH.
Qed.

Lemma find_after_set_other (m : JsMap.t User.t) sid current u' earlier
    (test : User.t -> bool) :
  JsMap.get sid m = Some current ->
  test u' = test current ->
  earlier <> current ->
  find test (JsMap.values m) = Some earlier ->
  find test (JsMap.values (JsMap.set sid u' m)) = Some earlier.
Proof.
  intros Hget Htest Hne. unfold JsMap.values.
  induction m as [|[k0 v0] m IH]; simpl in *; [discriminate|].
  intros Hfind. destruct (k0 =? sid) eqn:E; simpl.
  - injection Hget as ->. destruct (test current) eqn:T.
    + injection Hfind as ->. contradiction.
    + now rewrite Htest.
  - destruct (test v0); [exact Hfind|now apply IH].
Qed.

(** X26. [POST /api/reset-password] sets the password of the logged-in
    user without asking for the current one. Its checks pass for every
    session of a stored user and every new password, and a body without a
    new password is answered 500. When scrypt has answered, the user stored
    under the id of the session is updated, whatever happened in between:
    the answer is 200 with the updated user, who keeps id, username and
    role, has the new password and is no longer on first login. If the
    lookup by username finds this user, the login strategy then accepts the
    username with the new password and hands over the updated user; if it
    finds an earlier user of the same name, login goes on answering for
    that one. *)
Theorem postResetPassword_then_login rt rnd user newPassword s current :
  wellFormed s = true ->
  getUser (User.id user) s = Some current ->
  (exists u' s',
      serve (Auth.postResetPasswordUpdate rt rnd user newPassword) s
      = (mkResponse 200 (JUser u'), s')
      /\ getUser (User.id user) s' = Some u'
      /\ User.id u' = User.id current
      /\ User.username u' = User.username current
      /\ User.role u' = User.role current
      /\ User.isFirstLogin u' = false
      /\ User.password u' = hashPassword rt rnd newPassword
      /\ (getUserByUsername (User.username current) s = Some current ->
          Login.verify rt (User.username current) newPassword s'
          = Login.DoneUser u')
      /\ (forall earlier,
            getUserByUsername (User.username current) s = Some earlier ->
            earlier <> current ->
            forall supplied,
              Login.verify rt (User.username current) supplied s'
              = Login.verify rt (User.username current) supplied s))
  /\ (forall sid s0,
        getUser sid s0 = Some user ->
        Auth.postResetPasswordChecks (Some sid) (Some newPassword) s0
        = (inr (user, newPassword), s0)
        /\ Auth.postResetPasswordChecks (Some sid) None s0
           = (inl (mkResponse 500 JEnd), s0)).
Proof.
  intros Hwf Hu. split.
  2:{ intros sid s0 H0.
      unfold Auth.postResetPasswordChecks, reqUser, bind, query, rejectIf,
        orElse, ret, respond.
      rewrite H0. split; reflexivity. }
  destruct (wellFormed_user_id _ current s Hwf Hu) as [_ Hid].
  destruct (wellFormed_parts s Hwf)
    as (_ & _ & _ & _ & _ & _ & _ & _ & _ & _ & _ & Hkey).
  unfold Auth.postResetPasswordUpdate, serve, bind, command, ret, updateUser.
  unfold getUser in Hu. rewrite Hu.
  cbn [fst snd jsonOpt spread PartialUser.password PartialUser.isFirstLogin].
  do 2 eexists. split; [reflexivity|].
  split; [unfold getUser; cbn [users withUsers];
          apply JsMapFacts.get_set_same|].
  repeat (split; [reflexivity|]).
  split.
  - intros Hfound. unfold Login.verify, getUserByUsername in *.
    cbn [users withUsers].
    match goal with
    | |- context [JsMap.set _ ?u' _] =>
        rewrite (find_after_set_own (users s) (User.id user) current u'
                   (fun found =>
                      String.eqb (User.username found) (User.username current))
                   Hkey Hid Hu (String.eqb_refl _) Hfound)
    end.
    cbn [User.password]. now rewrite CredentialFacts.hashPassword_verifies.
  - intros earlier Hfound Hne supplied.
    unfold Login.verify, getUserByUsername in *. cbn [users withUsers].
    match goal with
    | |- context [JsMap.set _ ?u' _] =>
        rewrite (find_after_set_other (users s) (User.id user) current u'
                   earlier
                   (fun found =>
                      String.eqb (User.username found) (User.username current))
                   Hu eq_refl Hne Hfound)
    end.
    now rewrite Hfound.
Qed.
End SessionReset.

Lemma postResetPassword_then_login_witness :
  exists u' s',
    serve (Auth.postResetPasswordUpdate demoRuntime [x0f; x10]
             ltac:(stored (MemStorage.getUser 3 demoStore)) "carol-secret")
          demoStore
    = (mkResponse 200 (JUser u'), s')
    /\ Login.verify demoRuntime "carol" "carol-secret" s' = Login.DoneUser u'.
Proof.
  destruct (postResetPassword_then_login demoRuntime [x0f; x10]
              ltac:(stored (MemStorage.getUser 3 demoStore)) "carol-secret"
              demoStore ltac:(stored (MemStorage.getUser 3 demoStore))
              eq_refl eq_refl)
    as ((u' & s' & Hcall & _ & _ & _ & _ & _ & _ & Hverify & _) & _).
  exists u', s'. split; [exact Hcall|]. exact (Hverify eq_refl).
Defined.

(** ** The debug listing *)

Section DebugListing.
Import MemStorage Routes.

(** X27. [GET /api/debug/chitgroup-members] is not scoped by creator. For
    every manager it lists all stored chit groups in store order, also
    those other managers created, each with all of its membership records
    and their number; every other logged-in user is answered 403. The
    store is not changed. *)
Theorem debug_listing_is_not_scoped s sid u :
  getUser sid s = Some u ->
  if String.eqb (User.role u) "manager" then
    exists listed,
      ReadRoutes.getDebugChitGroupMembers (Some sid) s = (inr listed, s)
      /\ map GroupWithMembers.group listed = getAllChitGroups s
      /\ (forall g, getChitGroup (ChitGroup.id g) s = Some g ->
                    In g (map GroupWithMembers.group listed))
      /\ forall entry, In entry listed ->
           GroupWithMembers.members entry
           = getChitGroupMembers (ChitGroup.id (GroupWithMembers.group entry)) s
           /\ GroupWithMembers.memberCount entry
              = Z.of_nat (List.length (GroupWithMembers.members entry))
  else
    exists j,
      ReadRoutes.getDebugChitGroupMembers (Some sid) s
      = (inl (mkResponse 403 j), s).
Proof.
  intros Hu. unfold ReadRoutes.getDebugChitGroupMembers, bind.
  rewrite (isAuthenticated_session sid u s Hu).
  unfold rejectIf, query, ret, respond.
  destruct (String.eqb (User.role u) "manager"); cbn [negb];
    [|eexists; reflexivity].
  eexists. split; [reflexivity|].
  split; [|split].
  - rewrite map_map. cbn [GroupWithMembers.group]. apply map_id.
  - intros g Hg. rewrite map_map. cbn [GroupWithMembers.group].
    rewrite map_id. unfold getChitGroup in Hg.
    now apply JsMapFacts.get_In_values in Hg.
  - intros entry Hin. apply in_map_iff in Hin as (g & <- & _).
    cbn [GroupWithMembers.group GroupWithMembers.members
           GroupWithMembers.memberCount]. auto.
Qed.
End DebugListing.

Lemma debug_listing_is_not_scoped_witness :
  exists listed,
    ReadRoutes.getDebugChitGroupMembers (Some 2) demoStore
    = (inr listed, demoStore)
    /\ map GroupWithMembers.group listed
       = MemStorage.getAllChitGroups demoStore.
Proof.
  destruct (debug_listing_is_not_scoped demoStore 2
              ltac:(stored (MemStorage.getUser 2 demoStore)) eq_refl)
    as (listed & Hcall & Hgroups & _).
  exists listed. split; [exact Hcall|exact Hgroups].
Defined.

(** ** A customer's first login *)

Section CustomerLogin.
Import MemStorage Routes Credentials.

(** X28. A customer account made by a manager, once [POST /api/customers]
    is past its checks and scrypt has answered, is created and answered 201
    with the copy of the stored user without its password. The session
    made of that user resolves to it, and the user is marked as on first
    login unless the body said otherwise. If the username is still free at
    that time, the account is ready for its first login: the login strategy
    accepts the username with the password the manager chose and hands
    over the new user. If another request has taken the username in
    between, the login strategy goes on answering for the earlier user of
    the name and never hands over the new one. *)
Theorem postCustomer_then_login rt now rnd reqUser data s c s' :
  wellFormed s = true ->
  serve (postCustomerCreate rt now rnd reqUser data) s
  = (mkResponse 201 (JUserWithoutPassword c), s') ->
  exists u,
    withoutPassword u = c
    /\ isAuthenticated (Login.serializeUser u) s' = (inr u, s')
    /\ User.username u = InsertUser.username data
    /\ User.isFirstLogin u = spread true (InsertUser.isFirstLogin data)
    /\ (getUserByUsername (InsertUser.username data) s = None ->
        Login.verify rt (InsertUser.username data) (InsertUser.password data) s'
        = Login.DoneUser u)
    /\ (forall earlier,
          getUserByUsername (InsertUser.username data) s = Some earlier ->
          forall supplied,
            Login.verify rt (InsertUser.username data) supplied s'
            = Login.verify rt (InsertUser.username data) supplied s
            /\ Login.verify rt (InsertUser.username data) supplied s'
               <> Login.DoneUser u).
Proof.
  intros Hwf Hserve.
  set (d := customerOf rt rnd (User.id reqUser) data).
  assert (withoutPassword (fst (createUser now d s)) = c
          /\ snd (createUser now d s) = s') as [Hc Hs'].
  { change (serve (postCustomerCreate rt now rnd reqUser data) s)
      with (mkResponse 201
              (JUserWithoutPassword (withoutPassword (fst (createUser now d s)))),
            snd (createUser now d s)) in Hserve.
    split; congruence. }
  destruct (createUser_then_verify rt now rnd d (InsertUser.password data) s
              Hwf eq_refl) as [Hfree Htaken].
  rewrite Hs' in Hfree, Htaken.
  pose proof (createUser_stored now d s) as Hget. rewrite Hs' in Hget.
  exists (fst (createUser now d s)).
  split; [exact Hc|].
  split; [unfold Login.serializeUser; now apply isAuthenticated_session|].
  split; [reflexivity|]. split; [reflexivity|].
  split; [exact Hfree|exact Htaken].
Qed.
End CustomerLogin.

Lemma postCustomer_then_login_witness :
  exists c s' u,
    serve (Routes.postCustomerCreate demoRuntime 1020 [x0b; x0c]
             ltac:(stored (MemStorage.getUser 2 demoStore))
             (InsertUser.mk "erin" "temp789" "9000000005" "Erin" None
                            "customer" None None)) demoStore
    = (mkResponse 201 (JUserWithoutPassword c), s')
    /\ Login.verify demoRuntime "erin" "temp789" s' = Login.DoneUser u
    /\ User.isFirstLogin u = true.
Proof.
  assert (forall c s'
            (H : serve (Routes.postCustomerCreate demoRuntime 1020 [x0b; x0c]
                          ltac:(stored (MemStorage.getUser 2 demoStore))
                          (InsertUser.mk "erin" "temp789" "9000000005"
                                     "Erin" None "customer" None None))
                       demoStore
                 = (mkResponse 201 (JUserWithoutPassword c), s')),
             exists u,
               Login.verify demoRuntime "erin" "temp789" s' = Login.DoneUser u
               /\ User.isFirstLogin u = true) as Hgen.
  { intros c s' H.
    destruct (postCustomer_then_login demoRuntime 1020 [x0b; x0c] _ _
                demoStore c s' eq_refl H)
      as (u & _ & _ & _ & Hfirst & Hverify & _).
    exists u. split; [exact (Hverify eq_refl)|exact Hfirst]. }
  eexists. eexists.
  match goal with
  | |- exists u, ?call = _ /\ _ =>
      assert (call = ltac:(let v := eval vm_compute in call in exact v)) as Hcall
        by (vm_compute; reflexivity)
  end.
  destruct (Hgen _ _ Hcall) as (u & Hverify & Hfirst).
  exists u. split; [exact Hcall|]. split; [exact Hverify|exact Hfirst].
Defined.

(** ** Ids and records over time *)

Section OverTime.
Import MemStorage.

Lemma runFrom_related rt (R : Store -> Store -> Prop) :
  (forall s, R s s) ->
  (forall s1 s2 s3, R s1 s2 -> R s2 s3 -> R s1 s3) ->
  (forall s s', wellFormed s = true -> Effect rt s s' -> R s s') ->
  forall reqs s, wellFormed s = true -> R s (runFrom rt s reqs).
Proof.
  intros Hrefl Htrans Hstep. unfold runFrom.
  induction reqs as [|req reqs IH]; intros s Hwf; simpl; [apply Hrefl|].
  eapply Htrans.
  - apply (Hstep s (step rt s req) Hwf (step_effect rt s req)).
  - apply IH. now apply step_wellFormed.
Qed.

Ltac lookup_set k0 k :=
  let Hne := fresh "Hne" in
  destruct (Z.eq_dec k0 k) as [->|Hne];
  [rewrite JsMapFacts.get_set_same
  |rewrite (JsMapFacts.get_set_other _ _ _ _ Hne)].

Lemma effect_counters rt s s' :
  Effect rt s s' ->
  userIdCounter s <= userIdCounter s'
  /\ chitGroupIdCounter s <= chitGroupIdCounter s'
  /\ chitGroupMemberIdCounter s <= chitGroupMemberIdCounter s'
  /\ auctionIdCounter s <= auctionIdCounter s'
  /\ bidIdCounter s <= bidIdCounter s'
  /\ paymentIdCounter s <= paymentIdCounter s'
  /\ notificationIdCounter s <= notificationIdCounter s'.
Proof.
  intros He. destruct He; open_store; repeat split; lia.
Qed.

(** X29. Ids are never handed out twice. Over any sequence of requests
    from a well-formed store none of the seven id counters decreases, and
    every id a membership has now stays below the counter the next
    membership will take its id from: an id is not reused, also after the
    membership that had it was removed. *)
Theorem ids_are_never_reused rt s reqs :
  wellFormed s = true ->
  (userIdCounter s <= userIdCounter (runFrom rt s reqs)
   /\ chitGroupIdCounter s <= chitGroupIdCounter (runFrom rt s reqs)
   /\ chitGroupMemberIdCounter s <= chitGroupMemberIdCounter (runFrom rt s reqs)
   /\ auctionIdCounter s <= auctionIdCounter (runFrom rt s reqs)
   /\ bidIdCounter s <= bidIdCounter (runFrom rt s reqs)
   /\ paymentIdCounter s <= paymentIdCounter (runFrom rt s reqs)
   /\ notificationIdCounter s <= notificationIdCounter (runFrom rt s reqs))
  /\ (forall k member,
        JsMap.get k (chitGroupMembers s) = Some member ->
        k < chitGroupMemberIdCounter (runFrom rt s reqs)
        /\ forall now d,
            ChitGroupMember.id
              (fst (addMemberToChitGroup now d (runFrom rt s reqs))) <> k).
Proof.
  intros Hwf.
  assert (userIdCounter s <= userIdCounter (runFrom rt s reqs)
          /\ chitGroupIdCounter s <= chitGroupIdCounter (runFrom rt s reqs)
          /\ chitGroupMemberIdCounter s
             <= chitGroupMemberIdCounter (runFrom rt s reqs)
          /\ auctionIdCounter s <= auctionIdCounter (runFrom rt s reqs)
          /\ bidIdCounter s <= bidIdCounter (runFrom rt s reqs)
          /\ paymentIdCounter s <= paymentIdCounter (runFrom rt s reqs)
          /\ notificationIdCounter s
             <= notificationIdCounter (runFrom rt s reqs)) as Hmono.
  { apply (runFrom_related rt
             (fun s s' =>
                userIdCounter s <= userIdCounter s'
                /\ chitGroupIdCounter s <= chitGroupIdCounter s'
                /\ chitGroupMemberIdCounter s <= chitGroupMemberIdCounter s'
                /\ auctionIdCounter s <= auctionIdCounter s'
                /\ bidIdCounter s <= bidIdCounter s'
                /\ paymentIdCounter s <= paymentIdCounter s'
                /\ notificationIdCounter s <= notificationIdCounter s')).
    - intros s0. repeat split; lia.
    - intros s1 s2 s3 H12 H23. repeat split; lia.
    - intros s0 s0' _ He. now apply (effect_counters rt).
    - exact Hwf. }
  split; [exact Hmono|].
  intros k member Hget.
  destruct (wellFormed_parts s Hwf) as (_ & _ & Hb & _).
  pose proof (below_key_lt _ _ _ _ Hb Hget) as Hlt.
  assert (k < chitGroupMemberIdCounter (runFrom rt s reqs)) as Hlt' by lia.
  split; [exact Hlt'|].
  intros now d. unfold addMemberToChitGroup. cbn [fst ChitGroupMember.id]. lia.
Qed.

Lemma effect_payment_kept rt s s' k p :
  wellFormed s = true -> Effect rt s s' ->
  JsMap.get k (payments s) = Some p ->
  exists p', JsMap.get k (payments s') = Some p'.
Proof.
  intros Hwf He Hp.
  destruct (wellFormed_parts s Hwf) as (_ & _ & _ & _ & _ & Hbp & _).
  pose proof (below_key_lt _ _ _ _ Hbp Hp) as Hlt.
  destruct He; open_store.
  all: try solve [eexists; eassumption].
  all: try (rewrite JsMapFacts.get_set_other by lia; eauto).
  all: lookup_set id k; eauto.
Qed.

Lemma effect_notification_kept rt s s' k n :
  wellFormed s = true -> Effect rt s s' ->
  JsMap.get k (notifications s) = Some n ->
  exists n',
    JsMap.get k (notifications s') = Some n'
    /\ Notification.userId n' = Notification.userId n
    /\ Notification.message n' = Notification.message n
    /\ Notification.type n' = Notification.type n
    /\ (Notification.isRead n = true -> Notification.isRead n' = true).
Proof.
  intros Hwf He Hn.
  destruct (wellFormed_parts s Hwf) as (_ & _ & _ & _ & _ & _ & Hbn & _).
  pose proof (below_key_lt _ _ _ _ Hbn Hn) as Hlt.
  destruct He; open_store.
  all: try solve [eexists; split; [eassumption|auto]].
  all: try (rewrite JsMapFacts.get_set_other by lia; eauto 10).
  all: lookup_set id k;
    [eexists; split; [reflexivity|]; cbn;
     match goal with
     | H1 : JsMap.get ?z _ = Some ?x, H2 : JsMap.get ?z _ = Some ?y |- _ =>
         assert (x = y) as -> by congruence
     end; auto
    |eauto 10].
Qed.

(** X30. Only memberships are ever deleted. Over any sequence of requests
    from a well-formed store, an auction stays stored under its id with
    its creation time, a payment stays stored under its key, and a
    notification stays stored under its id with its addressee, message and
    type; a notification that was read stays read. *)
Theorem records_are_kept rt s reqs :
  wellFormed s = true ->
  (forall k a, getAuction k s = Some a ->
     exists a', getAuction k (runFrom rt s reqs) = Some a'
                /\ Auction.id a' = Auction.id a
                /\ Auction.createdAt a' = Auction.createdAt a)
  /\ (forall k p, JsMap.get k (payments s) = Some p ->
        exists p', JsMap.get k (payments (runFrom rt s reqs)) = Some p')
  /\ (forall k n, JsMap.get k (notifications s) = Some n ->
        exists n',
          JsMap.get k (notifications (runFrom rt s reqs)) = Some n'
          /\ Notification.userId n' = Notification.userId n
          /\ Notification.message n' = Notification.message n
          /\ Notification.type n' = Notification.type n
          /\ (Notification.isRead n = true -> Notification.isRead n' = true)).
Proof.
  intros Hwf. split; [|split].
  - apply (runFrom_related rt
             (fun s s' =>
                forall k a, getAuction k s = Some a ->
                  exists a', getAuction k s' = Some a'
                             /\ Auction.id a' = Auction.id a
                             /\ Auction.createdAt a' = Auction.createdAt a));
      [eauto| |intros; eapply effect_auction_kept; eauto|exact Hwf].
    intros s1 s2 s3 H12 H23 k a Ha.
    destruct (H12 k a Ha) as (a2 & Ha2 & Hid2 & Hat2).
    destruct (H23 k a2 Ha2) as (a3 & Ha3 & Hid3 & Hat3).
    exists a3. repeat split; congruence.
  - apply (runFrom_related rt
             (fun s s' =>
                forall k p, JsMap.get k (payments s) = Some p ->
                  exists p', JsMap.get k (payments s') = Some p'));
      [eauto| |intros; eapply effect_payment_kept; eauto|exact Hwf].
    intros s1 s2 s3 H12 H23 k p Hp.
    destruct (H12 k p Hp) as (p2 & Hp2). eauto.
  - apply (runFrom_related rt
             (fun s s' =>
                forall k n, JsMap.get k (notifications s) = Some n ->
                  exists n',
                    JsMap.get k (notifications s') = Some n'
                    /\ Notification.userId n' = Notification.userId n
                    /\ Notification.message n' = Notification.message n
                    /\ Notification.type n' = Notification.type n
                    /\ (Notification.isRead n = true ->
                        Notification.isRead n' = true)));
      [eauto 10| |intros; eapply effect_notification_kept; eauto|exact Hwf].
    intros s1 s2 s3 H12 H23 k n Hn.
    destruct (H12 k n Hn) as (n2 & Hn2 & Hu2 & Hm2 & Ht2 & Hr2).
    destruct (H23 k n2 Hn2) as (n3 & Hn3 & Hu3 & Hm3 & Ht3 & Hr3).
    exists n3. repeat split; try congruence. auto.
Qed.
End OverTime.

Lemma ids_are_never_reused_witness :
  let later :=
    [ DeleteChitGroupMember (Some 1) 1 3;
      PostChitGroupMember 1070 (Some 1) 1
        (Fields (MemberFields.mk (Some 1) (Some 3) (Some "2024-02-01"))) ] in
  1 < chitGroupMemberIdCounter (runFrom demoRuntime demoStore later).
Proof.
  intros later.
  exact (proj1 (proj2 (ids_are_never_reused demoRuntime demoStore later
                         eq_refl)
                  1 ltac:(stored (JsMap.get 1 (chitGroupMembers demoStore)))
                  eq_refl)).
Defined.

Lemma records_are_kept_witness :
  let later :=
    [ PostNotificationRead (Some 4) 1;
      PutPayment (Some 2) 1
        (PartialPayment.mk None None None None None None (Some "overdue")
                           None) ] in
  exists n',
    JsMap.get 1 (notifications (runFrom demoRuntime paidStore later)) = Some n'
    /\ Notification.userId n' = 3.
Proof.
  intros later.
  destruct (proj2 (proj2 (records_are_kept demoRuntime paidStore later eq_refl))
              1 ltac:(stored (JsMap.get 1 (notifications paidStore))) eq_refl)
    as (n' & Hget & Huser & _).
  exists n'. split; [exact Hget|exact Huser].
Defined.

(** ** Usernames, with and without overlap *)

Section Usernames.
Import MemStorage.

Lemma nth_error_middle {A : Type} (l r : list A) (x : A) :
  nth_error (l ++ x :: r) (List.length l) = Some x.
Proof. induction l; simpl; auto. Qed.

Lemma removeNth_middle {A : Type} (l r : list A) (x : A) :
  removeNth (List.length l) (l ++ x :: r) = l ++ r.
Proof. induction l; simpl; [reflexivity|]. now rewrite IHl. Qed.

Lemma runFrom_uniqueUsernames rt s reqs :
  wellFormed s = true -> uniqueUsernames s ->
  uniqueUsernames (runFrom rt s reqs).
Proof.
  unfold runFrom. revert s.
  induction reqs as [|req reqs IH]; intros s Hwf Hu; simpl; [exact Hu|].
  apply IH; [now apply step_wellFormed|].
  destruct (step_cases rt s req) as [->| ->]; [exact Hu|].
  now apply handle_uniqueUsernames.
Qed.

Lemma register_waits rt now rnd reqBody password s :
  getUserByUsername (RegisterFields.username reqBody) s = None ->
  RegisterFields.role reqBody <> "customer" ->
  RegisterFields.password reqBody = Some password ->
  arrive rt (Register now rnd None reqBody) s
  = (inr (RegisterWaits now rnd reqBody password), s).
Proof.
  intros Hfree Hrole Hpw.
  unfold arrive, bind. cbn [sessionOf passportSession]. unfold ret at 1.
  destruct (registerChecks_cases None reqBody s)
    as [(pw & _ & Hpw' & ->)|[(_ & Hnone & _)|(Hno & _)]].
  - unfold ret. congruence.
  - congruence.
  - exfalso. apply Hno. split; assumption.
Qed.

(** X3. Usernames stay unique only as long as registrations do not
    overlap. Requests that run one after the other keep the usernames of a
    well-formed store unique, and the lookup by username then finds a user
    exactly when a stored user has that name. But [POST /api/register]
    tests the username before it waits for scrypt and creates the user
    after: when two registrations of the same free username arrive before
    either is resumed, both pass the test, both create their user, and the
    store holds two users of that name under consecutive ids. *)
Theorem usernames_unique_unless_registrations_overlap rt :
  (forall s reqs,
      wellFormed s = true -> uniqueUsernames s ->
      uniqueUsernames (runFrom rt s reqs)
      /\ forall name u,
          getUserByUsername name (runFrom rt s reqs) = Some u
          <-> In u (getAllUsers (runFrom rt s reqs))
              /\ User.username u = name)
  /\ (forall server now1 rnd1 body1 password1 now2 rnd2 body2 password2,
        serverReachable rt server ->
        getUserByUsername (RegisterFields.username body1) (store server)
        = None ->
        RegisterFields.username body2 = RegisterFields.username body1 ->
        RegisterFields.role body1 <> "customer" ->
        RegisterFields.role body2 <> "customer" ->
        RegisterFields.password body1 = Some password1 ->
        RegisterFields.password body2 = Some password2 ->
        let n := List.length (waiting server) in
        let next := userIdCounter (store server) in
        let after :=
          serverRun rt server
            [ Arrives (Register now1 rnd1 None body1);
              Arrives (Register now2 rnd2 None body2);
              Resumes n; Resumes n ] in
        exists u1 u2,
          users (store after)
          = users (store server) ++ [(next, u1); (next + 1, u2)]
          /\ getUser next (store after) = Some u1
          /\ getUser (next + 1) (store after) = Some u2
          /\ User.username u1 = RegisterFields.username body1
          /\ User.username u2 = RegisterFields.username body1
          /\ ~ uniqueUsernames (store after)
          /\ waiting after = waiting server).
Proof.
  split.
  - intros s reqs Hwf Hu.
    pose proof (runFrom_uniqueUsernames rt s reqs Hwf Hu) as Hn.
    split; [exact Hn|].
    unfold uniqueUsernames in Hn. unfold getAllUsers, getUserByUsername.
    intros name u. split.
    + intros Hfind. apply find_some in Hfind as [Hin Hname].
      split; [exact Hin|]. now apply String.eqb_eq.
    + intros [Hin Hname]. subst name.
      induction (JsMap.values (users (runFrom rt s reqs))) as [|x l IH];
        [contradiction|].
      simpl in *. inversion Hn as [|? ? Hnotin Hnd]; subst.
      destruct Hin as [->|Hin].
      * now rewrite String.eqb_refl.
      * destruct (String.eqb (User.username x) (User.username u)) eqn:E.
        -- apply String.eqb_eq in E. exfalso. apply Hnotin. rewrite E.
           now apply in_map.
        -- now apply IH.
  - intros [s waits] now1 rnd1 body1 password1 now2 rnd2 body2 password2
      Hr Hfree Hname Hrole1 Hrole2 Hpw1 Hpw2 n next after.
    cbn [store waiting] in *.
    pose proof (serverReachable_wellFormed rt _ Hr) as Hwf.
    cbn [store] in Hwf.
    set (d1 := registered rt rnd1 body1 password1).
    set (d2 := registered rt rnd2 body2 password2).
    set (s1 := snd (createUser now1 d1 s)).
    assert (after
            = mkServer (snd (createUser now2 d2 s1)) waits) as ->.
    { subst after n. unfold serverRun. cbn [fold_left react store waiting].
      rewrite (register_waits rt now1 rnd1 body1 password1 s Hfree Hrole1 Hpw1).
      cbn [store waiting].
      rewrite <- Hname in Hfree.
      rewrite (register_waits rt now2 rnd2 body2 password2 s Hfree Hrole2 Hpw2).
      cbn [store waiting]. rewrite <- app_assoc. cbn [app].
      rewrite nth_error_middle, removeNth_middle. cbn [store waiting].
      rewrite (nth_error_middle waits []), (removeNth_middle waits []).
      now rewrite app_nil_r. }
    cbn [store waiting].
    assert (wellFormed s1 = true) as Hwf1 by (apply wf_createUser; exact Hwf).
    pose proof (createUser_users now1 d1 s Hwf) as Husers1.
    pose proof (createUser_users now2 d2 s1 Hwf1) as Husers2.
    fold s1 in Husers1. rewrite Husers1 in Husers2.
    rewrite <- app_assoc in Husers2. cbn [app] in Husers2.
    exists (fst (createUser now1 d1 s)), (fst (createUser now2 d2 s1)).
    split; [exact Husers2|].
    split.
    { apply (createUser_keeps now2 d2 s1 _ _ Hwf1).
      exact (createUser_stored now1 d1 s). }
    split; [exact (createUser_stored now2 d2 s1)|].
    split; [reflexivity|]. split; [exact Hname|].
    split; [|reflexivity].
    unfold uniqueUsernames. rewrite Husers2. unfold JsMap.values.
    rewrite !map_app. cbn [map snd]. intros Hnd.
    apply NoDup_app_remove_l in Hnd.
    inversion Hnd as [|? ? Hnotin _]; subst. apply Hnotin.
    left. cbn. now symmetry.
Qed.
End Usernames.

Lemma usernames_unique_unless_registrations_overlap_witness :
  let erin password :=
    RegisterFields.mk "erin" (Some password) "9000000005" "Erin" None
                      "manager" None in
  ~ uniqueUsernames
      (store (serverRun demoRuntime (mkServer newStore [])
                [ Arrives (Register 1000 [x01; x02] None (erin "first"));
                  Arrives (Register 1001 [x03; x04] None (erin "second"));
                  Resumes 0; Resumes 0 ])).
Proof.
  intros erin.
  destruct (proj2 (usernames_unique_unless_registrations_overlap demoRuntime)
              (mkServer newStore []) 1000 [x01; x02] (erin "first") "first"
              1001 [x03; x04] (erin "second") "second"
              (reachable_start _) eq_refl eq_refl
              ltac:(discriminate) ltac:(discriminate) eq_refl eq_refl)
    as (u1 & u2 & _ & _ & _ & _ & _ & Hnot & _).
  exact Hnot.
Defined.
